(** * Odoo Setup Assistant: requirement checker and log analyzer

  A shallow embedding of
  [odoo_setup_assistant/checkers/log_analyzer.py] and
  [odoo_setup_assistant/checkers/addon_requirements_checker.py],
  followed by the properties established about them.

  Python values are represented as follows: a [str] is the list of its
  code points, a [bytes] object is a list of bytes, an [int] is a [Z], a
  [list] is a [list], a [dict] is an association list kept in insertion
  order.  An operation that may raise returns a [result]. *)

From Stdlib Require Import List ZArith NArith Bool Ascii String Strings.Byte Lia.
From Stdlib Require Import DecimalString.
From Stdlib Require Import Permutation.
Import ListNotations.

Set Implicit Arguments.

(* ================================================================== *)
(** * Python preliminaries *)
(* ================================================================== *)

Module Py.

(** ** Strings *)

Local Open Scope N_scope.

Definition codepoint := N.
Definition str := list codepoint.
Definition bytes := list byte.

(** An ASCII literal of the source, written as a Rocq string. *)
Definition lit (s : string) : str :=
  map Byte.to_N (list_byte_of_string s).

Definition bytes_lit (s : string) : bytes := list_byte_of_string s.

Fixpoint str_eqb (a b : str) : bool :=
  match a, b with
  | [], [] => true
  | x :: a', y :: b' => N.eqb x y && str_eqb a' b'
  | _, _ => false
  end.

Fixpoint startswith (s p : str) : bool :=
  match p, s with
  | [], _ => true
  | x :: p', y :: s' => N.eqb x y && startswith s' p'
  | _ :: _, [] => false
  end.

(** [needle in hay]. *)
Fixpoint contains (needle hay : str) : bool :=
  startswith hay needle ||
  match hay with
  | [] => false
  | _ :: hay' => contains needle hay'
  end.

(** [str(n)] for a non-negative integer. *)
Definition str_of_nat (n : nat) : str :=
  lit (NilEmpty.string_of_uint (Nat.to_uint n)).

Definition str_of_Z (z : Z) : str :=
  if (z <? 0)%Z then lit "-" ++ str_of_nat (Z.to_nat (- z))
  else str_of_nat (Z.to_nat z).

(** [sep.join(parts)]. *)
Fixpoint join (sep : str) (parts : list str) : str :=
  match parts with
  | [] => []
  | [p] => p
  | p :: rest => p ++ sep ++ join sep rest
  end.

(** ** Slices *)

(** [l[start:]]: a negative start counts from the end, and both ends are
    clipped to the list. *)
Definition slice_from {A} (start : Z) (l : list A) : list A :=
  let len := Z.of_nat (List.length l) in
  let i := (if start <? 0 then Z.max (len + start) 0 else Z.min start len)%Z in
  skipn (Z.to_nat i) l.

(** [l[:-1]]. *)
Definition drop_last {A} (l : list A) : list A := removelast l.

(** ** [str.splitlines()] *)

Definition is_linebreak (c : codepoint) : bool :=
  (N.eqb c 10 || N.eqb c 13 || N.eqb c 11 || N.eqb c 12 ||
   N.eqb c 28 || N.eqb c 29 || N.eqb c 30 || N.eqb c 133 ||
   N.eqb c 8232 || N.eqb c 8233)%bool.

(** Lines are cut at every line boundary, a CR LF pair counts once, the
    boundaries are dropped and no empty line is reported after a final
    boundary. *)
Fixpoint splitlines (s : str) : list str :=
  match s with
  | [] => []
  | c :: rest =>
      if is_linebreak c then
        [] :: match rest with
              | [] => []
              | d :: rest' =>
                  if (N.eqb c 13 && N.eqb d 10)%bool then splitlines rest'
                  else splitlines rest
              end
      else
        match splitlines rest with
        | [] => [[c]]
        | l :: ls => (c :: l) :: ls
        end
  end.

(** ** [bytes.decode('utf-8', errors='replace')] *)

Definition REPLACEMENT : codepoint := 65533.

Definition in_range (lo hi b : N) : bool := (N.leb lo b && N.leb b hi)%bool.

Definition is_continuation (b : N) : bool := in_range 128 191 b.

(** For a lead byte: the number of bytes that follow it and the range that
    the first of them must lie in. *)
Definition utf8_lead (b : N) : option (nat * N * N) :=
  if in_range 194 223 b then Some (1%nat, 128, 191)
  else if N.eqb b 224 then Some (2%nat, 160, 191)
  else if in_range 225 236 b then Some (2%nat, 128, 191)
  else if N.eqb b 237 then Some (2%nat, 128, 159)
  else if in_range 238 239 b then Some (2%nat, 128, 191)
  else if N.eqb b 240 then Some (3%nat, 144, 191)
  else if in_range 241 243 b then Some (3%nat, 128, 191)
  else if N.eqb b 244 then Some (3%nat, 128, 143)
  else None.

Definition low6 (b : N) : N := N.land b 63.

(** Every maximal ill-formed prefix is replaced by one U+FFFD and decoding
    resumes at the byte that broke the sequence. *)
Fixpoint decode_utf8_replace (bs : bytes) : str :=
  match bs with
  | [] => []
  | x0 :: r1 =>
      let b0 := Byte.to_N x0 in
      if N.ltb b0 128 then b0 :: decode_utf8_replace r1
      else
        match utf8_lead b0 with
        | None => REPLACEMENT :: decode_utf8_replace r1
        | Some (extra, lo, hi) =>
            match r1 with
            | [] => [REPLACEMENT]
            | x1 :: r2 =>
                let b1 := Byte.to_N x1 in
                if negb (in_range lo hi b1)
                then REPLACEMENT :: decode_utf8_replace r1
                else
                  match extra with
                  | 1%nat => (N.land b0 31 * 64 + low6 b1)%N :: decode_utf8_replace r2
                  | _ =>
                      match r2 with
                      | [] => [REPLACEMENT]
                      | x2 :: r3 =>
                          let b2 := Byte.to_N x2 in
                          if negb (is_continuation b2)
                          then REPLACEMENT :: decode_utf8_replace r2
                          else
                            match extra with
                            | 2%nat => (N.land b0 15 * 4096 + low6 b1 * 64 + low6 b2)%N
                                     :: decode_utf8_replace r3
                            | _ =>
                                match r3 with
                                | [] => [REPLACEMENT]
                                | x3 :: r4 =>
                                    let b3 := Byte.to_N x3 in
                                    if negb (is_continuation b3)
                                    then REPLACEMENT :: decode_utf8_replace r3
                                    else (N.land b0 7 * 262144 + low6 b1 * 4096
                                          + low6 b2 * 64 + low6 b3)%N
                                           :: decode_utf8_replace r4
                                end
                            end
                      end
                  end
            end
        end
  end.

(** ** [str.strip()], [str.split(sep)], [os.path.join] *)

Definition is_space (c : codepoint) : bool :=
  in_range 9 13 c || in_range 28 32 c || N.eqb c 133 || N.eqb c 160
  || N.eqb c 5760 || in_range 8192 8202 c || N.eqb c 8232 || N.eqb c 8233
  || N.eqb c 8239 || N.eqb c 8287 || N.eqb c 12288.

Fixpoint lstrip (s : str) : str :=
  match s with
  | c :: s' => if is_space c then lstrip s' else s
  | [] => []
  end.

Definition strip (s : str) : str := rev (lstrip (rev (lstrip s))).

(** [split_go sep skip cur s]: [cur] holds the current piece in reverse and
    [skip] counts the characters of a separator still to be passed. *)
Fixpoint split_go (sep : str) (skip : nat) (cur : str) (s : str) : list str :=
  match s with
  | [] => [rev cur]
  | c :: s' =>
      match skip with
      | S k => split_go sep k cur s'
      | O =>
          if startswith s sep
          then rev cur :: split_go sep (List.length sep - 1) [] s'
          else split_go sep 0 (c :: cur) s'
      end
  end.

(** [s.split(sep)] for a non-empty separator. *)
Definition split (sep s : str) : list str := split_go sep 0 [] s.

(** [s.split(sep)[0]] *)
Definition split0 (sep : string) (s : str) : str := hd [] (split (lit sep) s).

(** [os.path.join(a, b)] on a POSIX host. *)
Definition path_join (a b : str) : str :=
  match b with
  | 47 :: _ => b
  | _ =>
      match rev a with
      | [] => b
      | 47 :: _ => a ++ b
      | _ => a ++ [47] ++ b
      end
  end.

(** ** Exceptions *)

Inductive exn_class :=
| FileNotFoundError
| PermissionError
| UnicodeDecodeError
| AttributeError
| NameError
| PackageNotFoundError
| DistributionNotFound
| InvalidRequirement
| TimeoutExpired
| OtherError.

Record exn := Exn { exn_cls : exn_class; exn_msg : str }.

Inductive result (A : Type) :=
| Ok (a : A)
| Raise (e : exn).
Arguments Ok {A} a.
Arguments Raise {A} e.

Definition exn_class_eqb (a b : exn_class) : bool :=
  match a, b with
  | FileNotFoundError, FileNotFoundError
  | PermissionError, PermissionError
  | UnicodeDecodeError, UnicodeDecodeError
  | AttributeError, AttributeError
  | NameError, NameError
  | PackageNotFoundError, PackageNotFoundError
  | DistributionNotFound, DistributionNotFound
  | InvalidRequirement, InvalidRequirement
  | TimeoutExpired, TimeoutExpired
  | OtherError, OtherError => true
  | _, _ => false
  end.

(** ** Dictionaries: association lists in insertion order *)

Definition dict (V : Type) := list (str * V).

Fixpoint dict_get {V} (d : dict V) (k : str) : option V :=
  match d with
  | [] => None
  | (k', v) :: d' => if str_eqb k' k then Some v else dict_get d' k
  end.

(** [d[k] = v]: an existing key keeps its position. *)
Fixpoint dict_set {V} (d : dict V) (k : str) (v : V) : dict V :=
  match d with
  | [] => [(k, v)]
  | (k', v') :: d' =>
      if str_eqb k' k then (k', v) :: d' else (k', v') :: dict_set d' k v
  end.

Definition dict_keys {V} (d : dict V) : list str := map fst d.

End Py.

(* ================================================================== *)
(** * checkers/log_analyzer.py *)
(* ================================================================== *)

(** The calls to the module logger do not change what the functions
    return and are left out. *)

Module LogAnalyzer.
Import Py.
Local Open Scope Z_scope.

(** ** The file system as the tailer sees it *)

Inductive file_status :=
| Absent                  (* [os.path.exists] is false *)
| NoReadAccess            (* the path exists, [os.access(_, R_OK)] is false *)
| ReadFails (e : exn)     (* [open], [seek] or [read] raises [e] *)
| Contents (data : bytes).

Definition filesystem := str -> file_status.

(** ** [_efficient_tail] *)

Definition buffer_size : Z := 1024 * 4.

(** [f.seek(pos); f.read(len)] *)
Definition read_chunk (data : bytes) (pos len : Z) : bytes :=
  firstn (Z.to_nat len) (skipn (Z.to_nat pos) data).

(** The loop state: [lines_found] and [bytes_read_total]. *)
Definition tail_state := (list str * Z)%type.

Definition tail_cond (n_lines end_byte : Z) (st : tail_state) : bool :=
  (Z.of_nat (List.length (fst st)) <? n_lines + 1) && (snd st <? end_byte).

(** One pass through the body of the [while] loop.  [errors='replace']
    never raises, so the [latin-1] handler of the source is not reachable. *)
Definition tail_body (data : bytes) (end_byte : Z) (st : tail_state) : tail_state :=
  let '(lines_found, bytes_read_total) := st in
  let offset := Z.min buffer_size (end_byte - bytes_read_total) in
  let bytes_read_total := bytes_read_total + offset in
  let chunk := read_chunk data (end_byte - bytes_read_total) offset in
  let current_lines := splitlines (decode_utf8_replace chunk) in
  let '(lines_found, current_lines) :=
    match lines_found, current_lines with
    | first :: others, _ :: _ =>
        ((last current_lines [] ++ first) :: others, drop_last current_lines)
    | _, _ => (lines_found, current_lines)
    end in
  (current_lines ++ lines_found, bytes_read_total).

(** The [while] loop; every pass reads at least one byte, so [end_byte]
    passes always suffice (lemma [tail_loop_exits]). *)
Fixpoint tail_loop (fuel : nat) (data : bytes) (n_lines end_byte : Z)
    (st : tail_state) : tail_state :=
  match fuel with
  | O => st
  | S fuel' =>
      if tail_cond n_lines end_byte st
      then tail_loop fuel' data n_lines end_byte (tail_body data end_byte st)
      else st
  end.

(** The part of [_efficient_tail] that runs once the file is open. *)
Definition tail_of_bytes (data : bytes) (n_lines : Z) : list str :=
  let end_byte := Z.of_nat (List.length data) in
  if end_byte =? 0 then []
  else
    let '(lines_found, _) :=
      tail_loop (List.length data) data n_lines end_byte ([], 0) in
    slice_from (- n_lines) lines_found.

Definition _efficient_tail (fs : filesystem) (filepath : option str)
    (n_lines : Z) : result (list str) :=
  match filepath with
  | None | Some [] =>
      Raise (Exn FileNotFoundError (lit "Log file not found at path not configured"))
  | Some path =>
      match fs path with
      | Absent =>
          Raise (Exn FileNotFoundError (lit "Log file not found at " ++ path))
      | NoReadAccess =>
          Raise (Exn PermissionError (lit "No read permission for log file at " ++ path))
      | ReadFails e => Raise e
      | Contents data => Ok (tail_of_bytes data n_lines)
      end
  end.

(** ** [get_filtered_log_lines] *)

(** An argument that is either [None] or a string. *)
Inductive pyarg :=
| PyNone
| PyStr (s : str).

Definition truthy (a : pyarg) : bool :=
  match a with
  | PyStr (_ :: _) => true
  | _ => false
  end.

(** [a != 'literal'] *)
Definition arg_ne (a : pyarg) (s : str) : bool :=
  match a with
  | PyNone => true
  | PyStr t => negb (str_eqb t s)
  end.

(** [a in [...]] for a list of string literals *)
Definition arg_in (a : pyarg) (l : list str) : bool :=
  match a with
  | PyNone => false
  | PyStr t => existsb (str_eqb t) l
  end.

(** Uses of the structured log-line grammar are recorded, so that it can be
    told whether [LOG_LINE_REGEX] was applied to a line. *)
Inductive event :=
| RegexApplied (line : str).

Section Filter.

(** The library functions the filter relies on: [str.lower], [str.upper]
    and [LOG_LINE_REGEX.match], which yields the [level] group of a line
    that has the structure
    [TIMESTAMP PID LEVEL DATABASE MODULE: MESSAGE]. *)
Variable str_lower : str -> str.
Variable str_upper : str -> str.
Variable LOG_LINE_REGEX_match : str -> option str.

(** The keyword test: [false] when a keyword is given and the line does
    not contain it. *)
Definition keyword_passes (keyword_filter : pyarg) (line : str) : bool :=
  match keyword_filter with
  | PyStr (c :: k) => contains (str_lower (c :: k)) (str_lower line)
  | _ => true
  end.

(** The level test on a line that passed the keyword test.  Calling
    [.upper()] on [None] raises. *)
Definition level_passes (level_filter : pyarg) (line : str)
  : list event * result bool :=
  if arg_ne level_filter (lit "ALL") then
    ([RegexApplied line],
     match LOG_LINE_REGEX_match line with
     | Some level =>
         match level_filter with
         | PyNone =>
             Raise (Exn AttributeError
                      (lit "'NoneType' object has no attribute 'upper'"))
         | PyStr l => Ok (str_eqb (str_upper level) (str_upper l))
         end
     | None => Ok (arg_in level_filter [lit "INFO"; lit "DEBUG"])
     end)
  else ([], Ok true).

(** The body of the [for] loop: the final value of [line_passes]. *)
Definition line_passes (level_filter keyword_filter : pyarg) (line : str)
  : list event * result bool :=
  if keyword_passes keyword_filter line
  then level_passes level_filter line
  else ([], Ok false).

(** The [for] loop, yielding [filtered_lines]. *)
Fixpoint filter_lines (level_filter keyword_filter : pyarg)
    (raw_lines : list str) : list event * result (list str) :=
  match raw_lines with
  | [] => ([], Ok [])
  | line :: rest =>
      match line_passes level_filter keyword_filter line with
      | (ev, Raise e) => (ev, Raise e)
      | (ev, Ok keep) =>
          match filter_lines level_filter keyword_filter rest with
          | (ev', Raise e) => (ev ++ ev', Raise e)
          | (ev', Ok kept) =>
              (ev ++ ev', Ok (if keep then line :: kept else kept))
          end
      end
  end.

Definition get_filtered_log_lines (fs : filesystem) (log_file_path : option str)
    (num_lines : Z) (level_filter keyword_filter : pyarg)
  : list event * result (list str * str) :=
  match log_file_path with
  | None | Some [] =>
      ([], Ok ([lit "Odoo log file path ('logfile') is not configured in odoo.conf."],
               lit "no_log_file"))
  | Some path =>
      match _efficient_tail fs log_file_path num_lines with
      | Raise (Exn FileNotFoundError _) =>
          ([], Ok ([lit "Log file '" ++ path ++ lit "' not found."],
                   lit "no_log_file"))
      | Raise (Exn PermissionError _) =>
          ([], Ok ([lit "Permission denied when trying to read log file '"
                      ++ path ++ lit "'."],
                   lit "error_reading"))
      | Raise (Exn _ msg) =>
          ([], Ok ([lit "An error occurred while reading the log file: " ++ msg],
                   lit "error_reading"))
      | Ok [] =>
          ([], Ok ([lit "Log file is empty or no lines fetched."], lit "success"))
      | Ok raw_lines =>
          match filter_lines level_filter keyword_filter raw_lines with
          | (ev, Raise e) => (ev, Raise e)
          | (ev, Ok []) =>
              (ev, Ok ([lit "No log entries found matching the current filter criteria."],
                       lit "empty_after_filter"))
          | (ev, Ok filtered_lines) => (ev, Ok (filtered_lines, lit "success"))
          end
      end
  end.

End Filter.

(** ** [diagnose_logs] *)

Definition dq : string := String (ascii_of_nat 34) EmptyString.

(** A rule's second component: a fixed hint, or a function of the match,
    given here the list of the match's groups ([match.group(1)] is its
    head). *)
Inductive hint_or_func :=
| Hint (text : str)
| HintFunc (f : list str -> str).

Definition group1 (groups : list str) : str := nth 0 groups [].

(** The patterns are kept as their source text; all of them are compiled
    with [re.IGNORECASE]. *)
Definition DIAGNOSTIC_PATTERNS : list (str * hint_or_func) :=
  [ (lit ("OperationalError: FATAL:\s+database \" ++ dq ++ ".*\" ++ dq ++ " does not exist")%string,
     Hint (lit "Hint: The database Odoo is trying to connect to does not exist. Verify 'db_name' in odoo.conf or ensure the database is created in PostgreSQL."));
    (lit "psycopg2\.OperationalError: FATAL:\s+password authentication failed for user",
     Hint (lit "Hint: PostgreSQL password authentication failed. Check 'db_user' and 'db_password' in odoo.conf and ensure the user has correct privileges in PostgreSQL."));
    (lit "Connection refused",
     Hint (lit "Hint: Odoo could not connect to the PostgreSQL server. Ensure PostgreSQL is running, accessible on the configured 'db_host' and 'db_port', and check firewall rules."));
    (lit "wkhtmltopdf: error",
     Hint (lit "Hint: An error occurred with wkhtmltopdf, likely during PDF report generation. Ensure wkhtmltopdf is correctly installed, in PATH, and has necessary permissions/dependencies (e.g., libXrender)."));
    (lit "Permission denied",
     Hint (lit "Hint: 'Permission denied' error detected. This could relate to file system access (e.g., attachments, log file, addons path), database access, or other system resources. Check the full error message for context."));
    (lit "ImportError: No module named '(\w+)'",
     HintFunc (fun groups =>
       lit "Hint: Python module '" ++ group1 groups
         ++ lit "' not found. This module needs to be installed in your Odoo's Python environment (e.g., using 'pip install "
         ++ group1 groups ++ lit "')."));
    (lit "could not translate host name .* to address: Temporary failure in name resolution",
     Hint (lit "Hint: DNS resolution failed. The server could not resolve a hostname (e.g., for outgoing connections like SMTP or external APIs). Check DNS configuration and network connectivity."));
    (lit "bus.Bus unavailable, Bus.Notification unavailable",
     Hint (lit "Hint: Longpolling/Bus features might be unavailable. This could be due to 'workers > 0' not being set, or issues with the longpolling port (default 8072) if using a reverse proxy or firewall.")) ].

Definition NO_HINT : str :=
  lit "No specific common issues automatically diagnosed from the current log view. Review logs manually for details.".

(** [f"- {hint_text} (related to log: ...{line[-150:]})"] *)
Definition format_hint (hint_text line : str) : str :=
  lit "- " ++ hint_text ++ lit " (related to log: ..." ++ slice_from (-150) line ++ lit ")".

Section Diagnose.

(** [pattern.search(line)] for a pattern compiled with [re.IGNORECASE]:
    the groups of the first match, if there is one. *)
Variable re_search : str -> str -> option (list str).

(** The state of a run: [hints], and [unique_hints] listed in the order
    the texts were added. *)
Definition diag_state := (list str * list str)%type.

Definition is_candidate (line : str) : bool :=
  contains (lit "ERROR") line || contains (lit "CRITICAL") line
  || contains (lit "WARNING") line.

(** The inner [for] loop over the rules, for one line. *)
Fixpoint apply_rules (rules : list (str * hint_or_func)) (line : str)
    (st : diag_state) : diag_state :=
  match rules with
  | [] => st
  | (pattern, action) :: rules' =>
      let st' :=
        match re_search pattern line with
        | Some groups =>
            let hint_text :=
              match action with
              | HintFunc f => f groups
              | Hint text => text
              end in
            let '(hints, unique_hints) := st in
            if negb (existsb (str_eqb hint_text) unique_hints)
            then (hints ++ [format_hint hint_text line],
                  unique_hints ++ [hint_text])
            else st
        | None => st
        end in
      apply_rules rules' line st'
  end.

(** The outer [for] loop over the lines. *)
Fixpoint diagnose_loop (rules : list (str * hint_or_func))
    (log_lines : list str) (st : diag_state) : diag_state :=
  match log_lines with
  | [] => st
  | line :: rest =>
      diagnose_loop rules rest
        (if negb (is_candidate line) then st else apply_rules rules line st)
  end.

Definition diagnose_run (log_lines : list str) : diag_state :=
  diagnose_loop DIAGNOSTIC_PATTERNS log_lines ([], []).

Definition diagnose_logs (log_lines : list str) : list str :=
  match fst (diagnose_run log_lines) with
  | [] => [NO_HINT]
  | hints => hints
  end.

End Diagnose.

End LogAnalyzer.


(* ================================================================== *)
(** * checkers/addon_requirements_checker.py *)
(* ================================================================== *)

Module AddonRequirementsChecker.
Import Py.
Local Open Scope N_scope.

(** ** Diagnostics

    [_add_message] and the direct uses of [_logger] hand a record to the
    module logger; a function that logs returns its records next to its
    value. *)

Inductive level := Info | Warning | Error.

Definition log := list (level * str).

Definition _add_message (message : str) (lvl : level) : log := [(lvl, message)].

(** ** What the import of the module left behind

    [import importlib.metadata as importlib_metadata] either succeeds, and
    then [pkg_resources] is never imported, or fails, and then
    [pkg_resources] is imported in its place.  The checks below do not test
    which of the two names is bound: they test whether a module called
    [importlib_metadata] is present in [sys.modules]. *)

Record imports := {
  importlib_metadata_bound : bool;
  importlib_metadata_in_sys_modules : bool;
  PACKAGING_LIB_AVAILABLE : bool
}.

Definition pkg_resources_bound (i : imports) : bool :=
  negb (importlib_metadata_bound i).

Definition name_error (name : string) : exn :=
  Exn NameError (lit "name '" ++ lit name ++ lit "' is not defined").

(** ** Requirement files and the directories that hold them *)

(** [open(path, 'r', encoding='utf-8')] followed by iteration over the
    file: the lines that were produced, and the exception that ended the
    iteration if one did. *)
Inductive text_file :=
| OpenFails (e : exn)
| Yields (lines : list str) (failure : option exn).

Record filesystem := {
  isdir : str -> bool;
  exists_ : str -> bool;
  listdir : str -> result (list str);
  open_utf8 : str -> text_file
}.

(** A value of the [module_requirements] dictionary. *)
Record details := {
  path : str;
  requirements_file : str;
  packages : list str
}.

(** [[p.strip() for p in paths_str.split(',') if p.strip()]] *)
Definition _get_addons_paths (paths_str : str) : log * list str :=
  match paths_str with
  | [] => (_add_message (lit "Addons path not configured in odoo.conf.") Warning, [])
  | _ =>
      ([], map strip
             (filter (fun p => match strip p with [] => false | _ => true end)
                     (split (lit ",") paths_str)))
  end.

(** The lines kept by the loop of [_parse_requirements_file]. *)
Fixpoint requirement_lines (lines : list str) : list str :=
  match lines with
  | [] => []
  | line :: rest =>
      let line := strip line in
      match line with
      | [] => requirement_lines rest
      | _ =>
          if negb (startswith line (lit "#"))
          then line :: requirement_lines rest
          else requirement_lines rest
      end
  end.

Definition reading_error (file_path : str) (e : exn) : str :=
  lit "Error reading requirements file " ++ file_path ++ lit ": " ++ exn_msg e.

Definition _parse_requirements_file (fs : filesystem) (file_path : str)
  : log * list str :=
  match open_utf8 fs file_path with
  | OpenFails e => (_add_message (reading_error file_path e) Error, [])
  | Yields lines None => ([], requirement_lines lines)
  | Yields lines (Some e) =>
      (_add_message (reading_error file_path e) Error, requirement_lines lines)
  end.

(** The body of the loop over [os.listdir(addons_path)]. *)
Definition scan_module (fs : filesystem) (addons_path module_name : str)
    (module_requirements : dict details) : log * dict details :=
  let module_path := path_join addons_path module_name in
  let manifest_path := path_join module_path (lit "__manifest__.py") in
  if isdir fs module_path && exists_ fs manifest_path then
    let requirements_file_path := path_join module_path (lit "requirements.txt") in
    if exists_ fs requirements_file_path then
      let '(l, packages) := _parse_requirements_file fs requirements_file_path in
      match packages with
      | [] => (l, module_requirements)
      | _ =>
          (l, dict_set module_requirements module_name
                {| path := module_path;
                   requirements_file := requirements_file_path;
                   packages := packages |})
      end
    else ([], module_requirements)
  else ([], module_requirements).

Fixpoint scan_modules (fs : filesystem) (addons_path : str)
    (module_names : list str) (module_requirements : dict details)
  : log * dict details :=
  match module_names with
  | [] => ([], module_requirements)
  | module_name :: rest =>
      let '(l, d) := scan_module fs addons_path module_name module_requirements in
      let '(l', d') := scan_modules fs addons_path rest d in
      (l ++ l', d')
  end.

(** The body of the loop over [self.addons_paths]. *)
Definition scan_addons_path (fs : filesystem) (addons_path : str)
    (module_requirements : dict details) : log * dict details :=
  if negb (isdir fs addons_path) then
    (_add_message
       (lit "Addons path does not exist or is not a directory: " ++ addons_path)
       Warning,
     module_requirements)
  else
    match listdir fs addons_path with
    | Ok module_names => scan_modules fs addons_path module_names module_requirements
    | Raise e =>
        (_add_message
           (lit "Error scanning addons path " ++ addons_path ++ lit ": " ++ exn_msg e)
           Error,
         module_requirements)
    end.

Fixpoint scan_addons_paths (fs : filesystem) (addons_paths : list str)
    (module_requirements : dict details) : log * dict details :=
  match addons_paths with
  | [] => ([], module_requirements)
  | addons_path :: rest =>
      let '(l, d) := scan_addons_path fs addons_path module_requirements in
      let '(l', d') := scan_addons_paths fs rest d in
      (l ++ l', d')
  end.

Definition find_requirements (fs : filesystem) (addons_paths : list str)
  : log * dict details :=
  match addons_paths with
  | [] => (_add_message (lit "No addons paths to scan.") Warning, [])
  | _ => scan_addons_paths fs addons_paths []
  end.

(** ** Checking one requirement *)

(** [spec.split('==')[0].split('>=')[0]. ... .split('<')[0].strip()] *)
Definition name_only (package_spec : str) : str :=
  strip
    (split0 "<" (split0 ">" (split0 "~=" (split0 "!=" (split0 "<="
       (split0 ">=" (split0 "==" package_spec))))))).

(** The triple returned by the checks:
    [(is_installed, status_msg, req_ver_spec_str)]. *)
Definition check := (bool * str * option str)%type.

Section Checker.

(** The state of the imports, the two registries of installed
    distributions (each gives the [version] of a distribution or raises),
    and the [packaging] library. *)
Variable imp : imports.
Variable importlib_metadata_distribution : str -> result str.
Variable pkg_resources_get_distribution : str -> result str.

Variables Version SpecifierSet : Type.
Variable Requirement : str -> result (str * SpecifierSet).
Variable canonicalize_name : str -> str.
Variable parse_version : str -> result Version.
Variable specifier_nonempty : SpecifierSet -> bool.
Variable version_in : Version -> SpecifierSet -> bool.
Variable str_of_version : Version -> str.
Variable str_of_specifier : SpecifierSet -> str.

(** [importlib_metadata.distribution(name).version if 'importlib_metadata'
    in sys.modules else pkg_resources.get_distribution(name).version] *)
Definition installed_version (name : str) : result str :=
  if importlib_metadata_in_sys_modules imp then
    if importlib_metadata_bound imp
    then importlib_metadata_distribution name
    else Raise (name_error "importlib_metadata")
  else
    if pkg_resources_bound imp
    then pkg_resources_get_distribution name
    else Raise (name_error "pkg_resources").

(** The expression of the first [except] clause of both checks:
    [importlib_metadata.PackageNotFoundError if 'importlib_metadata' in
    sys.modules else pkg_resources.DistributionNotFound] *)
Definition not_found_class : result exn_class :=
  if importlib_metadata_in_sys_modules imp then
    if importlib_metadata_bound imp
    then Ok PackageNotFoundError
    else Raise (name_error "importlib_metadata")
  else
    if pkg_resources_bound imp
    then Ok DistributionNotFound
    else Raise (name_error "pkg_resources").

(** An exception raised while the expression of an [except] clause is
    evaluated leaves the [try] statement. *)
Definition _check_package_installed_basic (package_name_no_version : str)
  : result check :=
  match installed_version package_name_no_version with
  | Ok version => Ok (true, version, None)
  | Raise e =>
      match not_found_class with
      | Raise e' => Raise e'
      | Ok cls =>
          if exn_class_eqb (exn_cls e) cls
          then Ok (false, lit "Not installed", None)
          else Ok (false, lit "Error checking package", None)
      end
  end.

(** [str(required_version_specifier) if required_version_specifier else None] *)
Definition spec_str (required_version_specifier : option SpecifierSet)
  : option str :=
  match required_version_specifier with
  | Some s => if specifier_nonempty s then Some (str_of_specifier s) else None
  | None => None
  end.

Definition _check_package_installed_advanced (package_spec : str)
  : log * result check :=
  let '(l1, package_name_normalized, required_version_specifier) :=
    match Requirement package_spec with
    | Ok (name, specifier) => ([], canonicalize_name name, Some specifier)
    | Raise e =>
        ([(Warning,
           lit "Invalid package spec: " ++ package_spec ++ lit " (" ++ exn_msg e
             ++ lit "). Treating as simple name.")],
         canonicalize_name (name_only package_spec), None)
    end in
  let handler (e : exn) : log * result check :=
    match not_found_class with
    | Raise e' => (l1, Raise e')
    | Ok cls =>
        if exn_class_eqb (exn_cls e) cls
        then (l1, Ok (false, lit "Not installed", spec_str required_version_specifier))
        else
          (l1 ++ [(Error,
                   lit "Error checking package '" ++ package_name_normalized
                     ++ lit "' (from spec '" ++ package_spec ++ lit "'): "
                     ++ exn_msg e)],
           Ok (false, lit "Error checking: " ++ exn_msg e,
               spec_str required_version_specifier))
    end in
  match installed_version package_name_normalized with
  | Raise e => handler e
  | Ok installed_version_str =>
      match parse_version installed_version_str with
      | Raise e => handler e
      | Ok installed_version =>
          match spec_str required_version_specifier, required_version_specifier with
          | Some required, Some specifier =>
              if version_in installed_version specifier
              then (l1, Ok (true, str_of_version installed_version, Some required))
              else
                (l1, Ok (false,
                         lit "Version conflict: Installed "
                           ++ str_of_version installed_version
                           ++ lit ", Required " ++ required,
                         Some required))
          | _, _ => (l1, Ok (true, str_of_version installed_version, None))
          end
      end
  end.

Definition _check_package_installed (package_spec : str) : log * result check :=
  if PACKAGING_LIB_AVAILABLE imp then
    _check_package_installed_advanced package_spec
  else
    let package_name_only := name_only package_spec in
    match _check_package_installed_basic package_name_only with
    | Raise e => ([], Raise e)
    | Ok (is_installed, status_msg, _) =>
        if negb is_installed && str_eqb status_msg (lit "Not installed")
        then ([], Ok (is_installed, status_msg, Some package_spec))
        else ([], Ok (is_installed, status_msg, None))
    end.

(** ** [analyze_dependencies] *)

(** An element of [to_install], [satisfied] or [errors]; [note] is the
    value stored under ['reason'], ['installed_version'] or ['error']. *)
Record entry := {
  module : str;
  package_spec : str;
  note : str
}.

Record analysis := {
  to_install : list entry;
  satisfied : list entry;
  errors : list entry;
  summary_lines : list str
}.

Definition CHECK_MARK : str := [9989].
Definition WARNING_SIGN : str := [9888; 65039].
Definition CROSS_MARK : str := [10060].

(** The body of the loop over [details['packages']], after the check. *)
Definition record_check (module_name package_spec : str) (c : check)
    (a : analysis) : analysis :=
  let '(is_installed, status_msg, req_ver_spec_str) := c in
  let actual_required_spec :=
    match req_ver_spec_str with
    | Some (ch :: s) => ch :: s
    | _ => lit "any version"
    end in
  if is_installed then
    {| to_install := to_install a;
       satisfied := satisfied a ++
         [{| module := module_name; package_spec := package_spec; note := status_msg |}];
       errors := errors a;
       summary_lines := summary_lines a ++
         [lit "  - " ++ CHECK_MARK ++ lit " " ++ package_spec
            ++ lit " (Installed: " ++ status_msg ++ lit ")"] |}
  else if contains (lit "Not installed") status_msg
          || contains (lit "Version conflict") status_msg then
    {| to_install := to_install a ++
         [{| module := module_name; package_spec := package_spec; note := status_msg |}];
       satisfied := satisfied a;
       errors := errors a;
       summary_lines := summary_lines a ++
         [lit "  - " ++ WARNING_SIGN ++ lit " " ++ package_spec
            ++ lit " (Required: " ++ actual_required_spec ++ lit ", Status: "
            ++ status_msg ++ lit ") - Marked for installation."] |}
  else
    {| to_install := to_install a;
       satisfied := satisfied a;
       errors := errors a ++
         [{| module := module_name; package_spec := package_spec; note := status_msg |}];
       summary_lines := summary_lines a ++
         [lit "  - " ++ CROSS_MARK ++ lit " " ++ package_spec
            ++ lit " (Error during check: " ++ status_msg ++ lit ")"] |}.

Definition add_summary (line : str) (a : analysis) : analysis :=
  {| to_install := to_install a; satisfied := satisfied a; errors := errors a;
     summary_lines := summary_lines a ++ [line] |}.

Fixpoint check_packages (module_name : str) (specs : list str) (a : analysis)
  : log * result analysis :=
  match specs with
  | [] => ([], Ok a)
  | spec :: rest =>
      match _check_package_installed spec with
      | (l, Raise e) => (l, Raise e)
      | (l, Ok c) =>
          let '(l', r) := check_packages module_name rest (record_check module_name spec c a) in
          (l ++ l', r)
      end
  end.

Fixpoint check_modules (modules : dict details) (a : analysis)
  : log * result analysis :=
  match modules with
  | [] => ([], Ok a)
  | (module_name, d) :: rest =>
      let a := add_summary (lit "Module: '" ++ module_name ++ lit "'") a in
      match packages d with
      | [] =>
          check_modules rest
            (add_summary (lit "  - No packages listed in its requirements.txt.") a)
      | specs =>
          match check_packages module_name specs a with
          | (l, Raise e) => (l, Raise e)
          | (l, Ok a') =>
              let '(l', r) := check_modules rest (add_summary [] a') in
              (l ++ l', r)
          end
      end
  end.

Definition NL : str := [10].

Definition closing_lines (a : analysis) : analysis :=
  let a :=
    match to_install a, errors a with
    | [], [] =>
        add_summary (NL ++ lit "All discovered Python dependencies are satisfied.") a
    | _ :: _, _ =>
        add_summary
          (NL ++ lit "Found " ++ str_of_nat (List.length (to_install a))
             ++ lit " Python package(s) that need installation or update.") a
    | [], _ :: _ => a
    end in
  match errors a with
  | [] => a
  | _ :: _ =>
      add_summary
        (NL ++ lit "Encountered " ++ str_of_nat (List.length (errors a))
           ++ lit " error(s) while checking package statuses.") a
  end.

Definition analyze_dependencies (fs : filesystem) (addons_paths : list str)
  : log * result analysis :=
  let '(l, module_requirements_map) := find_requirements fs addons_paths in
  match module_requirements_map with
  | [] =>
      (l, Ok {| to_install := []; satisfied := []; errors := [];
                summary_lines :=
                  [lit "No 'requirements.txt' files found in any scanned addon modules."] |})
  | _ =>
      let a :=
        {| to_install := []; satisfied := []; errors := [];
           summary_lines :=
             [lit "Found 'requirements.txt' in "
                ++ str_of_nat (List.length module_requirements_map)
                ++ lit " module(s). Analyzing dependencies..." ++ NL] |} in
      match check_modules module_requirements_map a with
      | (l', Raise e) => (l ++ l', Raise e)
      | (l', Ok a') => (l ++ l', Ok (closing_lines a'))
      end
  end.

End Checker.

(** ** [install_packages] *)

(** The calls made on [subprocess], in the order they are made. *)
Inductive call :=
| CallPopen (cmd : list str)
| CallCommunicate (timeout : option Z)
| CallPoll
| CallKill.

Record install_result := {
  success : list str;
  failed : dict str;
  log_lines : list str
}.

Section Installer.

(** The host: [sys.executable] and the processes it can start.  [world] is
    the state of the host, [proc] a [Popen] object.  [communicate] returns
    the captured output or raises, [poll] returns [None] while the process
    runs.  [process.kill()] and the [communicate()] that then collects the
    killed process are taken to return normally. *)
Variable sys_executable : str.
Variables world proc : Type.
Variable Popen : world -> list str -> world * result proc.
Variable communicate : world -> proc -> option Z -> world * result (str * str).
Variable returncode : world -> proc -> Z.
Variable poll : world -> proc -> option Z.
Variable kill : world -> proc -> world.

Definition pip_executable : list str := [sys_executable; lit "-m"; lit "pip"].

(** The state of the loop; [cur_process] is the local variable [process],
    which keeps the object of an earlier pass until it is assigned again. *)
Record install_state := {
  host : world;
  cur_process : option proc;
  calls : list call;
  acc : install_result
}.

Definition add_log (lines : list str) (r : install_result) : install_result :=
  {| success := success r; failed := failed r; log_lines := log_lines r ++ lines |}.

Definition add_success (spec : str) (r : install_result) : install_result :=
  {| success := success r ++ [spec]; failed := failed r; log_lines := log_lines r |}.

Definition add_failed (spec reason : str) (r : install_result) : install_result :=
  {| success := success r; failed := dict_set (failed r) spec reason;
     log_lines := log_lines r |}.

(** The two [except] clauses of the loop body, entered with the log as it
    stands when [e] is raised. *)
Definition install_handler (e : exn) (package_spec : str) (w : world)
    (process : option proc) (cs : list call) (r : install_result)
  : install_state :=
  if exn_class_eqb (exn_cls e) TimeoutExpired then
    let r := add_log [lit "Timeout expired while trying to install "
                        ++ package_spec ++ lit "."] r in
    let r := add_failed package_spec (lit "Installation timed out after 5 minutes.") r in
    match process with
    | Some p =>
        match poll w p with
        | None =>
            let w := kill w p in
            let '(w, _) := communicate w p None in
            {| host := w; cur_process := process;
               calls := cs ++ [CallPoll; CallKill; CallCommunicate None];
               acc := add_log [lit "Killed pip process due to timeout."] r |}
        | Some _ =>
            {| host := w; cur_process := process; calls := cs ++ [CallPoll]; acc := r |}
        end
    | None => {| host := w; cur_process := process; calls := cs; acc := r |}
    end
  else
    let r := add_log [lit "An unexpected error occurred while trying to install "
                        ++ package_spec ++ lit ": " ++ exn_msg e] r in
    {| host := w; cur_process := process; calls := cs;
       acc := add_failed package_spec (exn_msg e) r |}.

(** The body of the loop over [packages_to_install_specs]. *)
Definition install_one (st : install_state) (package_spec : str) : install_state :=
  let r := add_log [NL ++ lit "Attempting to install/update: " ++ package_spec
                      ++ lit "..."] (acc st) in
  let cmd := pip_executable ++ [lit "install"; package_spec] in
  let cs := calls st ++ [CallPopen cmd] in
  match Popen (host st) cmd with
  | (w, Raise e) => install_handler e package_spec w (cur_process st) cs r
  | (w, Ok process) =>
      let cs := cs ++ [CallCommunicate (Some 300%Z)] in
      match communicate w process (Some 300%Z) with
      | (w, Raise e) => install_handler e package_spec w (Some process) cs r
      | (w, Ok (stdout, stderr)) =>
          let r := add_log
                     ([lit "--- PIP STDOUT for " ++ package_spec ++ lit " ---"]
                        ++ splitlines stdout
                        ++ [lit "--- PIP STDERR for " ++ package_spec ++ lit " ---"]
                        ++ splitlines stderr
                        ++ [lit "-----------------------------"]) r in
          let code := returncode w process in
          let r :=
            if (code =? 0)%Z then
              add_success package_spec
                (add_log [lit "Successfully processed " ++ package_spec ++ lit "."] r)
            else
              add_failed package_spec
                (lit "PIP Return Code: " ++ str_of_Z code ++ NL ++ lit "STDOUT:" ++ NL
                   ++ stdout ++ NL ++ lit "STDERR:" ++ NL ++ stderr)
                (add_log [lit "Failed to process " ++ package_spec
                            ++ lit ". PIP Return Code: " ++ str_of_Z code] r) in
          {| host := w; cur_process := Some process; calls := cs; acc := r |}
      end
  end.

Definition install_loop (specs : list str) (st : install_state) : install_state :=
  fold_left install_one specs st.

Definition empty_result : install_result :=
  {| success := []; failed := []; log_lines := [] |}.

(** The state in which the loop is entered. *)
Definition install_start (w : world) : install_state :=
  {| host := w; cur_process := None; calls := [];
     acc := add_log [lit "Using pip: " ++ join (lit " ") pip_executable]
              empty_result |}.

Definition install_packages (w : world) (packages_to_install_specs : list str)
  : install_state :=
  match packages_to_install_specs with
  | [] =>
      {| host := w; cur_process := None; calls := [];
         acc := add_log [lit "No packages specified for installation."]
                  empty_result |}
  | _ => install_loop packages_to_install_specs (install_start w)
  end.

End Installer.

End AddonRequirementsChecker.


(* ================================================================== *)
(** * Executable stand-ins for the library functions

    The embeddings above take the functions of the Python library as
    arguments, and the properties below hold whatever those functions
    compute.  The definitions of this module are instances to run the
    embeddings on: they agree with the library on ASCII text. *)
(* ================================================================== *)

Module Reference.
Import Py.
Local Open Scope N_scope.

Definition ascii_lower (s : str) : str :=
  map (fun c => if in_range 65 90 c then c + 32 else c) s.

Definition ascii_upper (s : str) : str :=
  map (fun c => if in_range 97 122 c then c - 32 else c) s.

(** ** The grammar of [LOG_LINE_REGEX]

    A matcher maps a text to the texts that may remain after it, in the
    order a backtracking engine tries them. *)

Definition matcher := str -> list str.

Definition one (p : codepoint -> bool) : matcher :=
  fun s => match s with
           | c :: s' => if p c then [s'] else []
           | [] => []
           end.

Fixpoint many1 (p : codepoint -> bool) (s : str) : list str :=
  match s with
  | c :: s' => if p c then many1 p s' ++ [s'] else []
  | [] => []
  end.

Definition many0 (p : codepoint -> bool) : matcher := fun s => many1 p s ++ [s].

Definition exactly (l : string) : matcher :=
  fun s => if startswith s (lit l) then [skipn (List.length (lit l)) s] else [].

Definition seq (a b : matcher) : matcher := fun s => flat_map b (a s).

Definition is_digit (c : codepoint) : bool := in_range 48 57 c.

Definition is_database_char (c : codepoint) : bool :=
  in_range 97 122 c || in_range 65 90 c || is_digit c
  || N.eqb c 95 || N.eqb c 63 || N.eqb c 46 || N.eqb c 45.

Definition digits (n : nat) : matcher :=
  fold_right seq (fun s => [s]) (repeat (one is_digit) n).

(** [\d{4}-\d{2}-\d{2} \d{2}:\d{2}:\d{2},\d{3}] *)
Definition timestamp : matcher :=
  seq (digits 4) (seq (exactly "-") (seq (digits 2) (seq (exactly "-")
    (seq (digits 2) (seq (exactly " ") (seq (digits 2) (seq (exactly ":")
    (seq (digits 2) (seq (exactly ":") (seq (digits 2) (seq (exactly ",")
    (digits 3)))))))))))).

(** [.*$]: no newline, except one that ends the text. *)
Fixpoint dot_star_end (s : str) : bool :=
  match s with
  | [] => true
  | c :: s' =>
      match s' with
      | [] => true
      | _ => negb (N.eqb c 10) && dot_star_end s'
      end
  end.

Definition LEVELS : list string :=
  ["INFO"; "WARNING"; "ERROR"; "CRITICAL"; "DEBUG"; "TEST"]%string.

(** The [level] group of a line that matches the grammar. *)
Definition log_line_level (line : str) : option str :=
  let before_level :=
    seq timestamp (seq (many1 is_space) (seq (many1 is_digit) (many1 is_space))) in
  let after_level :=
    seq (many1 is_space) (seq (many0 is_database_char) (seq (many1 is_space)
      (seq (many1 (fun c => negb (N.eqb c 58))) (seq (exactly ":")
      (many1 is_space))))) in
  let try_level (s : str) (l : string) : option str :=
    if existsb dot_star_end (seq (exactly l) after_level s)
    then Some (lit l) else None in
  let try_levels (s : str) : option str :=
    fold_right (fun l r => match try_level s l with Some x => Some x | None => r end)
               None LEVELS in
  fold_right (fun s r => match try_levels s with Some x => Some x | None => r end)
             None (before_level line).

(** A search that is right for patterns without metacharacters. *)
Definition literal_search (pattern line : str) : option (list str) :=
  if contains (ascii_lower pattern) (ascii_lower line) then Some [] else None.

(** ** A scripted host for [install_packages]

    The script lists what happens to each process that is started; a
    process is identified with its fate. *)

Inductive fate :=
| CannotStart (e : exn)
| Exits (code : Z) (stdout stderr : str)
| Hangs
| ExitsLate (code : Z).

Definition script := list fate.

Definition scripted_Popen (w : script) (cmd : list str) : script * result fate :=
  match w with
  | [] => ([], Raise (Exn OtherError (lit "no such file")))
  | CannotStart e :: w' => (w', Raise e)
  | f :: w' => (w', Ok f)
  end.

Definition scripted_communicate (w : script) (p : fate) (timeout : option Z)
  : script * result (str * str) :=
  match p, timeout with
  | Exits _ out err, _ => (w, Ok (out, err))
  | _, Some _ => (w, Raise (Exn TimeoutExpired (lit "timed out")))
  | _, None => (w, Ok ([], []))
  end.

Definition scripted_returncode (w : script) (p : fate) : Z :=
  match p with
  | Exits code _ _ => code
  | ExitsLate code => code
  | _ => (-9)%Z
  end.

Definition scripted_poll (w : script) (p : fate) : option Z :=
  match p with
  | Exits code _ _ => Some code
  | ExitsLate code => Some code
  | _ => None
  end.

Definition scripted_kill (w : script) (p : fate) : script := w.

(** ** A fragment of [packaging]

    Versions made of a release only ([1.5.0]), requirements made of a name
    and a list of comparisons ([name>=1.2,<2.0]); what lies outside the
    fragment is refused. *)

Definition version := list N.

Record specifier := {
  spec_op : str;
  spec_version : version;
  spec_text : str
}.

Fixpoint parse_digits (acc : N) (s : str) : option N :=
  match s with
  | [] => Some acc
  | c :: s' => if is_digit c then parse_digits (acc * 10 + (c - 48)) s' else None
  end.

Fixpoint parse_segments (segments : list str) : option version :=
  match segments with
  | [] => Some []
  | [] :: _ => None
  | seg :: rest =>
      match parse_digits 0 seg, parse_segments rest with
      | Some n, Some v => Some (n :: v)
      | _, _ => None
      end
  end.

Definition parse_release (s : str) : option version :=
  parse_segments (split (lit ".") (strip s)).

Definition reference_parse_version (s : str) : result version :=
  match parse_release s with
  | Some v => Ok v
  | None => Raise (Exn OtherError (lit "Invalid version: '" ++ s ++ lit "'"))
  end.

Definition pad (n : nat) (v : version) : version :=
  v ++ repeat 0 (n - List.length v).

Fixpoint compare_padded (a b : version) : comparison :=
  match a, b with
  | x :: a', y :: b' =>
      match N.compare x y with
      | Eq => compare_padded a' b'
      | c => c
      end
  | _, _ => Eq
  end.

(** Releases are compared segment by segment, the shorter one padded with
    zeros. *)
Definition compare_versions (a b : version) : comparison :=
  let n := Nat.max (List.length a) (List.length b) in
  compare_padded (pad n a) (pad n b).

Definition satisfies (v : version) (s : specifier) : bool :=
  let c := compare_versions v (spec_version s) in
  if str_eqb (spec_op s) (lit "==") then match c with Eq => true | _ => false end
  else if str_eqb (spec_op s) (lit "!=") then match c with Eq => false | _ => true end
  else if str_eqb (spec_op s) (lit "<=") then match c with Gt => false | _ => true end
  else if str_eqb (spec_op s) (lit ">=") then match c with Lt => false | _ => true end
  else if str_eqb (spec_op s) (lit "<") then match c with Lt => true | _ => false end
  else match c with Gt => true | _ => false end.

Definition reference_version_in (v : version) (specs : list specifier) : bool :=
  forallb (satisfies v) specs.

Definition OPERATORS : list string := ["=="; "!="; "<="; ">="; "<"; ">"]%string.

Definition parse_specifier (piece : str) : option specifier :=
  let piece := strip piece in
  fold_right
    (fun op r =>
       if startswith piece (lit op) then
         let text := strip (skipn (List.length (lit op)) piece) in
         match parse_release text with
         | Some v => Some {| spec_op := lit op; spec_version := v;
                             spec_text := lit op ++ text |}
         | None => None
         end
       else r)
    None OPERATORS.

Fixpoint parse_specifiers (pieces : list str) : option (list specifier) :=
  match pieces with
  | [] => Some []
  | piece :: rest =>
      match parse_specifier piece, parse_specifiers rest with
      | Some s, Some l => Some (s :: l)
      | _, _ => None
      end
  end.

Definition is_name_char (c : codepoint) : bool :=
  in_range 97 122 c || in_range 65 90 c || is_digit c
  || N.eqb c 95 || N.eqb c 46 || N.eqb c 45.

Fixpoint name_prefix (s : str) : str * str :=
  match s with
  | c :: s' =>
      if is_name_char c
      then let '(name, rest) := name_prefix s' in (c :: name, rest)
      else ([], s)
  | [] => ([], [])
  end.

Definition invalid_requirement (s : str) : exn :=
  Exn InvalidRequirement (lit "Invalid requirement: '" ++ s ++ lit "'").

Definition reference_Requirement (s : str) : result (str * list specifier) :=
  let '(name, rest) := name_prefix (strip s) in
  match name, strip rest with
  | [], _ => Raise (invalid_requirement s)
  | _, [] => Ok (name, [])
  | _, rest =>
      match parse_specifiers (split (lit ",") rest) with
      | Some specs => Ok (name, specs)
      | None => Raise (invalid_requirement s)
      end
  end.

(** [re.sub(r"[-_.]+", "-", name).lower()] *)
Fixpoint collapse_separators (after_separator : bool) (s : str) : str :=
  match s with
  | [] => []
  | c :: s' =>
      if N.eqb c 45 || N.eqb c 95 || N.eqb c 46 then
        if after_separator then collapse_separators true s'
        else 45 :: collapse_separators true s'
      else c :: collapse_separators false s'
  end.

Definition reference_canonicalize_name (name : str) : str :=
  ascii_lower (collapse_separators false name).

Definition reference_str_of_version (v : version) : str :=
  join (lit ".") (map (fun n => str_of_nat (N.to_nat n)) v).

Fixpoint str_leb (a b : str) : bool :=
  match a, b with
  | [], _ => true
  | _ :: _, [] => false
  | x :: a', y :: b' =>
      match N.compare x y with
      | Lt => true
      | Gt => false
      | Eq => str_leb a' b'
      end
  end.

Fixpoint insert_sorted (x : str) (l : list str) : list str :=
  match l with
  | [] => [x]
  | y :: l' => if str_leb x y then x :: l else y :: insert_sorted x l'
  end.

(** [str(specifier_set)] lists the comparisons in sorted order. *)
Definition reference_str_of_specifier (specs : list specifier) : str :=
  join (lit ",") (fold_right insert_sorted [] (map spec_text specs)).

Definition reference_specifier_nonempty (specs : list specifier) : bool :=
  match specs with
  | [] => false
  | _ => true
  end.

End Reference.


(* ================================================================== *)
(** * Inputs used in the statements below *)
(* ================================================================== *)

Module Scenario.
Import Py.
Local Open Scope N_scope.

Definition LF : byte := x0a.

Definition log_path : str := lit "/var/log/odoo/odoo.log".

(** A host whose only file is the log, with the given contents. *)
Definition log_fs (data : bytes) : LogAnalyzer.filesystem :=
  fun p => if str_eqb p log_path then LogAnalyzer.Contents data
           else LogAnalyzer.Absent.

(** Two lines, the first one [a], the second one 4095 times [b]: 4098
    bytes, so that the last 4096 bytes are exactly the second line. *)
Definition two_chunk_file : bytes :=
  bytes_lit "a" ++ [LF] ++ repeat x62 4095 ++ [LF].

(** Two lines, [ab] and 4094 times [b]: 4098 bytes again, but now the last
    4096 bytes start with the [b] of the first line. *)
Definition cut_line_file : bytes :=
  bytes_lit "ab" ++ [LF] ++ repeat x62 4094 ++ [LF].

(** Two short lines. *)
Definition short_file : bytes :=
  bytes_lit "a" ++ [LF] ++ bytes_lit "b" ++ [LF].

(** Three lines: a structured line of level ERROR, the first line of a
    traceback, a structured line of level INFO. *)
Definition mixed_file : bytes :=
  bytes_lit "2023-10-27 10:30:00,123 12345 ERROR my_db odoo.sql_db: Connection refused"
    ++ [LF] ++ bytes_lit "Traceback (most recent call last):"
    ++ [LF] ++ bytes_lit "2023-10-27 10:30:01,007 12345 INFO my_db werkzeug: GET /web 200 OK"
    ++ [LF].

(** *** Addons and their requirement files *)

Definition addons : str := lit "/opt/odoo/addons".

Definition module_dir (module_name : str) : str := path_join addons module_name.

Definition manifest_of (module_name : str) : str :=
  path_join (module_dir module_name) (lit "__manifest__.py").

Definition requirements_of (module_name : str) : str :=
  path_join (module_dir module_name) (lit "requirements.txt").

(** A host with one addons directory, which holds the given modules, each
    with a manifest and a requirements file. *)
Definition module_fs (modules : list (str * AddonRequirementsChecker.text_file))
  : AddonRequirementsChecker.filesystem :=
  {| AddonRequirementsChecker.isdir := fun p =>
       str_eqb p addons
       || existsb (fun m => str_eqb p (module_dir (fst m))) modules;
     AddonRequirementsChecker.exists_ := fun p =>
       existsb (fun m => str_eqb p (manifest_of (fst m))
                         || str_eqb p (requirements_of (fst m))) modules;
     AddonRequirementsChecker.listdir := fun p =>
       if str_eqb p addons then Ok (map fst modules)
       else Raise (Exn OtherError (lit "Not a directory"));
     AddonRequirementsChecker.open_utf8 := fun p =>
       match find (fun m => str_eqb p (requirements_of (fst m))) modules with
       | Some m => snd m
       | None => AddonRequirementsChecker.OpenFails
                   (Exn FileNotFoundError (lit "No such file or directory"))
       end |}.

Definition line (s : string) : str := lit s ++ [10].

(** The requirements file of the example: [libfoo>=1.2,<2.0] and [libbar]. *)
Definition example_fs : AddonRequirementsChecker.filesystem :=
  module_fs
    [(lit "my_module",
      AddonRequirementsChecker.Yields [line "libfoo>=1.2,<2.0"; line "libbar"] None)].

(** The registry of the example: libfoo 1.5.0 is installed, nothing else. *)
Definition example_registry (name : str) : result str :=
  if str_eqb name (lit "libfoo") then Ok (lit "1.5.0")
  else Raise (Exn PackageNotFoundError
                (lit "No package metadata was found for " ++ name)).

Definition example_pkg_resources (name : str) : result str :=
  if str_eqb name (lit "libfoo") then Ok (lit "1.5.0")
  else Raise (Exn DistributionNotFound
                (lit "The '" ++ name ++ lit "' distribution was not found")).

(** An interpreter that has [importlib.metadata] and in which nothing has
    imported a module called [importlib_metadata]. *)
Definition stock_imports (packaging : bool) : AddonRequirementsChecker.imports :=
  {| AddonRequirementsChecker.importlib_metadata_bound := true;
     AddonRequirementsChecker.importlib_metadata_in_sys_modules := false;
     AddonRequirementsChecker.PACKAGING_LIB_AVAILABLE := packaging |}.

(** The same interpreter after something has imported the separate
    distribution [importlib_metadata]. *)
Definition backport_imports (packaging : bool) : AddonRequirementsChecker.imports :=
  {| AddonRequirementsChecker.importlib_metadata_bound := true;
     AddonRequirementsChecker.importlib_metadata_in_sys_modules := true;
     AddonRequirementsChecker.PACKAGING_LIB_AVAILABLE := packaging |}.

(** What the decoder raises at a byte [0xff]; [position] is counted from
    the start of the block that is being decoded. *)
Definition decode_error (position : Z) : exn :=
  Exn UnicodeDecodeError
      (lit "'utf-8' codec can't decode byte 0xff in position "
         ++ str_of_Z position ++ lit ": invalid start byte").

(** A requirements file of 2000 lines [requests] followed by the byte
    [0xff].  The file is decoded in blocks of 8192 bytes.  The byte is at
    position 18000 of the file, that is position 1616 of the third block:
    the decoder fails on that block, after the 1820 lines of the first two
    blocks have been handed out. *)
Definition late_failure : AddonRequirementsChecker.text_file :=
  AddonRequirementsChecker.Yields (repeat (line "requests") 1820)
    (Some (decode_error 1616)).

(** A requirements file whose first byte is [0xff]: the decoder fails on
    the first block, before any line is handed out. *)
Definition early_failure : AddonRequirementsChecker.text_file :=
  AddonRequirementsChecker.Yields [] (Some (decode_error 0)).

Definition two_modules_fs (billing : AddonRequirementsChecker.text_file)
  : AddonRequirementsChecker.filesystem :=
  module_fs
    [(lit "billing", billing);
     (lit "shipping", AddonRequirementsChecker.Yields [line "requests==2.31.0"] None)].

(** The interpreter that runs pip. *)
Definition python : str := lit "/usr/bin/python3".

End Scenario.

(** The filters under which a line that does not follow the grammar is
    kept: no restriction, or one of the levels INFO and DEBUG. *)
Definition broad_filter (level_filter : LogAnalyzer.pyarg) : Prop :=
  level_filter = LogAnalyzer.PyStr (Py.lit "ALL")
  \/ level_filter = LogAnalyzer.PyStr (Py.lit "INFO")
  \/ level_filter = LogAnalyzer.PyStr (Py.lit "DEBUG").

(** What a run of [diagnose_logs] must keep true of [hints] and
    [unique_hints]: the texts are pairwise distinct, and the hints are
    these texts, in order, each formatted with a line of the input. *)
Definition hints_distinct (log_lines : list Py.str)
    (st : LogAnalyzer.diag_state) : Prop :=
  NoDup (snd st)
  /\ Forall2 (fun hint text =>
                exists line, In line log_lines
                             /\ hint = LogAnalyzer.format_hint text line)
             (fst st) (snd st).


(** The host [fs] with the module [bad] left out of every listing. *)
Definition without_module (bad : Py.str)
    (fs : AddonRequirementsChecker.filesystem)
  : AddonRequirementsChecker.filesystem :=
  {| AddonRequirementsChecker.isdir := AddonRequirementsChecker.isdir fs;
     AddonRequirementsChecker.exists_ := AddonRequirementsChecker.exists_ fs;
     AddonRequirementsChecker.listdir := fun p =>
       match AddonRequirementsChecker.listdir fs p with
       | Py.Ok names => Py.Ok (filter (fun m => negb (Py.str_eqb m bad)) names)
       | Py.Raise e => Py.Raise e
       end;
     AddonRequirementsChecker.open_utf8 := AddonRequirementsChecker.open_utf8 fs |}.

(** The command line that installs [spec]. *)
Definition pip_install (sys_executable spec : Py.str) : list Py.str :=
  [sys_executable; Py.lit "-m"; Py.lit "pip"; Py.lit "install"; spec].

Definition popen_calls (cs : list AddonRequirementsChecker.call)
  : list (list Py.str) :=
  flat_map (fun c => match c with
                     | AddonRequirementsChecker.CallPopen cmd => [cmd]
                     | _ => []
                     end) cs.

Definition timeouts (cs : list AddonRequirementsChecker.call) : list Z :=
  flat_map (fun c => match c with
                     | AddonRequirementsChecker.CallCommunicate (Some t) => [t]
                     | _ => []
                     end) cs.

(** The text kept for a process that ends with a code other than 0. *)
Definition failure_report (code : Z) (stdout stderr : Py.str) : Py.str :=
  (Py.lit "PIP Return Code: " ++ Py.str_of_Z code ++ [10%N] ++ Py.lit "STDOUT:"
     ++ [10%N] ++ stdout ++ [10%N] ++ Py.lit "STDERR:" ++ [10%N] ++ stderr)%list.

Definition TIMEOUT_REPORT : Py.str :=
  Py.lit "Installation timed out after 5 minutes.".


Unset Implicit Arguments.

(* ================================================================== *)
(** * Notions used to state further properties *)
(* ================================================================== *)

Definition ascii_only (data : Py.bytes) : Prop :=
  forallb (fun b => N.ltb (Byte.to_N b) 128) data = true.

Definition byte_before (data : Py.bytes) (pos : Z) : byte :=
  last (firstn (Z.to_nat pos) data) x00.

Definition cuts_inside_lines (data : Py.bytes) : Prop :=
  forall k : Z,
    (0 < k)%Z ->
    (LogAnalyzer.buffer_size * k < Z.of_nat (List.length data))%Z ->
    Py.is_linebreak
      (Byte.to_N (byte_before data
                    (Z.of_nat (List.length data) - LogAnalyzer.buffer_size * k)))
    = false.

(** The length of the file. *)
Definition file_end (data : Py.bytes) : Z := Z.of_nat (List.length data).

(** The part of the file that has been read when [bytes_read_total] is
    [total]. *)
Definition read_so_far (data : Py.bytes) (total : Z) : Py.bytes :=
  skipn (Z.to_nat (file_end data - total)) data.

(** What the loop keeps true for a file of ASCII text whose chunks start
    inside lines: [lines_found] holds the lines of the part read so far,
    which ends where the file ends and starts at a chunk boundary or at the
    start of the file. *)
Definition lines_of_part_read (data : Py.bytes) (st : LogAnalyzer.tail_state)
  : Prop :=
  (0 <= snd st <= file_end data)%Z
  /\ (snd st = file_end data
      \/ exists k, (0 <= k)%Z /\ snd st = (LogAnalyzer.buffer_size * k)%Z)
  /\ fst st = Py.splitlines (Py.decode_utf8_replace (read_so_far data (snd st))).

Definition no_line_break (l : Py.str) : Prop :=
  forallb (fun c => negb (Py.is_linebreak c)) l = true.

(** The last chunk of a file: its last 4096 bytes, or all of it. *)
Definition last_chunk (data : Py.bytes) : Py.bytes :=
  let end_byte := Z.of_nat (List.length data) in
  let offset := Z.min LogAnalyzer.buffer_size end_byte in
  LogAnalyzer.read_chunk data (end_byte - offset) offset.

(** The statuses that [get_filtered_log_lines] reports. *)
Definition LOG_STATUSES : list Py.str :=
  [Py.lit "success"; Py.lit "no_log_file"; Py.lit "error_reading";
   Py.lit "empty_after_filter"].

(** A requirement as the scan records it: not empty, with no white space
    around it, and not a comment. *)
Definition clean_requirement (p : Py.str) : Prop :=
  p <> [] /\ Py.strip p = p /\ Py.startswith p (Py.lit "#") = false.

(** The entry that the scan of [addons_path] stores for the module [m]. *)
Definition module_details (fs : AddonRequirementsChecker.filesystem)
    (addons_path m : Py.str) : AddonRequirementsChecker.details :=
  let module_path := Py.path_join addons_path m in
  let file := Py.path_join module_path (Py.lit "requirements.txt") in
  {| AddonRequirementsChecker.path := module_path;
     AddonRequirementsChecker.requirements_file := file;
     AddonRequirementsChecker.packages :=
       snd (AddonRequirementsChecker._parse_requirements_file fs file) |}.

(** [m] is a directory of [addons_path] with a manifest and a requirements
    file that yields at least one requirement. *)
Definition has_requirements (fs : AddonRequirementsChecker.filesystem)
    (addons_path m : Py.str) : bool :=
  let module_path := Py.path_join addons_path m in
  AddonRequirementsChecker.isdir fs module_path
  && AddonRequirementsChecker.exists_ fs
       (Py.path_join module_path (Py.lit "__manifest__.py"))
  && AddonRequirementsChecker.exists_ fs
       (Py.path_join module_path (Py.lit "requirements.txt"))
  && match AddonRequirementsChecker.packages (module_details fs addons_path m) with
     | [] => false
     | _ :: _ => true
     end.

(** The scan of [addons_path] lists [m] and finds requirements for it. *)
Definition records (fs : AddonRequirementsChecker.filesystem)
    (addons_path m : Py.str) : Prop :=
  AddonRequirementsChecker.isdir fs addons_path = true
  /\ exists names,
       AddonRequirementsChecker.listdir fs addons_path = Py.Ok names
       /\ In m names
       /\ has_requirements fs addons_path m = true.

(** The scan cannot list [addons_path]. *)
Definition unreadable (fs : AddonRequirementsChecker.filesystem)
    (addons_path : Py.str) : Prop :=
  AddonRequirementsChecker.isdir fs addons_path = false
  \/ exists e, AddonRequirementsChecker.listdir fs addons_path = Py.Raise e.

(** Of the paths that are scanned, only [addons_path] may hold a module
    [m] for which the scan finds requirements. *)
Definition no_other_path_records (fs : AddonRequirementsChecker.filesystem)
    (addons_paths : list Py.str) (addons_path m : Py.str) : Prop :=
  forall p, In p addons_paths -> p <> addons_path -> ~ records fs p m.

(** The characters of which the comparison operators of a requirement are
    made: [<], [>], [=], [!] and [~]. *)
Definition is_operator_char (c : Py.codepoint) : bool :=
  N.eqb c 60 || N.eqb c 62 || N.eqb c 61 || N.eqb c 33 || N.eqb c 126.

(** The operators at which [name_only] cuts. *)
Definition COMPARISON_OPERATORS : list Py.str :=
  [Py.lit "=="; Py.lit ">="; Py.lit "<="; Py.lit "!="; Py.lit "~=";
   Py.lit ">"; Py.lit "<"].

(** What is left of a requirement while [name_only] cuts it: the name and
    a part that is empty or starts with [c]. *)
Definition cut_so_far (name : Py.str) (c : Py.codepoint) (x : Py.str) : Prop :=
  exists p, x = (name ++ p)%list /\ (p = [] \/ exists q, p = c :: q).

(** The three lists of the analysis. *)
Inductive bucket := Satisfied | ToInstall | CheckFailed.

Definition bucket_eqb (a b : bucket) : bool :=
  match a, b with
  | Satisfied, Satisfied | ToInstall, ToInstall | CheckFailed, CheckFailed => true
  | _, _ => false
  end.

(** The list that the result of a check belongs to. *)
Definition bucket_of (c : AddonRequirementsChecker.check) : bucket :=
  let '(is_installed, status_msg, _) := c in
  if is_installed then Satisfied
  else if Py.contains (Py.lit "Not installed") status_msg
          || Py.contains (Py.lit "Version conflict") status_msg
       then ToInstall
       else CheckFailed.

(** The requirements of a scan, each with the name of its module, in the
    order of the scan. *)
Definition requirements_found
    (module_requirements : Py.dict AddonRequirementsChecker.details)
  : list (Py.str * Py.str) :=
  flat_map (fun e => map (pair (fst e))
                         (AddonRequirementsChecker.packages (snd e)))
           module_requirements.

(** The entries for the requirements whose check ends in the bucket [b]. *)
Definition classified (check_of : Py.str -> Py.result AddonRequirementsChecker.check)
    (b : bucket) (requirements : list (Py.str * Py.str))
  : list AddonRequirementsChecker.entry :=
  flat_map
    (fun r =>
       match check_of (snd r) with
       | Py.Ok c =>
           if bucket_eqb (bucket_of c) b
           then [{| AddonRequirementsChecker.module := fst r;
                    AddonRequirementsChecker.package_spec := snd r;
                    AddonRequirementsChecker.note := snd (fst c) |}]
           else []
       | Py.Raise _ => []
       end)
    requirements.

(** The line of the summary for a module without requirements. *)
Definition NO_PACKAGES_LINE : Py.str :=
  Py.lit "  - No packages listed in its requirements.txt.".

(** The three lists of an analysis are [sat], [ins] and [err]. *)
Definition buckets_are (a : AddonRequirementsChecker.analysis)
    (sat ins err : list AddonRequirementsChecker.entry) : Prop :=
  AddonRequirementsChecker.satisfied a = sat
  /\ AddonRequirementsChecker.to_install a = ins
  /\ AddonRequirementsChecker.errors a = err.

(** The name under which the check looks a requirement up. *)
Definition looked_up {SpecifierSet : Type}
    (imp : AddonRequirementsChecker.imports)
    (Requirement : Py.str -> Py.result (Py.str * SpecifierSet))
    (canonicalize_name : Py.str -> Py.str) (package_spec : Py.str) : Py.str :=
  if AddonRequirementsChecker.PACKAGING_LIB_AVAILABLE imp then
    match Requirement package_spec with
    | Py.Ok (name, _) => canonicalize_name name
    | Py.Raise _ => canonicalize_name (AddonRequirementsChecker.name_only package_spec)
    end
  else AddonRequirementsChecker.name_only package_spec.

(** The calls that one pass through the loop of [install_packages] can
    make for the command [cmd]: the process is started; it is waited for
    with the limit; after a timeout the process is asked whether it still
    runs; a process that still runs is killed and collected. *)
Definition pass_calls (cmd : list Py.str)
  : list (list AddonRequirementsChecker.call) :=
  let start := AddonRequirementsChecker.CallPopen cmd in
  let wait := AddonRequirementsChecker.CallCommunicate (Some 300%Z) in
  let ask := AddonRequirementsChecker.CallPoll in
  let stop := [AddonRequirementsChecker.CallKill;
               AddonRequirementsChecker.CallCommunicate None] in
  [[start]; [start; wait]; [start; wait; ask]; start :: wait :: ask :: stop;
   [start; ask]; start :: ask :: stop].

(** The line of the log for an exception that is not a timeout. *)
Definition unexpected_error_line (package_spec : Py.str) (e : Py.exn) : Py.str :=
  (Py.lit "An unexpected error occurred while trying to install "
     ++ package_spec ++ Py.lit ": " ++ Py.exn_msg e)%list.

Set Implicit Arguments.

(* ================================================================== *)
(** * models/odoo_setup_assistant_wizard.py: the actions that call the
      checkers *)
(* ================================================================== *)

Module SetupAssistWizard.
Import Py.
Local Open Scope N_scope.

(** The fields that the three actions read and write.  A text field holds
    a string; the empty string stands for a field without a value, which
    the code tests with [not]. *)
Record wizard := {
  addon_req_scan_results : str;
  addon_req_install_log : str;
  addon_req_status : str;
  packages_to_install_list : str;
  log_file_path_display : str;
  log_lines_to_fetch : Z;
  log_level_filter : str;
  log_keyword_filter : LogAnalyzer.pyarg;
  log_display_content : str;
  log_diagnostic_hints : str;
  log_analysis_status : str
}.

Definition NL : str := [10].

(** [x if x is not None else old] *)
Definition given {A} (x : option A) (old : A) : A :=
  match x with
  | Some v => v
  | None => old
  end.

Definition _update_addon_req_ui_fields (w : wizard)
    (scan_summary_lines install_log_lines : option (list str))
    (status packages_to_install_str : option str) : wizard :=
  {| addon_req_scan_results :=
       given (option_map (join NL) scan_summary_lines) (addon_req_scan_results w);
     addon_req_install_log :=
       given (option_map (join NL) install_log_lines) (addon_req_install_log w);
     addon_req_status := given status (addon_req_status w);
     packages_to_install_list :=
       given packages_to_install_str (packages_to_install_list w);
     log_file_path_display := log_file_path_display w;
     log_lines_to_fetch := log_lines_to_fetch w;
     log_level_filter := log_level_filter w;
     log_keyword_filter := log_keyword_filter w;
     log_display_content := log_display_content w;
     log_diagnostic_hints := log_diagnostic_hints w;
     log_analysis_status := log_analysis_status w |}.

(** [self.addon_req_scan_results += text] *)
Definition add_to_scan_results (text : str) (w : wizard) : wizard :=
  {| addon_req_scan_results := addon_req_scan_results w ++ text;
     addon_req_install_log := addon_req_install_log w;
     addon_req_status := addon_req_status w;
     packages_to_install_list := packages_to_install_list w;
     log_file_path_display := log_file_path_display w;
     log_lines_to_fetch := log_lines_to_fetch w;
     log_level_filter := log_level_filter w;
     log_keyword_filter := log_keyword_filter w;
     log_display_content := log_display_content w;
     log_diagnostic_hints := log_diagnostic_hints w;
     log_analysis_status := log_analysis_status w |}.

(** [self.addon_req_install_log += text] *)
Definition add_to_install_log (text : str) (w : wizard) : wizard :=
  {| addon_req_scan_results := addon_req_scan_results w;
     addon_req_install_log := addon_req_install_log w ++ text;
     addon_req_status := addon_req_status w;
     packages_to_install_list := packages_to_install_list w;
     log_file_path_display := log_file_path_display w;
     log_lines_to_fetch := log_lines_to_fetch w;
     log_level_filter := log_level_filter w;
     log_keyword_filter := log_keyword_filter w;
     log_display_content := log_display_content w;
     log_diagnostic_hints := log_diagnostic_hints w;
     log_analysis_status := log_analysis_status w |}.

(** Assignments to the three fields that show the outcome of the log
    analysis. *)
Definition set_log_view (content hints status : option str) (w : wizard)
  : wizard :=
  {| addon_req_scan_results := addon_req_scan_results w;
     addon_req_install_log := addon_req_install_log w;
     addon_req_status := addon_req_status w;
     packages_to_install_list := packages_to_install_list w;
     log_file_path_display := log_file_path_display w;
     log_lines_to_fetch := log_lines_to_fetch w;
     log_level_filter := log_level_filter w;
     log_keyword_filter := log_keyword_filter w;
     log_display_content := given content (log_display_content w);
     log_diagnostic_hints := given hints (log_diagnostic_hints w);
     log_analysis_status := given status (log_analysis_status w) |}.

Definition set_log_file_path_display (text : str) (w : wizard) : wizard :=
  {| addon_req_scan_results := addon_req_scan_results w;
     addon_req_install_log := addon_req_install_log w;
     addon_req_status := addon_req_status w;
     packages_to_install_list := packages_to_install_list w;
     log_file_path_display := text;
     log_lines_to_fetch := log_lines_to_fetch w;
     log_level_filter := log_level_filter w;
     log_keyword_filter := log_keyword_filter w;
     log_display_content := log_display_content w;
     log_diagnostic_hints := log_diagnostic_hints w;
     log_analysis_status := log_analysis_status w |}.

(** ** [action_load_and_analyze_logs] *)

(** [LogAnalyzer._get_log_file_path]: the setting [logfile] as it is; a
    warning is logged for a relative path when [data_dir] is set. *)
Definition _get_log_file_path (logfile data_dir : option str)
  : AddonRequirementsChecker.log * option str :=
  match logfile, data_dir with
  | Some (c :: p), Some (_ :: _) =>
      if negb (N.eqb c 47)
      then ([(AddonRequirementsChecker.Warning,
              lit "Logfile path '" ++ (c :: p)
                ++ lit "' is not absolute. Full path resolution might be ambiguous.")],
            logfile)
      else ([], logfile)
  | _, _ => ([], logfile)
  end.

(** [self.log_lines_to_fetch if self.log_lines_to_fetch > 0 else 200] *)
Definition lines_to_fetch (w : wizard) : Z :=
  if (log_lines_to_fetch w >? 0)%Z then log_lines_to_fetch w else 200%Z.

(** [self.log_level_filter if self.log_level_filter != 'ALL' else None] *)
Definition level_argument (w : wizard) : LogAnalyzer.pyarg :=
  if negb (str_eqb (log_level_filter w) (lit "ALL"))
  then LogAnalyzer.PyStr (log_level_filter w)
  else LogAnalyzer.PyNone.

(** [self.log_keyword_filter or None] *)
Definition keyword_argument (w : wizard) : LogAnalyzer.pyarg :=
  if LogAnalyzer.truthy (log_keyword_filter w)
  then log_keyword_filter w
  else LogAnalyzer.PyNone.

Section LogAction.

Variable str_lower : str -> str.
Variable str_upper : str -> str.
Variable LOG_LINE_REGEX_match : str -> option str.
Variable re_search : str -> str -> option (list str).

Definition action_load_and_analyze_logs (fs : LogAnalyzer.filesystem)
    (logfile data_dir : option str) (w : wizard) : wizard :=
  let log_file_path := snd (_get_log_file_path logfile data_dir) in
  let shown :=
    match log_file_path with
    | Some (c :: p) => c :: p
    | _ => lit "Odoo logfile not configured or found."
    end in
  let w := set_log_file_path_display shown w in
  let w := set_log_view (Some (lit "Loading logs from: " ++ shown ++ lit "..." ++ NL))
             (Some (lit "Analyzing...")) (Some (lit "not_run")) w in
  match log_file_path with
  | None | Some [] =>
      set_log_view
        (Some (lit "Odoo logfile path ('logfile') is not configured in odoo.conf. Cannot read logs from file."))
        (Some (lit "Configure 'logfile' in odoo.conf to enable this feature."))
        (Some (lit "no_log_file")) w
  | Some _ =>
      match snd (LogAnalyzer.get_filtered_log_lines str_lower str_upper
                   LOG_LINE_REGEX_match fs log_file_path (lines_to_fetch w)
                   (level_argument w) (keyword_argument w)) with
      | Raise e =>
          set_log_view
            (Some (lit "An unexpected error occurred while analyzing logs: "
                     ++ exn_msg e))
            (Some (lit "Check Odoo server logs for more details."))
            (Some (lit "error_reading")) w
      | Ok (log_lines, status_key) =>
          let w := set_log_view None None (Some status_key) w in
          if str_eqb status_key (lit "success") then
            match log_lines with
            | [] =>
                set_log_view
                  (Some (lit "No log entries found (or file is empty)."))
                  (Some (lit "Log view is empty.")) None w
            | _ =>
                let diagnostic_hints := LogAnalyzer.diagnose_logs re_search log_lines in
                set_log_view (Some (join NL log_lines))
                  (Some match diagnostic_hints with
                        | [] => lit "No specific common issues diagnosed from the current log view."
                        | _ => join NL diagnostic_hints
                        end)
                  None w
            end
          else if str_eqb status_key (lit "empty_after_filter") then
            set_log_view
              (Some (lit "No log entries found matching the current filter criteria."))
              (Some (lit "Try adjusting filters or increasing lines to fetch."))
              None w
          else
            set_log_view (Some (join NL log_lines))
              (Some (lit "Review the error message above regarding log file access."))
              None w
      end
  end.

End LogAction.

(** ** [action_scan_addon_python_dependencies] *)

Definition SEPARATOR : str := lit ";;;".

(** [";;;".join(specs) if specs else ""] *)
Definition packages_to_install_str (specs : list str) : str :=
  match specs with
  | [] => []
  | _ => join SEPARATOR specs
  end.

Section ScanAction.

Variable imp : AddonRequirementsChecker.imports.
Variable importlib_metadata_distribution : str -> result str.
Variable pkg_resources_get_distribution : str -> result str.
Variables Version SpecifierSet : Type.
Variable Requirement : str -> result (str * SpecifierSet).
Variable canonicalize_name : str -> str.
Variable parse_version : str -> result Version.
Variable specifier_nonempty : SpecifierSet -> bool.
Variable version_in : Version -> SpecifierSet -> bool.
Variable str_of_version : Version -> str.
Variable str_of_specifier : SpecifierSet -> str.

(** [AddonRequirementsChecker().analyze_dependencies()]: the constructor
    reads the addons paths from the configuration. *)
Definition run_analysis (fs : AddonRequirementsChecker.filesystem)
    (addons_path_setting : str) : result AddonRequirementsChecker.analysis :=
  snd (AddonRequirementsChecker.analyze_dependencies imp
         importlib_metadata_distribution pkg_resources_get_distribution
         Requirement canonicalize_name parse_version specifier_nonempty
         version_in str_of_version str_of_specifier fs
         (snd (AddonRequirementsChecker._get_addons_paths addons_path_setting))).

Definition action_scan_addon_python_dependencies
    (fs : AddonRequirementsChecker.filesystem) (addons_path_setting : str)
    (w : wizard) : wizard :=
  let w := _update_addon_req_ui_fields w
             (Some [lit "Scanning addon dependencies..."])
             (Some [lit "No installation performed yet."])
             (Some (lit "scanned_error")) (Some []) in
  match run_analysis fs addons_path_setting with
  | Raise e =>
      _update_addon_req_ui_fields w
        (Some [lit "A critical error occurred during scan: " ++ exn_msg e])
        None (Some (lit "scanned_error")) None
  | Ok analysis =>
      let to_install_specs :=
        map AddonRequirementsChecker.package_spec
            (AddonRequirementsChecker.to_install analysis) in
      let w := _update_addon_req_ui_fields w
                 (Some (AddonRequirementsChecker.summary_lines analysis)) None None
                 (Some (packages_to_install_str to_install_specs)) in
      match AddonRequirementsChecker.errors analysis, to_install_specs with
      | _ :: _, _ =>
          _update_addon_req_ui_fields
            (add_to_scan_results
               (NL ++ NL ++ lit "ERRORS occurred during scan. Check Odoo server logs.") w)
            None None (Some (lit "scanned_error")) None
      | [], [] =>
          _update_addon_req_ui_fields w None None (Some (lit "scanned_ok")) None
      | [], _ :: _ =>
          _update_addon_req_ui_fields
            (add_to_scan_results
               (NL ++ NL ++ lit "--- ACTION REQUIRED ---" ++ NL
                  ++ lit "Missing dependencies found. Click 'Install Discovered Dependencies'.")
               w)
            None None (Some (lit "scanned_issues")) None
      end
  end.

End ScanAction.

(** ** [action_install_addon_python_dependencies] *)

(** [[spec.strip() for spec in text.split(';;;') if spec.strip()]] *)
Definition packages_specs (text : str) : list str :=
  map strip
      (filter (fun spec => match strip spec with [] => false | _ => true end)
              (split SEPARATOR text)).

Section InstallAction.

Variable sys_executable : str.
Variables world proc : Type.
Variable Popen : world -> list str -> world * result proc.
Variable communicate : world -> proc -> option Z -> world * result (str * str).
Variable returncode : world -> proc -> Z.
Variable poll : world -> proc -> option Z.
Variable kill : world -> proc -> world.

(** The model of [install_packages] returns in every case, so the
    [except] clause of the action is not entered. *)
Definition action_install_addon_python_dependencies (host : world) (w : wizard)
  : world * wizard :=
  match packages_to_install_list w with
  | [] =>
      (host,
       _update_addon_req_ui_fields w None
         (Some [lit "No packages were marked for installation. Scan first."])
         None None)
  | _ =>
      let w := _update_addon_req_ui_fields w None
                 (Some [lit "Starting installation..." ++ NL])
                 (Some (lit "install_inprogress")) None in
      let st := AddonRequirementsChecker.install_packages sys_executable Popen
                  communicate returncode poll kill host
                  (packages_specs (packages_to_install_list w)) in
      let install_results := AddonRequirementsChecker.acc st in
      let w := _update_addon_req_ui_fields w None
                 (Some (AddonRequirementsChecker.log_lines install_results))
                 None None in
      let w :=
        match AddonRequirementsChecker.failed install_results with
        | _ :: _ =>
            let failed_specs :=
              dict_keys (AddonRequirementsChecker.failed install_results) in
            add_to_install_log
              (NL ++ NL ++ lit "Some packages failed. Try 'Install' again for failed items.")
              (_update_addon_req_ui_fields w None None None
                 (Some (packages_to_install_str failed_specs)))
        | [] =>
            add_to_install_log
              (NL ++ NL ++ lit "All packages processed successfully.")
              (_update_addon_req_ui_fields w None None None (Some []))
        end in
      let w := _update_addon_req_ui_fields w None None
                 (Some match AddonRequirementsChecker.failed install_results with
                       | _ :: _ => lit "install_done_errors"
                       | [] => lit "install_done_ok"
                       end) None in
      (AddonRequirementsChecker.host st,
       add_to_install_log
         (NL ++ NL ++ lit "Recommended: 'Scan Addon Python Dependencies' again to verify.")
         w)
  end.

End InstallAction.

End SetupAssistWizard.

(** A requirement that can be stored in the list of the wizard and read
    back: it does not hold the separator and does not end with [;]. *)
Definition separable (spec : Py.str) : Prop :=
  Py.contains SetupAssistWizard.SEPARATOR spec = false
  /\ N.eqb (last spec 0%N) 59 = false.

(** ** Further inputs for the examples *)

Module Cases.
Import Py.
Local Open Scope N_scope.

(** The wizard with the defaults of its fields. *)
Definition fresh_wizard : SetupAssistWizard.wizard :=
  {| SetupAssistWizard.addon_req_scan_results :=
       lit "Click 'Scan Addon Python Dependencies'.";
     SetupAssistWizard.addon_req_install_log := lit "No installation performed yet.";
     SetupAssistWizard.addon_req_status := lit "not_run";
     SetupAssistWizard.packages_to_install_list := [];
     SetupAssistWizard.log_file_path_display :=
       lit "Log file path will be shown after attempting to load logs.";
     SetupAssistWizard.log_lines_to_fetch := 200%Z;
     SetupAssistWizard.log_level_filter := lit "ALL";
     SetupAssistWizard.log_keyword_filter := LogAnalyzer.PyNone;
     SetupAssistWizard.log_display_content :=
       lit "Logs not loaded yet. Configure options and click 'Load & Analyze Logs'.";
     SetupAssistWizard.log_diagnostic_hints := lit "No specific issues diagnosed yet.";
     SetupAssistWizard.log_analysis_status := lit "not_run" |}.

(** The wizard after a scan that marked [A] and [B]. *)
Definition wizard_with_two_marked : SetupAssistWizard.wizard :=
  SetupAssistWizard._update_addon_req_ui_fields fresh_wizard None None
    (Some (lit "scanned_issues")) (Some (lit "A;;;B")).

(** An addons path that does not exist on the hosts of [Scenario]. *)
Definition missing_path : str := lit "/opt/odoo/missing".

(** What [Popen] raises when the interpreter is not there. *)
Definition no_interpreter : exn :=
  Exn FileNotFoundError
      (lit "[Errno 2] No such file or directory: '/usr/bin/python3'").

(** The analysis that a run returned. *)
Definition returned (r : AddonRequirementsChecker.log
                         * result AddonRequirementsChecker.analysis)
  : AddonRequirementsChecker.analysis :=
  match snd r with
  | Ok a => a
  | Raise _ =>
      {| AddonRequirementsChecker.to_install := [];
         AddonRequirementsChecker.satisfied := [];
         AddonRequirementsChecker.errors := [];
         AddonRequirementsChecker.summary_lines := [] |}
  end.

(** A log of 5005 bytes: a line of 5000 times [b], then the lines [c] and
    [d].  Its last 4096 bytes hold the end of the first line and the two
    other lines. *)
Definition long_file : bytes :=
  repeat x62 5000 ++ [Scenario.LF] ++ bytes_lit "c" ++ [Scenario.LF]
    ++ bytes_lit "d" ++ [Scenario.LF].

(** A second addons directory. *)
Definition custom_addons : str := lit "/opt/odoo/custom".

(** The module directories of the addons directories [dirs], each with its
    requirements file. *)
Definition module_dirs
    (dirs : list (str * list (str * AddonRequirementsChecker.text_file)))
  : list (str * AddonRequirementsChecker.text_file) :=
  flat_map (fun d => map (fun m => (path_join (fst d) (fst m), snd m)) (snd d))
           dirs.

(** A host with the addons directories [dirs]; each of them holds the
    given modules, each with a manifest and a requirements file. *)
Definition addons_fs
    (dirs : list (str * list (str * AddonRequirementsChecker.text_file)))
  : AddonRequirementsChecker.filesystem :=
  {| AddonRequirementsChecker.isdir := fun p =>
       existsb (fun d => str_eqb p (fst d)) dirs
       || existsb (fun m => str_eqb p (fst m)) (module_dirs dirs);
     AddonRequirementsChecker.exists_ := fun p =>
       existsb (fun m => str_eqb p (path_join (fst m) (lit "__manifest__.py"))
                         || str_eqb p (path_join (fst m) (lit "requirements.txt")))
               (module_dirs dirs);
     AddonRequirementsChecker.listdir := fun p =>
       match find (fun d => str_eqb p (fst d)) dirs with
       | Some d => Ok (map fst (snd d))
       | None => Raise (Exn OtherError (lit "Not a directory"))
       end;
     AddonRequirementsChecker.open_utf8 := fun p =>
       match find (fun m => str_eqb p (path_join (fst m) (lit "requirements.txt")))
                  (module_dirs dirs) with
       | Some m => snd m
       | None => AddonRequirementsChecker.OpenFails
                   (Exn FileNotFoundError (lit "No such file or directory"))
       end |}.

(** Two addons directories that both hold a module [billing]: the one of
    [addons] asks for [requests], the one of [custom_addons] for [stripe]. *)
Definition billing_twice_fs : AddonRequirementsChecker.filesystem :=
  addons_fs
    [(Scenario.addons,
      [(lit "billing",
        AddonRequirementsChecker.Yields [Scenario.line "requests"] None)]);
     (custom_addons,
      [(lit "billing",
        AddonRequirementsChecker.Yields [Scenario.line "stripe"] None)])].

(** Two addons directories: [addons] holds [billing], with the given
    requirements file, and [shipping]; [custom_addons] holds [stock]. *)
Definition three_modules_fs (billing : AddonRequirementsChecker.text_file)
  : AddonRequirementsChecker.filesystem :=
  addons_fs
    [(Scenario.addons,
      [(lit "billing", billing);
       (lit "shipping",
        AddonRequirementsChecker.Yields [Scenario.line "requests==2.31.0"] None)]);
     (custom_addons,
      [(lit "stock", AddonRequirementsChecker.Yields [Scenario.line "lxml"] None)])].

(** Two addons directories that both hold a module [billing]: the
    requirements file of the one of [addons] is read, the one of
    [custom_addons] fails on its first block. *)
Definition billing_malformed_in_second_fs : AddonRequirementsChecker.filesystem :=
  addons_fs
    [(Scenario.addons,
      [(lit "billing",
        AddonRequirementsChecker.Yields [Scenario.line "requests"] None)]);
     (custom_addons, [(lit "billing", Scenario.early_failure)])].

(** The specifier of a requirement of the [packaging] fragment. *)
Definition specifier_of (package_spec : str) : list Reference.specifier :=
  match Reference.reference_Requirement package_spec with
  | Ok (_, specifier) => specifier
  | Raise _ => []
  end.

End Cases.

Unset Implicit Arguments.

(* ================================================================== *)
(** * Properties of the Python preliminaries *)
(* ================================================================== *)

Section PyFacts.
Import Py.

Lemma str_eqb_eq (a b : str) : str_eqb a b = true <-> a = b.
Proof.
  revert b; induction a as [|x a IH]; intros [|y b]; simpl; split;
    try congruence; try reflexivity.
  - intros H. apply andb_true_iff in H as [Hx Hab].
    apply N.eqb_eq in Hx. apply IH in Hab. congruence.
  - intros H. injection H as -> ->. rewrite N.eqb_refl. simpl. now apply IH.
Qed.

Lemma str_eqb_refl (a : str) : str_eqb a a = true.
Proof. now apply str_eqb_eq. Qed.

Lemma str_eqb_neq (a b : str) : str_eqb a b = false <-> a <> b.
Proof.
  split.
  - intros H E. apply str_eqb_eq in E. congruence.
  - intros H. destruct (str_eqb a b) eqn:E; [|reflexivity].
    apply str_eqb_eq in E. contradiction.
Qed.

Lemma existsb_str_eqb (t : str) (l : list str) :
  existsb (str_eqb t) l = true <-> In t l.
Proof.
  rewrite existsb_exists. split.
  - intros [x [Hin Heq]]. apply str_eqb_eq in Heq. now subst.
  - intros Hin. exists t. split; [assumption | apply str_eqb_refl].
Qed.

(** A slice [l[-n:]] with [n] positive has at most [n] elements. *)
Lemma slice_from_neg_length {A} (n : Z) (l : list A) :
  (0 < n)%Z -> (Z.of_nat (List.length (slice_from (- n) l)) <= n)%Z.
Proof.
  intros Hn. unfold slice_from.
  destruct (Z.ltb_spec (- n) 0) as [_|H]; [|lia].
  rewrite length_skipn. lia.
Qed.

(** A slice [l[-n:]] of a list of [n] elements is the list. *)
Lemma slice_from_neg_all {A} (l : list A) :
  slice_from (- Z.of_nat (List.length l)) l = l.
Proof.
  unfold slice_from.
  destruct (Z.ltb_spec (- Z.of_nat (List.length l)) 0) as [H|H].
  - replace (Z.max _ 0) with 0%Z by lia. reflexivity.
  - assert (List.length l = O) by lia.
    destruct l; [reflexivity | discriminate].
Qed.

(** [l[-0:]] is the whole list. *)
Lemma slice_from_zero {A} (l : list A) : slice_from (- 0) l = l.
Proof.
  unfold slice_from. simpl. replace (Z.min 0 _) with 0%Z by lia. reflexivity.
Qed.

(** The decoder on the euro sign, on a sequence cut short and on a byte
    that starts nothing; the line splitter on the boundaries it knows. *)
Example decode_utf8_replace_samples :
  decode_utf8_replace [xe2; x82; xac] = [8364%N]
  /\ decode_utf8_replace [x61; xe2; x82] = [97%N; REPLACEMENT]
  /\ decode_utf8_replace [xff; x61] = [REPLACEMENT; 97%N].
Proof. repeat split; reflexivity. Qed.

Example splitlines_samples :
  splitlines (lit "a" ++ [13; 10] ++ lit "b" ++ [10])%N = [lit "a"; lit "b"]
  /\ splitlines ([10] ++ lit "b")%N = [[]; lit "b"]
  /\ splitlines (lit "a" ++ [12] ++ lit "b")%N = [lit "a"; lit "b"]
  /\ splitlines [] = [].
Proof. repeat split; reflexivity. Qed.

End PyFacts.

(* ================================================================== *)
(** * The log tailer *)
(* ================================================================== *)

Section TailFacts.
Import Py LogAnalyzer.
Local Open Scope Z_scope.

Lemma tail_body_read (data : bytes) (end_byte : Z) (st : tail_state) :
  snd (tail_body data end_byte st)
  = snd st + Z.min buffer_size (end_byte - snd st).
Proof.
  destruct st as [lines_found total]. unfold tail_body.
  destruct lines_found as [|first others];
    destruct (splitlines _) as [|c cs]; reflexivity.
Qed.

(** The loop leaves by its condition: [end_byte] passes are never used up
    while the condition still holds. *)
Lemma tail_loop_exits (fuel : nat) (data : bytes) (n_lines end_byte : Z)
    (st : tail_state) :
  end_byte - snd st <= Z.of_nat fuel ->
  tail_cond n_lines end_byte (tail_loop fuel data n_lines end_byte st) = false.
Proof.
  revert st. induction fuel as [|fuel IH]; intros st Hfuel; simpl.
  - unfold tail_cond. apply andb_false_iff. right. apply Z.ltb_ge. lia.
  - destruct (tail_cond n_lines end_byte st) eqn:Hc; [|assumption].
    apply IH. rewrite tail_body_read.
    unfold tail_cond in Hc. apply andb_true_iff in Hc as [_ Hlt].
    apply Z.ltb_lt in Hlt. unfold buffer_size. lia.
Qed.

Lemma read_chunk_all (data : bytes) :
  read_chunk data 0 (Z.of_nat (List.length data)) = data.
Proof.
  unfold read_chunk. simpl. rewrite Nat2Z.id. apply firstn_all.
Qed.

Lemma tail_loop_one_pass (fuel : nat) (data : bytes) (n_lines end_byte : Z)
    (st : tail_state) :
  tail_cond n_lines end_byte st = true ->
  tail_cond n_lines end_byte (tail_body data end_byte st) = false ->
  tail_loop (S fuel) data n_lines end_byte st = tail_body data end_byte st.
Proof.
  intros Hc Hc'. simpl. rewrite Hc.
  destruct fuel as [|k]; simpl; [reflexivity|]. now rewrite Hc'.
Qed.

Lemma tail_body_first_chunk (data : bytes) :
  Z.of_nat (List.length data) <= buffer_size ->
  tail_body data (Z.of_nat (List.length data)) ([], 0)
  = (splitlines (decode_utf8_replace data), Z.of_nat (List.length data)).
Proof.
  intros Hsmall. unfold tail_body.
  replace (Z.min buffer_size (Z.of_nat (List.length data) - 0))
    with (Z.of_nat (List.length data)) by lia.
  replace (Z.of_nat (List.length data) - (0 + Z.of_nat (List.length data)))
    with 0 by lia.
  rewrite read_chunk_all, app_nil_r.
  replace (0 + Z.of_nat (List.length data)) with (Z.of_nat (List.length data)) by lia.
  reflexivity.
Qed.

(** A file that fits in one chunk is decoded and split as a whole. *)
Lemma tail_of_small_file (data : bytes) (n_lines : Z) :
  data <> [] -> Z.of_nat (List.length data) <= buffer_size -> 0 <= n_lines ->
  tail_of_bytes data n_lines
  = slice_from (- n_lines) (splitlines (decode_utf8_replace data)).
Proof.
  intros Hne Hsmall Hn. unfold tail_of_bytes.
  assert (Hlen : exists k, List.length data = S k).
  { destruct data; [contradiction | eexists; reflexivity]. }
  destruct Hlen as [k Hlen].
  destruct (Z.eqb_spec (Z.of_nat (List.length data)) 0) as [E|_]; [lia|].
  rewrite Hlen at 1. rewrite tail_loop_one_pass.
  - now rewrite tail_body_first_chunk.
  - unfold tail_cond. simpl. apply andb_true_iff. split; apply Z.ltb_lt; lia.
  - rewrite tail_body_first_chunk by assumption.
    unfold tail_cond. simpl. apply andb_false_iff. right. apply Z.ltb_ge. lia.
Qed.

(** Within one chunk, a request for as many lines as the file has returns
    them all. *)
Lemma tail_of_small_file_complete (data : bytes) :
  data <> [] -> Z.of_nat (List.length data) <= buffer_size ->
  let lines := splitlines (decode_utf8_replace data) in
  tail_of_bytes data (Z.of_nat (List.length lines)) = lines.
Proof.
  intros Hne Hsmall lines. rewrite tail_of_small_file by (assumption || lia).
  apply slice_from_neg_all.
Qed.

(** A request for a positive number of lines is never exceeded. *)
Lemma tail_length_bound (data : bytes) (n_lines : Z) :
  0 < n_lines -> Z.of_nat (List.length (tail_of_bytes data n_lines)) <= n_lines.
Proof.
  intros Hn. unfold tail_of_bytes.
  destruct (Z.of_nat (List.length data) =? 0); [simpl; lia|].
  destruct (tail_loop _ _ _ _ _) as [lines_found total].
  now apply slice_from_neg_length.
Qed.

End TailFacts.

Section TailClaims.
Import Py LogAnalyzer Scenario.
Local Open Scope Z_scope.

(** C1.  A file of exactly two newline-terminated lines, [a] and 4095
    times [b], asked for its last two lines: the first chunk read is the
    whole second line, the second chunk is the first line, and the tailer
    glues the two into a single line of 4096 characters.  The claim asks
    for both lines, as they are in the file; the tailer returns one line
    that is in no file. *)
Theorem tail_joins_lines_at_chunk_boundary :
  splitlines (decode_utf8_replace two_chunk_file) = [lit "a"; repeat 98%N 4095]
  /\ _efficient_tail (log_fs two_chunk_file) (Some log_path) 2
     = Ok [lit "a" ++ repeat 98%N 4095].
Proof. split; vm_compute; reflexivity. Qed.

(** C2.  A request for no line at all: the slice [lines_found[-0:]] is the
    whole list, so both lines of a two-line file come back, where the claim
    allows at most zero. *)
Theorem tail_of_zero_lines_returns_lines :
  _efficient_tail (log_fs short_file) (Some log_path) 0 = Ok [lit "a"; lit "b"].
Proof. vm_compute. reflexivity. Qed.

(** A line that the chunk boundary cuts in two is put together again. *)
Example tail_stitches_a_cut_line :
  _efficient_tail (log_fs cut_line_file) (Some log_path) 2
  = Ok [lit "ab"; repeat 98%N 4094].
Proof. vm_compute. reflexivity. Qed.

(** A request for more lines than the file has returns the lines it has;
    a file that is not there is reported. *)
Example tail_of_short_file :
  _efficient_tail (log_fs short_file) (Some log_path) 5 = Ok [lit "a"; lit "b"]
  /\ _efficient_tail (log_fs short_file) (Some log_path) 1 = Ok [lit "b"]
  /\ _efficient_tail (log_fs short_file) (Some (lit "/tmp/none")) 1
     = Raise (Exn FileNotFoundError (lit "Log file not found at /tmp/none")).
Proof. repeat split; vm_compute; reflexivity. Qed.

End TailClaims.

(* ================================================================== *)
(** * The log filter *)
(* ================================================================== *)

Section FilterFacts.
Import Py LogAnalyzer.

Variable str_lower : str -> str.
Variable str_upper : str -> str.
Variable LOG_LINE_REGEX_match : str -> option str.

Local Abbreviation line_passes := (line_passes str_lower str_upper LOG_LINE_REGEX_match).
Local Abbreviation filter_lines := (filter_lines str_lower str_upper LOG_LINE_REGEX_match).
Local Abbreviation get_filtered_log_lines :=
  (get_filtered_log_lines str_lower str_upper LOG_LINE_REGEX_match).
Local Abbreviation keyword_passes := (keyword_passes str_lower).

Lemma arg_ne_false (a : pyarg) (s : str) : arg_ne a s = false <-> a = PyStr s.
Proof.
  destruct a as [|t]; simpl.
  - split; discriminate.
  - rewrite negb_false_iff, str_eqb_eq. split; congruence.
Qed.

Lemma arg_in_info_debug (a : pyarg) :
  arg_in a [lit "INFO"; lit "DEBUG"] = true
  <-> a = PyStr (lit "INFO") \/ a = PyStr (lit "DEBUG").
Proof.
  destruct a as [|t]; unfold arg_in.
  - split; [discriminate | intros [H|H]; discriminate].
  - rewrite existsb_str_eqb. simpl In. split.
    + intros [H|[H|[]]]; [left | right]; congruence.
    + intros [H|H]; injection H as <-; auto.
Qed.

(** With no keyword, every line passes the keyword test. *)
Lemma keyword_passes_without_keyword (keyword_filter : pyarg) (line : str) :
  truthy keyword_filter = false -> keyword_passes keyword_filter line = true.
Proof. destruct keyword_filter as [|[|c k]]; simpl; congruence. Qed.

(** With no restriction of the level, the level test keeps the line and
    does not look at it. *)
Lemma line_passes_unfiltered (keyword_filter : pyarg) (line : str) :
  truthy keyword_filter = false ->
  line_passes (PyStr (lit "ALL")) keyword_filter line = ([], Ok true).
Proof.
  intros H. unfold LogAnalyzer.line_passes.
  now rewrite keyword_passes_without_keyword.
Qed.

Lemma filter_lines_unfiltered (keyword_filter : pyarg) (raw_lines : list str) :
  truthy keyword_filter = false ->
  filter_lines (PyStr (lit "ALL")) keyword_filter raw_lines = ([], Ok raw_lines).
Proof.
  intros H. induction raw_lines as [|line rest IH]; [reflexivity|].
  simpl LogAnalyzer.filter_lines. rewrite line_passes_unfiltered by assumption.
  fold (filter_lines (PyStr (lit "ALL")) keyword_filter rest). now rewrite IH.
Qed.

(** The verdict on one line. *)
Lemma line_passes_verdict (level_filter keyword_filter : pyarg) (line : str) :
  (keyword_passes keyword_filter line = false ->
   line_passes level_filter keyword_filter line = ([], Ok false))
  /\ (keyword_passes keyword_filter line = true ->
      LOG_LINE_REGEX_match line = None ->
      exists ev keep,
        line_passes level_filter keyword_filter line = (ev, Ok keep)
        /\ (keep = true <-> broad_filter level_filter)).
Proof.
  unfold LogAnalyzer.line_passes. split.
  - intros ->. reflexivity.
  - intros -> Hnone. unfold level_passes. rewrite Hnone.
    destruct (arg_ne level_filter (lit "ALL")) eqn:Hall.
    + eexists; eexists; split; [reflexivity|].
      rewrite arg_in_info_debug. unfold broad_filter. split; [tauto|].
      intros [H|H]; [|assumption].
      apply arg_ne_false in H. congruence.
    + eexists; eexists; split; [reflexivity|].
      apply arg_ne_false in Hall. unfold broad_filter. tauto.
Qed.

(** What is known of every line the loop keeps and of every line the
    grammar is applied to. *)
Lemma filter_lines_sound (level_filter keyword_filter : pyarg)
    (raw_lines : list str) :
  forall ev r,
    filter_lines level_filter keyword_filter raw_lines = (ev, r) ->
    (forall l, In (RegexApplied l) ev ->
               In l raw_lines /\ keyword_passes keyword_filter l = true)
    /\ (forall kept l, r = Ok kept -> In l kept ->
          In l raw_lines
          /\ keyword_passes keyword_filter l = true
          /\ (LOG_LINE_REGEX_match l = None -> broad_filter level_filter)).
Proof.
  induction raw_lines as [|line rest IH]; intros ev r Hrun.
  - simpl in Hrun. injection Hrun as <- <-. split.
    + intros l [].
    + intros kept l Hk. injection Hk as <-. intros [].
  - simpl in Hrun.
    fold (line_passes level_filter keyword_filter line) in Hrun.
    fold (filter_lines level_filter keyword_filter rest) in Hrun.
    assert (Hev1 : forall l, In (RegexApplied l) (fst (line_passes level_filter keyword_filter line)) ->
                             l = line /\ keyword_passes keyword_filter line = true).
    { unfold LogAnalyzer.line_passes, level_passes.
      destruct (keyword_passes keyword_filter line); [|intros l []].
      destruct (arg_ne level_filter (lit "ALL")); simpl; [|intros l []].
      intros l [H|[]]. injection H as <-. auto. }
    destruct (line_passes level_filter keyword_filter line) as [ev1 [keep|e]] eqn:Hline.
    + destruct (filter_lines level_filter keyword_filter rest) as [ev2 r2] eqn:Hrest.
      specialize (IH ev2 r2 eq_refl). destruct IH as [IHev IHkept].
      assert (Hevs : forall l, In (RegexApplied l) (ev1 ++ ev2) ->
                In l (line :: rest) /\ keyword_passes keyword_filter l = true).
      { intros l Hin. apply in_app_or in Hin as [Hin|Hin].
        - apply Hev1 in Hin as [-> Hk]. simpl; auto.
        - apply IHev in Hin as [Hin Hk]. simpl; auto. }
      destruct r2 as [kept2|e2]; injection Hrun as <- <-; (split; [exact Hevs|]).
      * intros kept l Hk Hin. injection Hk as <-.
        assert (Hrestcase : In l kept2 -> In l (line :: rest)
                  /\ keyword_passes keyword_filter l = true
                  /\ (LOG_LINE_REGEX_match l = None -> broad_filter level_filter)).
        { intros Hin2. destruct (IHkept kept2 l eq_refl Hin2) as [H1 [H2 H3]].
          simpl; auto. }
        destruct keep; [|auto].
        destruct Hin as [<-|Hin]; [|auto].
        destruct (line_passes_verdict level_filter keyword_filter line) as [Hdrop Hkeep].
        destruct (keyword_passes keyword_filter line) eqn:Hkw.
        -- split; [simpl; auto|]. split; [reflexivity|].
           intros Hnone. destruct (Hkeep eq_refl Hnone) as [ev' [keep' [Heq Hiff]]].
           rewrite Hline in Heq. injection Heq as <- <-. now apply Hiff.
        -- rewrite (Hdrop eq_refl) in Hline. discriminate.
      * intros kept l Hk. discriminate.
    + injection Hrun as <- <-. split.
      * intros l Hin. apply Hev1 in Hin as [-> Hk]. simpl; auto.
      * intros kept l Hk. discriminate.
Qed.

(** With a string for the level, the verdict on a line is a boolean. *)
Lemma line_passes_string_level (l : str) (keyword_filter : pyarg) (line : str) :
  exists ev keep,
    line_passes (PyStr l) keyword_filter line = (ev, Ok keep)
    /\ (keep = true <->
        keyword_passes keyword_filter line = true
        /\ (l = lit "ALL"
            \/ match LOG_LINE_REGEX_match line with
               | Some level => str_upper level = str_upper l
               | None => l = lit "INFO" \/ l = lit "DEBUG"
               end)).
Proof.
  unfold LogAnalyzer.line_passes, level_passes.
  destruct (keyword_passes keyword_filter line) eqn:Hkw.
  - destruct (arg_ne (PyStr l) (lit "ALL")) eqn:Hall.
    + assert (Hne : l <> lit "ALL").
      { intros ->.
        assert (arg_ne (PyStr (lit "ALL")) (lit "ALL") = false)
          by (apply arg_ne_false; reflexivity).
        congruence. }
      destruct (LOG_LINE_REGEX_match line) as [level|].
      * eexists; eexists; split; [reflexivity|].
        rewrite str_eqb_eq. split; [auto | intros [_ [H|H]]; [contradiction | exact H]].
      * eexists; eexists; split; [reflexivity|].
        rewrite arg_in_info_debug. split.
        -- intros [H|H]; injection H as ->; auto.
        -- intros [_ [H|[H|H]]]; [contradiction | left | right]; now subst.
    + apply arg_ne_false in Hall. injection Hall as ->.
      eexists; eexists; split; [reflexivity|]. split; auto.
  - eexists; eexists; split; [reflexivity|].
    split; [discriminate | intros [H _]; discriminate].
Qed.

Lemma filter_lines_by_line (l : str) (keyword_filter : pyarg)
    (raw_lines : list str) :
  snd (filter_lines (PyStr l) keyword_filter raw_lines)
  = Ok (filter (fun line =>
                  match snd (line_passes (PyStr l) keyword_filter line) with
                  | Ok keep => keep
                  | Raise _ => false
                  end) raw_lines).
Proof.
  induction raw_lines as [|line rest IH]; [reflexivity|].
  simpl LogAnalyzer.filter_lines. simpl filter.
  destruct (line_passes_string_level l keyword_filter line) as [ev [keep [E _]]].
  rewrite E. simpl snd.
  destruct (filter_lines (PyStr l) keyword_filter rest) as [ev' r] eqn:Hrest.
  simpl in IH. subst r. destruct keep; reflexivity.
Qed.

(** The lines that the loop returns are the fetched lines on which the
    verdict is to keep. *)
Lemma filter_lines_kept (level_filter keyword_filter : pyarg)
    (raw_lines : list str) :
  forall ev kept,
    filter_lines level_filter keyword_filter raw_lines = (ev, Ok kept) ->
    forall l,
      In l kept <->
      In l raw_lines /\ snd (line_passes level_filter keyword_filter l) = Ok true.
Proof.
  induction raw_lines as [|line rest IH]; intros ev kept Hrun l.
  - simpl in Hrun. injection Hrun as <- <-. simpl. tauto.
  - simpl in Hrun.
    fold (line_passes level_filter keyword_filter line) in Hrun.
    fold (filter_lines level_filter keyword_filter rest) in Hrun.
    destruct (line_passes level_filter keyword_filter line)
      as [ev1 [keep|e]] eqn:Hline; [|discriminate].
    destruct (filter_lines level_filter keyword_filter rest)
      as [ev2 [kept2|e2]] eqn:Hrest; [|discriminate].
    injection Hrun as <- <-. specialize (IH ev2 kept2 eq_refl l).
    destruct keep; simpl In; rewrite IH; split.
    + intros [<-|[Hin Hv]]; [|auto]. split; [now left | now rewrite Hline].
    + intros [[<-|Hin] Hv]; [now left | right; auto].
    + intros [Hin Hv]. auto.
    + intros [[<-|Hin] Hv]; [|auto]. rewrite Hline in Hv. discriminate.
Qed.

(** C8.  A line that fails the keyword test is dropped and the grammar is
    not applied to it; a line that passes the keyword test and does not
    follow the grammar is kept exactly when the level filter is ['ALL'],
    ['INFO'] or ['DEBUG'].  This holds of the verdict on one line and of
    the loop as a whole: the grammar is only ever applied to lines that
    pass the keyword test; when the loop returns, a line that fails the
    keyword test is not among the lines returned, and a line that passes
    it and does not follow the grammar is among them exactly when it was
    fetched and the filter is one of these three; and with a string for
    the level the loop does return. *)
Theorem filter_keyword_first_and_unparsed_lines
    (level_filter keyword_filter : pyarg) (line : str) (raw_lines : list str) :
  (keyword_passes keyword_filter line = false ->
   line_passes level_filter keyword_filter line = ([], Ok false))
  /\ (keyword_passes keyword_filter line = true ->
      LOG_LINE_REGEX_match line = None ->
      exists ev keep,
        line_passes level_filter keyword_filter line = (ev, Ok keep)
        /\ (keep = true <-> broad_filter level_filter))
  /\ (forall l, In (RegexApplied l)
                   (fst (filter_lines level_filter keyword_filter raw_lines)) ->
                keyword_passes keyword_filter l = true)
  /\ (forall kept,
        snd (filter_lines level_filter keyword_filter raw_lines) = Ok kept ->
        (keyword_passes keyword_filter line = false -> ~ In line kept)
        /\ (keyword_passes keyword_filter line = true ->
            LOG_LINE_REGEX_match line = None ->
            (In line kept <-> In line raw_lines /\ broad_filter level_filter)))
  /\ (forall l, level_filter = PyStr l ->
        exists kept,
          snd (filter_lines level_filter keyword_filter raw_lines) = Ok kept).
Proof.
  destruct (line_passes_verdict level_filter keyword_filter line) as [Hdrop Hkeep].
  destruct (filter_lines level_filter keyword_filter raw_lines) as [ev r] eqn:Hrun.
  destruct (filter_lines_sound _ _ _ _ _ Hrun) as [Hev _].
  split; [exact Hdrop|]. split; [exact Hkeep|]. split; [|split].
  - intros l Hin. now apply Hev.
  - intros kept Hr. simpl in Hr. subst r.
    pose proof (filter_lines_kept _ _ _ _ _ Hrun line) as Hkept. split.
    + intros Hkw Hin. apply Hkept in Hin as [_ Hv].
      rewrite (Hdrop Hkw) in Hv. discriminate.
    + intros Hkw Hnone.
      destruct (Hkeep Hkw Hnone) as [ev' [keep [Hline Hiff]]].
      rewrite Hkept, Hline. simpl snd. rewrite <- Hiff.
      split; intros [Hin Hv]; (split; [exact Hin|]); congruence.
  - intros l ->. pose proof (filter_lines_by_line l keyword_filter raw_lines) as Hf.
    rewrite Hrun in Hf. simpl in Hf. eexists. exact Hf.
Qed.

(** C9.  With the level filter ['ALL'] and no keyword, the lines that were
    fetched, if there are any, are returned as they are, with the status
    ['success']. *)
Theorem unfiltered_lines_are_returned_unchanged
    (fs : filesystem) (log_file_path : option str) (num_lines : Z)
    (keyword_filter : pyarg) (raw_lines : list str) :
  _efficient_tail fs log_file_path num_lines = Ok raw_lines ->
  raw_lines <> [] ->
  truthy keyword_filter = false ->
  get_filtered_log_lines fs log_file_path num_lines (PyStr (lit "ALL")) keyword_filter
  = ([], Ok (raw_lines, lit "success")).
Proof.
  intros Htail Hne Hkw. unfold LogAnalyzer.get_filtered_log_lines.
  destruct log_file_path as [[|c path]|]; try discriminate.
  rewrite Htail. destruct raw_lines as [|l ls]; [contradiction|].
  rewrite filter_lines_unfiltered by assumption. reflexivity.
Qed.

(** C10.  When lines were fetched and the filters leave none of them, the
    answer is the one-line message with the status ['empty_after_filter'];
    and no answer of [get_filtered_log_lines] is an empty list. *)
Theorem filtered_out_lines_are_reported
    (fs : filesystem) (log_file_path : option str) (num_lines : Z)
    (level_filter keyword_filter : pyarg) :
  (forall raw_lines ev,
     _efficient_tail fs log_file_path num_lines = Ok raw_lines ->
     raw_lines <> [] ->
     filter_lines level_filter keyword_filter raw_lines = (ev, Ok []) ->
     get_filtered_log_lines fs log_file_path num_lines level_filter keyword_filter
     = (ev, Ok ([lit "No log entries found matching the current filter criteria."],
                lit "empty_after_filter")))
  /\ (forall ev lines status,
        get_filtered_log_lines fs log_file_path num_lines level_filter keyword_filter
        = (ev, Ok (lines, status)) ->
        lines <> []).
Proof.
  split.
  - intros raw_lines ev Htail Hne Hrun. unfold LogAnalyzer.get_filtered_log_lines.
    destruct log_file_path as [[|c path]|]; try discriminate.
    rewrite Htail. destruct raw_lines as [|l ls]; [contradiction|].
    now rewrite Hrun.
  - intros ev lines status. unfold LogAnalyzer.get_filtered_log_lines.
    assert (Hone : forall (ev' : list event) (msg st : str),
               (ev', Ok ([msg], st)) = (ev, Ok (lines, status)) -> lines <> []).
    { intros ev' msg st H. injection H as _ <- _. discriminate. }
    destruct log_file_path as [[|c path]|]; [apply Hone | | apply Hone].
    destruct (_efficient_tail fs _ num_lines) as [[|l ls]|[cls msg]].
    + apply Hone.
    + destruct (filter_lines level_filter keyword_filter _)
        as [ev' [[|k ks]|e]]; try apply Hone; try discriminate.
      intros H. injection H as _ <- _. discriminate.
    + destruct cls; apply Hone.
Qed.

End FilterFacts.

Section FilterWitnesses.
Import Py LogAnalyzer Scenario Reference.

Lemma filter_keyword_first_and_unparsed_lines_witness :
  let raw_lines := splitlines (decode_utf8_replace mixed_file) in
  let traceback := lit "Traceback (most recent call last):" in
  line_passes ascii_lower ascii_upper log_line_level
    (PyStr (lit "ERROR")) (PyStr (lit "connection")) traceback = ([], Ok false)
  /\ ~ In traceback [nth 0 raw_lines []]
  /\ (In traceback [traceback; nth 2 raw_lines []]
      <-> In traceback raw_lines /\ broad_filter (PyStr (lit "INFO")))
  /\ (In traceback [nth 0 raw_lines []]
      <-> In traceback raw_lines /\ broad_filter (PyStr (lit "ERROR"))).
Proof.
  intros raw_lines traceback.
  pose proof (filter_keyword_first_and_unparsed_lines
                ascii_lower ascii_upper log_line_level
                (PyStr (lit "ERROR")) (PyStr (lit "connection"))
                traceback raw_lines) as [Hdrop [_ [_ [Hkept _]]]].
  pose proof (filter_keyword_first_and_unparsed_lines
                ascii_lower ascii_upper log_line_level
                (PyStr (lit "INFO")) PyNone traceback raw_lines)
    as [_ [_ [_ [Hinfo _]]]].
  pose proof (filter_keyword_first_and_unparsed_lines
                ascii_lower ascii_upper log_line_level
                (PyStr (lit "ERROR")) PyNone traceback raw_lines)
    as [_ [_ [_ [Herror _]]]].
  destruct (Hkept [nth 0 raw_lines []]) as [Hfails _]; [vm_compute; reflexivity|].
  destruct (Hinfo [traceback; nth 2 raw_lines []]) as [_ Hbroad];
    [vm_compute; reflexivity|].
  destruct (Herror [nth 0 raw_lines []]) as [_ Hstrict]; [vm_compute; reflexivity|].
  split; [apply Hdrop; reflexivity|]. split; [|split].
  - apply Hfails. vm_compute. reflexivity.
  - apply Hbroad; vm_compute; reflexivity.
  - apply Hstrict; vm_compute; reflexivity.
Defined.

Lemma unfiltered_lines_are_returned_unchanged_witness :
  get_filtered_log_lines ascii_lower ascii_upper log_line_level
    (log_fs short_file) (Some log_path) 200 (PyStr (lit "ALL")) PyNone
  = ([], Ok ([lit "a"; lit "b"], lit "success")).
Proof.
  apply unfiltered_lines_are_returned_unchanged.
  - vm_compute. reflexivity.
  - discriminate.
  - reflexivity.
Defined.

Lemma filtered_out_lines_are_reported_witness :
  get_filtered_log_lines ascii_lower ascii_upper log_line_level
    (log_fs short_file) (Some log_path) 200 (PyStr (lit "ALL")) (PyStr (lit "refused"))
  = ([], Ok ([lit "No log entries found matching the current filter criteria."],
             lit "empty_after_filter")).
Proof.
  apply (proj1 (filtered_out_lines_are_reported ascii_lower ascii_upper log_line_level
                  (log_fs short_file) (Some log_path) 200
                  (PyStr (lit "ALL")) (PyStr (lit "refused")))
               [lit "a"; lit "b"] []).
  - vm_compute. reflexivity.
  - discriminate.
  - vm_compute. reflexivity.
Defined.

(** Of an ERROR line, the first line of a traceback and an INFO line, the
    filter for ERROR keeps the first; the filter for INFO keeps the other
    two; the grammar is applied to all three. *)
Example strict_filter_drops_unparsed_line :
  let lines := splitlines (decode_utf8_replace mixed_file) in
  snd (get_filtered_log_lines ascii_lower ascii_upper log_line_level
         (log_fs mixed_file) (Some log_path) 3 (PyStr (lit "ERROR")) PyNone)
  = Ok ([nth 0 lines []], lit "success")
  /\ snd (get_filtered_log_lines ascii_lower ascii_upper log_line_level
            (log_fs mixed_file) (Some log_path) 3 (PyStr (lit "INFO")) PyNone)
     = Ok ([nth 1 lines []; nth 2 lines []], lit "success")
  /\ fst (get_filtered_log_lines ascii_lower ascii_upper log_line_level
            (log_fs mixed_file) (Some log_path) 3 (PyStr (lit "ERROR")) PyNone)
     = map RegexApplied lines.
Proof. repeat split; vm_compute; reflexivity. Qed.

(** The wizard passes [None] for ['ALL']: a line that follows the grammar
    then raises, and a line that does not is dropped. *)
Example level_filter_none :
  snd (line_passes ascii_lower ascii_upper log_line_level PyNone PyNone
         (lit "2023-10-27 10:30:01,007 12345 INFO my_db werkzeug: GET /web 200 OK"))
  = Raise (Exn AttributeError (lit "'NoneType' object has no attribute 'upper'"))
  /\ snd (line_passes ascii_lower ascii_upper log_line_level PyNone PyNone
            (lit "Traceback (most recent call last):"))
     = Ok false.
Proof. split; vm_compute; reflexivity. Qed.

End FilterWitnesses.

(* ================================================================== *)
(** * The diagnostic hints *)
(* ================================================================== *)

Section DiagnoseFacts.
Import Py LogAnalyzer.

Variable re_search : str -> str -> option (list str).

Lemma hints_distinct_add (log_lines : list str) (line text : str)
    (hints texts : list str) :
  In line log_lines ->
  hints_distinct log_lines (hints, texts) ->
  existsb (str_eqb text) texts = false ->
  hints_distinct log_lines (hints ++ [format_hint text line], texts ++ [text]).
Proof.
  intros Hin [Hnodup Hall] Hnew. simpl in *. split; simpl.
  - apply NoDup_rev in Hnodup.
    rewrite <- (rev_involutive (texts ++ [text])). apply NoDup_rev.
    rewrite rev_app_distr. simpl. constructor; [|assumption].
    rewrite <- in_rev. intros Hold.
    apply existsb_str_eqb in Hold. congruence.
  - apply Forall2_app; [assumption|].
    constructor; [|constructor]. exists line. auto.
Qed.

(** The rules keep the texts distinct, whatever the rules are. *)
Lemma apply_rules_distinct (log_lines : list str) (line : str)
    (rules : list (str * hint_or_func)) :
  In line log_lines ->
  forall st, hints_distinct log_lines st ->
             hints_distinct log_lines (apply_rules re_search rules line st).
Proof.
  intros Hin. induction rules as [|[pattern action] rules IH]; intros st Hst.
  - exact Hst.
  - simpl. apply IH.
    destruct (re_search pattern line) as [groups|]; [|exact Hst].
    destruct st as [hints texts].
    destruct (existsb _ texts) eqn:Hseen; simpl; [exact Hst|].
    now apply hints_distinct_add.
Qed.

Lemma diagnose_loop_distinct (log_lines : list str)
    (rules : list (str * hint_or_func)) (lines : list str) :
  incl lines log_lines ->
  forall st, hints_distinct log_lines st ->
             hints_distinct log_lines (diagnose_loop re_search rules lines st).
Proof.
  induction lines as [|line rest IH]; intros Hincl st Hst.
  - exact Hst.
  - simpl. apply IH.
    + intros l Hl. apply Hincl. now right.
    + destruct (is_candidate line); simpl; [|exact Hst].
      apply apply_rules_distinct; [|exact Hst].
      apply Hincl. now left.
Qed.

(** C7.  In a run of [diagnose_logs] the hint texts that were emitted are
    pairwise distinct, and the hints returned are these texts, one hint per
    text and in the same order, each formatted with one of the lines; when
    no hint was emitted the single fallback hint is returned. *)
Theorem diagnose_logs_hint_texts_distinct (log_lines : list str) :
  let hints := fst (diagnose_run re_search log_lines) in
  let texts := snd (diagnose_run re_search log_lines) in
  NoDup texts
  /\ Forall2 (fun hint text =>
                exists line, In line log_lines /\ hint = format_hint text line)
             hints texts
  /\ (diagnose_logs re_search log_lines = hints
      \/ hints = [] /\ diagnose_logs re_search log_lines = [NO_HINT]).
Proof.
  intros hints texts.
  assert (H : hints_distinct log_lines (diagnose_run re_search log_lines)).
  { apply diagnose_loop_distinct.
    - apply incl_refl.
    - split; constructor. }
  destruct H as [Hnodup Hall]. split; [exact Hnodup|]. split; [exact Hall|].
  unfold diagnose_logs. fold hints. destruct hints; [right | left]; auto.
Qed.

End DiagnoseFacts.

(** Five lines that trigger the same rule yield one hint. *)
Example five_lines_one_hint :
  let line := Py.lit "2023-10-27 10:30:00,123 1 ERROR db odoo.sql_db: Connection refused" in
  LogAnalyzer.diagnose_logs Reference.literal_search [line; line; line; line; line]
  = [LogAnalyzer.format_hint
       (Py.lit "Hint: Odoo could not connect to the PostgreSQL server. Ensure PostgreSQL is running, accessible on the configured 'db_host' and 'db_port', and check firewall rules.")
       line].
Proof. vm_compute. reflexivity. Qed.

(* ================================================================== *)
(** * Dictionaries *)
(* ================================================================== *)

Section DictFacts.
Import Py.
Variable V : Type.

Lemma dict_get_set_same (d : dict V) (k : str) (v : V) :
  dict_get (dict_set d k v) k = Some v.
Proof.
  induction d as [|[k0 v0] d IH]; simpl.
  - now rewrite str_eqb_refl.
  - destruct (str_eqb k0 k) eqn:E; simpl; rewrite E; [reflexivity | exact IH].
Qed.

Lemma dict_get_set_other (d : dict V) (k k' : str) (v : V) :
  k <> k' -> dict_get (dict_set d k v) k' = dict_get d k'.
Proof.
  intros Hne. induction d as [|[k0 v0] d IH]; simpl.
  - apply str_eqb_neq in Hne. now rewrite Hne.
  - destruct (str_eqb k0 k) eqn:E; simpl.
    + apply str_eqb_eq in E. subst k0.
      apply str_eqb_neq in Hne. now rewrite Hne.
    + destruct (str_eqb k0 k'); [reflexivity | exact IH].
Qed.

Lemma dict_keys_set (d : dict V) (k k' : str) (v : V) :
  In k' (dict_keys d) -> In k' (dict_keys (dict_set d k v)).
Proof.
  unfold dict_keys. induction d as [|[k0 v0] d IH]; simpl; [tauto|].
  destruct (str_eqb k0 k); simpl; tauto.
Qed.

Lemma dict_keys_set_same (d : dict V) (k : str) (v : V) :
  In k (dict_keys (dict_set d k v)).
Proof.
  unfold dict_keys. induction d as [|[k0 v0] d IH]; simpl; [auto|].
  destruct (str_eqb k0 k) eqn:E; simpl; [|auto].
  apply str_eqb_eq in E. auto.
Qed.

End DictFacts.

(* ================================================================== *)
(** * Checking a requirement *)
(* ================================================================== *)

Section CheckerFacts.
Import Py AddonRequirementsChecker Scenario.

Variable importlib_metadata_distribution : str -> result str.
Variable pkg_resources_get_distribution : str -> result str.
Variables Version SpecifierSet : Type.
Variable Requirement : str -> result (str * SpecifierSet).
Variable canonicalize_name : str -> str.
Variable parse_version : str -> result Version.
Variable specifier_nonempty : SpecifierSet -> bool.
Variable version_in : Version -> SpecifierSet -> bool.
Variable str_of_version : Version -> str.
Variable str_of_specifier : SpecifierSet -> str.

Local Abbreviation check_with imp :=
  (_check_package_installed imp importlib_metadata_distribution
     pkg_resources_get_distribution Requirement canonicalize_name parse_version
     specifier_nonempty version_in str_of_version str_of_specifier).

(** With [pkg_resources] unbound and no module [importlib_metadata] in
    [sys.modules], the lookup raises [NameError] and so does the [except]
    clause that is to catch it. *)
Lemma stock_interpreter_check (packaging : bool) (package_spec : str) :
  snd (check_with (stock_imports packaging) package_spec)
  = Raise (name_error "pkg_resources").
Proof.
  unfold _check_package_installed.
  destruct packaging; simpl PACKAGING_LIB_AVAILABLE; cbv iota.
  - unfold _check_package_installed_advanced.
    destruct (Requirement package_spec) as [[name specifier]|e]; reflexivity.
  - reflexivity.
Qed.

(** C5.  On an interpreter that has [importlib.metadata], and in which no
    module called [importlib_metadata] has been imported, the check of any
    requirement raises [NameError]: the lookup goes to [pkg_resources],
    which was never imported, and the [except] clause that should catch
    the failure names [pkg_resources] again.  This is so with and without
    the [packaging] library, and whatever the registries hold. *)
Theorem check_raises_on_stock_interpreter (packaging : bool) (package_spec : str) :
  snd (check_with (stock_imports packaging) package_spec)
  = Raise (name_error "pkg_resources").
Proof. apply stock_interpreter_check. Qed.

(** Where the name that the lookup uses is bound, the check returns. *)
Lemma check_returns_when_lookup_is_bound (imp : imports) (package_spec : str) :
  importlib_metadata_in_sys_modules imp = importlib_metadata_bound imp ->
  exists c, snd (check_with imp package_spec) = Ok c.
Proof.
  intros Hbound.
  assert (Hcls : exists cls, not_found_class imp = Ok cls).
  { unfold not_found_class, pkg_resources_bound. rewrite Hbound.
    destruct (importlib_metadata_bound imp); eexists; reflexivity. }
  destruct Hcls as [cls Hcls].
  unfold _check_package_installed.
  destruct (PACKAGING_LIB_AVAILABLE imp).
  - unfold _check_package_installed_advanced.
    destruct (Requirement package_spec) as [[name specifier]|e0];
      cbv beta iota zeta; rewrite Hcls;
      (destruct (installed_version _ _ _ _) as [v|e];
       [destruct (parse_version v) as [pv|e]|]);
      try (destruct (exn_class_eqb (exn_cls e) cls); eexists; reflexivity).
    + unfold spec_str. destruct (specifier_nonempty specifier);
        [destruct (version_in pv specifier)|]; eexists; reflexivity.
    + eexists; reflexivity.
  - unfold _check_package_installed_basic. rewrite Hcls.
    destruct (installed_version _ _ _ _) as [v|e].
    + eexists; reflexivity.
    + destruct (exn_class_eqb (exn_cls e) cls); eexists; reflexivity.
Qed.

End CheckerFacts.

Section ExampleOnStockInterpreter.
Import Py AddonRequirementsChecker Scenario.

Variables Version SpecifierSet : Type.
Variable Requirement : str -> result (str * SpecifierSet).
Variable canonicalize_name : str -> str.
Variable parse_version : str -> result Version.
Variable specifier_nonempty : SpecifierSet -> bool.
Variable version_in : Version -> SpecifierSet -> bool.
Variable str_of_version : Version -> str.
Variable str_of_specifier : SpecifierSet -> str.

Lemma example_requirements :
  find_requirements example_fs [addons]
  = ([], [(lit "my_module",
           {| path := module_dir (lit "my_module");
              requirements_file := requirements_of (lit "my_module");
              packages := [lit "libfoo>=1.2,<2.0"; lit "libbar"] |})]).
Proof. vm_compute. reflexivity. Qed.

(** C3.  The example, on the interpreter of C5: the requirements file holds
    [libfoo>=1.2,<2.0] and [libbar], the registry has libfoo 1.5.0 and has
    no libbar, and the analysis classifies neither: it raises [NameError]
    at the first requirement, with and without the [packaging] library and
    whatever that library computes. *)
Theorem example_analysis_raises_on_stock_interpreter (packaging : bool) :
  snd (analyze_dependencies (stock_imports packaging)
         example_registry example_pkg_resources
         Requirement canonicalize_name parse_version specifier_nonempty
         version_in str_of_version str_of_specifier example_fs [addons])
  = Raise (name_error "pkg_resources").
Proof.
  unfold analyze_dependencies. rewrite example_requirements.
  cbv beta iota. unfold check_modules. cbv beta iota.
  simpl packages. cbv iota. unfold check_packages.
  pose proof (stock_interpreter_check example_registry example_pkg_resources
                Version SpecifierSet Requirement canonicalize_name parse_version
                specifier_nonempty version_in str_of_version str_of_specifier
                packaging (lit "libfoo>=1.2,<2.0")) as H.
  destruct (_check_package_installed (stock_imports packaging) example_registry
              example_pkg_resources Requirement canonicalize_name parse_version
              specifier_nonempty version_in str_of_version str_of_specifier
              (lit "libfoo>=1.2,<2.0")) as [l r].
  simpl in H. subst r. reflexivity.
Qed.

End ExampleOnStockInterpreter.

Section CheckerExamples.
Import Py AddonRequirementsChecker Scenario Reference.



(** The example where the lookup works: libfoo is satisfied by 1.5.0,
    libbar is to be installed, with and without [packaging]. *)
Lemma example_analysis_where_lookup_works (packaging : bool) :
  exists l a,
    analyze_dependencies (backport_imports packaging) example_registry
      example_pkg_resources reference_Requirement reference_canonicalize_name
      reference_parse_version reference_specifier_nonempty reference_version_in
      reference_str_of_version reference_str_of_specifier example_fs [addons]
    = (l, Ok a)
    /\ satisfied a = [{| module := lit "my_module";
                         package_spec := lit "libfoo>=1.2,<2.0";
                         note := lit "1.5.0" |}]
    /\ to_install a = [{| module := lit "my_module";
                          package_spec := lit "libbar";
                          note := lit "Not installed" |}]
    /\ errors a = [].
Proof.
  destruct packaging; eexists; eexists; (split; [vm_compute; reflexivity|]);
    repeat split; reflexivity.
Qed.

End CheckerExamples.

(* ================================================================== *)
(** * Scanning the addons for requirement files *)
(* ================================================================== *)

Section ScanFacts.
Import Py AddonRequirementsChecker.

Variable fs : filesystem.

(** The diagnostics of a module do not depend on what was found before. *)
Lemma scan_module_log (addons_path module_name : str) (d d' : dict details) :
  fst (scan_module fs addons_path module_name d)
  = fst (scan_module fs addons_path module_name d').
Proof.
  unfold scan_module.
  destruct (isdir fs _ && exists_ fs _); [|reflexivity].
  destruct (exists_ fs _); [|reflexivity].
  destruct (_parse_requirements_file fs _) as [l [|p ps]]; reflexivity.
Qed.

Lemma scan_modules_log (addons_path module_name : str) (x : level * str)
    (names : list str) :
  In module_name names ->
  forall d0 d,
    In x (fst (scan_module fs addons_path module_name d0)) ->
    In x (fst (scan_modules fs addons_path names d)).
Proof.
  induction names as [|n names IH]; intros Hin d0 d Hx; [destruct Hin|].
  simpl. destruct (scan_module fs addons_path n d) as [l d1] eqn:Hn.
  destruct (scan_modules fs addons_path names d1) as [l' d2] eqn:Hrest.
  simpl. apply in_or_app. destruct Hin as [->|Hin].
  - left. rewrite (scan_module_log addons_path module_name d0 d) in Hx.
    now rewrite Hn in Hx.
  - right. specialize (IH Hin d0 d1 Hx). now rewrite Hrest in IH.
Qed.

Lemma scan_addons_path_log (addons_path : str) (d d' : dict details)
    (names : list str) (module_name : str) (x : level * str) :
  isdir fs addons_path = true ->
  listdir fs addons_path = Ok names ->
  In module_name names ->
  In x (fst (scan_module fs addons_path module_name d')) ->
  In x (fst (scan_addons_path fs addons_path d)).
Proof.
  intros Hdir Hls Hin Hx. unfold scan_addons_path. rewrite Hdir, Hls. simpl.
  now apply scan_modules_log with (module_name := module_name) (d0 := d').
Qed.

Lemma scan_addons_paths_log (addons_path : str) (x : level * str)
    (addons_paths : list str) :
  In addons_path addons_paths ->
  (forall d, In x (fst (scan_addons_path fs addons_path d))) ->
  forall d, In x (fst (scan_addons_paths fs addons_paths d)).
Proof.
  induction addons_paths as [|p ps IH]; intros Hin Hx d; [destruct Hin|].
  simpl. destruct (scan_addons_path fs p d) as [l d1] eqn:Hp.
  destruct (scan_addons_paths fs ps d1) as [l' d2] eqn:Hrest.
  simpl. apply in_or_app. destruct Hin as [->|Hin].
  - left. specialize (Hx d). now rewrite Hp in Hx.
  - right. specialize (IH Hin Hx d1). now rewrite Hrest in IH.
Qed.

(** A module touches no entry but its own. *)
Lemma scan_module_other (addons_path module_name m : str) (d : dict details) :
  m <> module_name ->
  dict_get (snd (scan_module fs addons_path module_name d)) m = dict_get d m.
Proof.
  intros Hne. unfold scan_module.
  destruct (isdir fs _ && exists_ fs _); [|reflexivity].
  destruct (exists_ fs _); [|reflexivity].
  destruct (_parse_requirements_file fs _) as [l [|p ps]]; [reflexivity|].
  simpl. apply dict_get_set_other. congruence.
Qed.

(** Two scans of a module that start from dictionaries with the same
    entry for [m] end with the same entry for [m]. *)
Lemma scan_module_entry (addons_path module_name m : str) (d d' : dict details) :
  dict_get d m = dict_get d' m ->
  dict_get (snd (scan_module fs addons_path module_name d)) m
  = dict_get (snd (scan_module fs addons_path module_name d')) m.
Proof.
  intros Hsame. unfold scan_module.
  destruct (isdir fs _ && exists_ fs _); [|exact Hsame].
  destruct (exists_ fs _); [|exact Hsame].
  destruct (_parse_requirements_file fs _) as [l [|p ps]]; [exact Hsame|].
  simpl. destruct (list_eq_dec N.eq_dec module_name m) as [->|Hne].
  - now rewrite !dict_get_set_same.
  - now rewrite !dict_get_set_other.
Qed.

Lemma scan_modules_without (bad addons_path m : str) (names : list str) :
  m <> bad ->
  forall d d',
    dict_get d m = dict_get d' m ->
    dict_get (snd (scan_modules fs addons_path names d)) m
    = dict_get (snd (scan_modules (without_module bad fs) addons_path
                       (filter (fun n => negb (str_eqb n bad)) names) d')) m.
Proof.
  intros Hne. induction names as [|n names IH]; intros d d' Hsame.
  - exact Hsame.
  - simpl filter. simpl scan_modules at 1.
    destruct (scan_module fs addons_path n d) as [l d1] eqn:Hn.
    destruct (scan_modules fs addons_path names d1) as [l' d2] eqn:Hrest.
    simpl snd.
    assert (Hd2 : d2 = snd (scan_modules fs addons_path names d1))
      by now rewrite Hrest.
    assert (Hd1 : d1 = snd (scan_module fs addons_path n d)) by now rewrite Hn.
    destruct (str_eqb n bad) eqn:Hbad; simpl negb; cbv iota.
    + apply str_eqb_eq in Hbad. subst n. rewrite Hd2. apply IH.
      rewrite Hd1, scan_module_other by assumption. exact Hsame.
    + simpl scan_modules.
      change (scan_module (without_module bad fs) addons_path n d')
        with (scan_module fs addons_path n d').
      destruct (scan_module fs addons_path n d') as [k d1'] eqn:Hn'.
      destruct (scan_modules (without_module bad fs) addons_path _ d1')
        as [k' d2'] eqn:Hrest'.
      simpl snd. rewrite Hd2.
      replace d2' with
        (snd (scan_modules (without_module bad fs) addons_path
                (filter (fun n => negb (str_eqb n bad)) names) d1'))
        by now rewrite Hrest'.
      apply IH. rewrite Hd1.
      replace d1' with (snd (scan_module fs addons_path n d')) by now rewrite Hn'.
      now apply scan_module_entry.
Qed.

Lemma scan_addons_path_without (bad addons_path m : str) :
  m <> bad ->
  forall d d',
    dict_get d m = dict_get d' m ->
    dict_get (snd (scan_addons_path fs addons_path d)) m
    = dict_get (snd (scan_addons_path (without_module bad fs) addons_path d')) m.
Proof.
  intros Hne d d' Hsame. unfold scan_addons_path.
  change (isdir (without_module bad fs) addons_path) with (isdir fs addons_path).
  destruct (isdir fs addons_path); simpl negb; cbv iota; [|exact Hsame].
  change (listdir (without_module bad fs) addons_path)
    with (match listdir fs addons_path with
          | Ok names => Ok (filter (fun n => negb (str_eqb n bad)) names)
          | Raise e => Raise e
          end).
  destruct (listdir fs addons_path) as [names|e]; [|exact Hsame].
  now apply scan_modules_without.
Qed.

Lemma scan_addons_paths_without (bad m : str) (addons_paths : list str) :
  m <> bad ->
  forall d d',
    dict_get d m = dict_get d' m ->
    dict_get (snd (scan_addons_paths fs addons_paths d)) m
    = dict_get (snd (scan_addons_paths (without_module bad fs) addons_paths d')) m.
Proof.
  intros Hne. induction addons_paths as [|p ps IH]; intros d d' Hsame.
  - exact Hsame.
  - simpl.
    destruct (scan_addons_path fs p d) as [l d1] eqn:Hp.
    destruct (scan_addons_paths fs ps d1) as [l' d2] eqn:Hrest.
    destruct (scan_addons_path (without_module bad fs) p d') as [k d1'] eqn:Hp'.
    destruct (scan_addons_paths (without_module bad fs) ps d1') as [k' d2'] eqn:Hrest'.
    simpl snd.
    replace d2 with (snd (scan_addons_paths fs ps d1)) by now rewrite Hrest.
    replace d2' with (snd (scan_addons_paths (without_module bad fs) ps d1'))
      by now rewrite Hrest'.
    apply IH.
    replace d1 with (snd (scan_addons_path fs p d)) by now rewrite Hp.
    replace d1' with (snd (scan_addons_path (without_module bad fs) p d'))
      by now rewrite Hp'.
    now apply scan_addons_path_without.
Qed.

(** The entries of the other modules are those of a scan in which the
    module [bad] does not exist. *)
Lemma find_requirements_without (bad m : str) (addons_paths : list str) :
  m <> bad ->
  dict_get (snd (find_requirements fs addons_paths)) m
  = dict_get (snd (find_requirements (without_module bad fs) addons_paths)) m.
Proof.
  intros Hne. unfold find_requirements.
  destruct addons_paths as [|p ps]; [reflexivity|].
  now apply scan_addons_paths_without.
Qed.

(** What the parser makes of a file that cannot be read to its end. *)
Lemma parse_of_malformed_file (file_path : str) (e : exn) (lines : list str) :
  open_utf8 fs file_path = OpenFails e /\ lines = []
  \/ open_utf8 fs file_path = Yields lines (Some e) ->
  _parse_requirements_file fs file_path
  = ([(Error, reading_error file_path e)], requirement_lines lines).
Proof.
  unfold _parse_requirements_file. intros [[-> ->]| ->]; reflexivity.
Qed.

End ScanFacts.

(* ================================================================== *)
(** * Installing the packages *)
(* ================================================================== *)

Section InstallFacts.
Import Py AddonRequirementsChecker.

Variable sys_executable : str.
Variables world proc : Type.
Variable Popen : world -> list str -> world * result proc.
Variable communicate : world -> proc -> option Z -> world * result (str * str).
Variable returncode : world -> proc -> Z.
Variable poll : world -> proc -> option Z.
Variable kill : world -> proc -> world.

Local Abbreviation install_one :=
  (install_one sys_executable Popen communicate returncode poll kill).
Local Abbreviation install_loop :=
  (install_loop sys_executable Popen communicate returncode poll kill).
Local Abbreviation install_packages :=
  (install_packages sys_executable Popen communicate returncode poll kill).
Local Abbreviation install_handler := (install_handler communicate poll kill).
Local Abbreviation state := (install_state world proc).
Local Abbreviation install_start := (@install_start sys_executable world proc).

Lemma popen_calls_app (a b : list call) :
  popen_calls (a ++ b) = popen_calls a ++ popen_calls b.
Proof. unfold popen_calls. apply flat_map_app. Qed.

Lemma timeouts_app (a b : list call) :
  timeouts (a ++ b) = timeouts a ++ timeouts b.
Proof. unfold timeouts. apply flat_map_app. Qed.

(** The handlers store a reason for the requirement and start nothing. *)
Lemma install_handler_step (e : exn) (spec : str) (w : world)
    (process : option proc) (cs : list call) (r : install_result) :
  let st' := install_handler e spec w process cs r in
  popen_calls (calls st') = popen_calls cs
  /\ timeouts (calls st') = timeouts cs
  /\ success (acc st') = success r
  /\ exists reason, failed (acc st') = dict_set (failed r) spec reason.
Proof.
  unfold AddonRequirementsChecker.install_handler.
  destruct (exn_class_eqb (exn_cls e) TimeoutExpired).
  - destruct process as [p|]; [destruct (poll w p) as [code|]|].
    + simpl. rewrite popen_calls_app, timeouts_app. simpl. rewrite ?app_nil_r.
      split; [reflexivity|]. split; [reflexivity|]. split; [reflexivity|].
      eexists; reflexivity.
    + destruct (communicate (kill w p) p None) as [w' r']. simpl.
      rewrite popen_calls_app, timeouts_app. simpl. rewrite ?app_nil_r.
      split; [reflexivity|]. split; [reflexivity|]. split; [reflexivity|].
      eexists; reflexivity.
    + simpl. split; [reflexivity|]. split; [reflexivity|]. split; [reflexivity|].
      eexists; reflexivity.
  - simpl. split; [reflexivity|]. split; [reflexivity|]. split; [reflexivity|].
    eexists; reflexivity.
Qed.

(** What a pass through the loop body does to the calls and the buckets. *)
Lemma install_one_step (st : state) (spec : str) :
  let st' := install_one st spec in
  popen_calls (calls st') = popen_calls (calls st) ++ [pip_install sys_executable spec]
  /\ (exists more, timeouts (calls st') = timeouts (calls st) ++ more
                   /\ Forall (fun t => t = 300%Z) more)
  /\ (exists more, success (acc st') = success (acc st) ++ more)
  /\ (failed (acc st') = failed (acc st)
      \/ exists reason, failed (acc st') = dict_set (failed (acc st)) spec reason).
Proof.
  unfold AddonRequirementsChecker.install_one.
  change (pip_executable sys_executable ++ [lit "install"; spec])
    with (pip_install sys_executable spec).
  destruct (Popen (host st) (pip_install sys_executable spec)) as [w [process|e]].
  - destruct (communicate w process (Some 300%Z)) as [w' [[stdout stderr]|e]].
    + simpl calls. simpl acc.
      rewrite ?popen_calls_app, ?timeouts_app. simpl. rewrite ?app_nil_r.
      split; [reflexivity|].
      split; [exists [300%Z]; split; [reflexivity|repeat constructor]|].
      destruct (returncode w' process =? 0)%Z; simpl.
      * split; [exists [spec]; reflexivity|]. left. reflexivity.
      * split; [exists []; now rewrite app_nil_r|]. right. eexists; reflexivity.
    + destruct (install_handler_step e spec w' (Some process)
                    ((calls st ++ [CallPopen (pip_install sys_executable spec)])
                       ++ [CallCommunicate (Some 300%Z)])
                    (add_log [NL ++ lit "Attempting to install/update: " ++ spec
                                ++ lit "..."] (acc st)))
        as [Hp [Ht [Hs Hf]]].
      cbv zeta. rewrite Hp, Ht, Hs. rewrite ?popen_calls_app, ?timeouts_app. simpl.
      rewrite ?app_nil_r.
      split; [reflexivity|].
      split; [exists [300%Z]; split; [reflexivity|repeat constructor]|].
      split; [exists []; now rewrite app_nil_r|]. right. exact Hf.
  - destruct (install_handler_step e spec w (cur_process st)
                  (calls st ++ [CallPopen (pip_install sys_executable spec)])
                  (add_log [NL ++ lit "Attempting to install/update: " ++ spec
                              ++ lit "..."] (acc st)))
      as [Hp [Ht [Hs Hf]]].
    cbv zeta. rewrite Hp, Ht, Hs. rewrite ?popen_calls_app, ?timeouts_app. simpl.
    rewrite ?app_nil_r.
    split; [reflexivity|].
    split; [exists []; split; [now rewrite app_nil_r|constructor]|].
    split; [exists []; now rewrite app_nil_r|]. right. exact Hf.
Qed.

(** The same for a run of the loop. *)
Lemma install_loop_steps (specs : list str) :
  forall st : state,
    let st' := install_loop specs st in
    popen_calls (calls st')
    = popen_calls (calls st) ++ map (pip_install sys_executable) specs
    /\ (Forall (fun t => t = 300%Z) (timeouts (calls st)) ->
        Forall (fun t => t = 300%Z) (timeouts (calls st')))
    /\ (forall k, In k (success (acc st)) -> In k (success (acc st')))
    /\ (forall k, In k (dict_keys (failed (acc st))) ->
                  In k (dict_keys (failed (acc st'))))
    /\ (forall k, ~ In k specs ->
                  dict_get (failed (acc st')) k = dict_get (failed (acc st)) k).
Proof.
  induction specs as [|spec rest IH]; intros st; simpl.
  - rewrite app_nil_r. repeat split; auto.
  - destruct (IH (install_one st spec)) as [Hp [Ht [Hs [Hk Ho]]]].
    destruct (install_one_step st spec)
      as [Hp1 [[more [Ht1 Hmore]] [[added Hs1] Hf1]]].
    unfold AddonRequirementsChecker.install_loop in *. simpl.
    split; [|split; [|split; [|split]]].
    + rewrite Hp, Hp1, <- app_assoc. reflexivity.
    + intros Hall. apply Ht. rewrite Ht1. apply Forall_app. auto.
    + intros k Hin. apply Hs. rewrite Hs1. apply in_or_app. auto.
    + intros k Hin. apply Hk.
      destruct Hf1 as [->|[reason ->]]; [exact Hin | now apply dict_keys_set].
    + intros k Hnot. rewrite Ho by tauto.
      destruct Hf1 as [->|[reason ->]]; [reflexivity|].
      apply dict_get_set_other. intros ->. apply Hnot. now left.
Qed.

(** C4.  [install_packages] starts pip once for every requirement, in the
    order of the list, and every wait for a process has the limit of 300
    seconds.  For the requirement at any place of the list, with [before]
    and [after] the states around its pass: the process is started and
    waited for before the pass ends; if the process ends with code
    0 the requirement is added to [success] and is in the final [success];
    if it ends with another code, the code and the captured output are
    stored for it in [failed], and are still there at the end unless the
    same requirement is tried again later; if the wait runs out, the
    timeout text is stored for it in the same way, and a process that is
    still running is killed and collected.  The function has a result in
    each of these cases. *)
Theorem install_packages_runs_and_records_each_spec
    (w : world) (specs : list str) :
  let final := install_packages w specs in
  popen_calls (calls final) = map (pip_install sys_executable) specs
  /\ Forall (fun t => t = 300%Z) (timeouts (calls final))
  /\ forall pre spec post,
       specs = pre ++ spec :: post ->
       let before := install_loop pre (install_start w) in
       let after := install_one before spec in
       forall w1 p,
         Popen (host before) (pip_install sys_executable spec) = (w1, Ok p) ->
         (forall w2 out err,
            communicate w1 p (Some 300%Z) = (w2, Ok (out, err)) ->
            calls after
            = calls before
                ++ [CallPopen (pip_install sys_executable spec);
                    CallCommunicate (Some 300%Z)]
            /\ host after = w2
            /\ (returncode w2 p = 0%Z ->
             success (acc after) = success (acc before) ++ [spec]
             /\ failed (acc after) = failed (acc before)
             /\ In spec (success (acc final)))
            /\ (returncode w2 p <> 0%Z ->
                success (acc after) = success (acc before)
                /\ dict_get (failed (acc after)) spec
                   = Some (failure_report (returncode w2 p) out err)
                /\ In spec (dict_keys (failed (acc final)))
                /\ (~ In spec post ->
                    dict_get (failed (acc final)) spec
                    = Some (failure_report (returncode w2 p) out err))))
         /\ (forall w2 e,
               communicate w1 p (Some 300%Z) = (w2, Raise e) ->
               exn_cls e = TimeoutExpired ->
               success (acc after) = success (acc before)
               /\ dict_get (failed (acc after)) spec = Some TIMEOUT_REPORT
               /\ In spec (dict_keys (failed (acc final)))
               /\ (~ In spec post ->
                   dict_get (failed (acc final)) spec = Some TIMEOUT_REPORT)
               /\ (poll w2 p = None ->
                   calls after
                   = calls before
                       ++ [CallPopen (pip_install sys_executable spec);
                           CallCommunicate (Some 300%Z);
                           CallPoll; CallKill; CallCommunicate None]
                   /\ host after = fst (communicate (kill w2 p) p None))
               /\ (forall code, poll w2 p = Some code ->
                   calls after
                   = calls before
                       ++ [CallPopen (pip_install sys_executable spec);
                           CallCommunicate (Some 300%Z); CallPoll]
                   /\ host after = w2)).
Proof.
  intros final.
  assert (Hfinal : specs <> [] -> final = install_loop specs (install_start w)).
  { intros Hne. subst final. unfold AddonRequirementsChecker.install_packages.
    destruct specs; [contradiction|reflexivity]. }
  split; [|split].
  - destruct specs as [|s rest]; [reflexivity|].
    rewrite Hfinal by discriminate.
    destruct (install_loop_steps (s :: rest) (install_start w)) as [Hp _].
    exact Hp.
  - destruct specs as [|s rest]; [constructor|].
    rewrite Hfinal by discriminate.
    destruct (install_loop_steps (s :: rest) (install_start w))
      as [_ [Ht _]].
    apply Ht. constructor.
  - intros pre spec post Hspecs before after w1 p HPopen.
    assert (Hrun : final = install_loop post after).
    { rewrite Hfinal by (subst specs; destruct pre; discriminate).
      subst specs before after. unfold AddonRequirementsChecker.install_loop.
      rewrite fold_left_app. reflexivity. }
    destruct (install_loop_steps post after) as [_ [_ [Hs [Hk Ho]]]].
    rewrite <- Hrun in Hs, Hk, Ho.
    assert (Hafter : after = install_one before spec) by reflexivity.
    unfold AddonRequirementsChecker.install_one in Hafter.
    change (pip_executable sys_executable ++ [lit "install"; spec])
      with (pip_install sys_executable spec) in Hafter.
    rewrite HPopen in Hafter.
    split.
    + intros w2 out err Hcomm. rewrite Hcomm in Hafter.
      split; [rewrite Hafter; simpl; now rewrite <- app_assoc|].
      split; [rewrite Hafter; reflexivity|]. split.
      * intros Hzero. rewrite Hzero in Hafter. simpl in Hafter.
        assert (Hsucc : success (acc after) = success (acc before) ++ [spec])
          by (rewrite Hafter; reflexivity).
        split; [exact Hsucc|]. split; [rewrite Hafter; reflexivity|].
        apply Hs. rewrite Hsucc. apply in_or_app. right. now left.
      * intros Hcode. apply Z.eqb_neq in Hcode. rewrite Hcode in Hafter.
        assert (Hfail : dict_get (failed (acc after)) spec
                        = Some (failure_report (returncode w2 p) out err)).
        { rewrite Hafter. simpl. unfold failure_report, NL.
          apply dict_get_set_same. }
        split; [rewrite Hafter; reflexivity|]. split; [exact Hfail|]. split.
        -- apply Hk. rewrite Hafter. simpl. apply dict_keys_set_same.
        -- intros Hnot. now rewrite Ho.
    + intros w2 e Hcomm Hcls. rewrite Hcomm in Hafter.
      unfold AddonRequirementsChecker.install_handler in Hafter.
      rewrite Hcls in Hafter. simpl exn_class_eqb in Hafter. cbv iota in Hafter.
      assert (Hfail : dict_get (failed (acc after)) spec = Some TIMEOUT_REPORT
                      /\ success (acc after) = success (acc before)
                      /\ In spec (dict_keys (failed (acc after)))).
      { rewrite Hafter. destruct (poll w2 p) as [code|];
          [|destruct (communicate (kill w2 p) p None) as [w' r']]; simpl;
          (split; [apply dict_get_set_same | split; [reflexivity | apply dict_keys_set_same]]). }
      destruct Hfail as [Hfail [Hsucc Hkey]].
      split; [exact Hsucc|]. split; [exact Hfail|]. split; [now apply Hk|].
      split; [intros Hnot; now rewrite Ho|]. split.
      * intros Hpoll. rewrite Hpoll in Hafter. rewrite Hafter.
        destruct (communicate (kill w2 p) p None) as [w' r']. simpl.
        rewrite <- !app_assoc. split; reflexivity.
      * intros code Hpoll. rewrite Hpoll in Hafter. rewrite Hafter. simpl.
        rewrite <- !app_assoc. split; reflexivity.
Qed.

End InstallFacts.

Section InstallExamples.
Import Py AddonRequirementsChecker Reference Scenario.

(** The batch of two requirements: the installer ends at once with code 0
    for [A] and does not come back for [B]. *)
Lemma install_packages_runs_and_records_each_spec_witness :
  let final :=
    install_packages python scripted_Popen scripted_communicate
      scripted_returncode scripted_poll scripted_kill
      [Exits 0 (lit "ok") []; Hangs] [lit "A"; lit "B"] in
  In (lit "A") (success (acc final))
  /\ dict_get (failed (acc final)) (lit "B") = Some TIMEOUT_REPORT.
Proof.
  intros final.
  destruct (install_packages_runs_and_records_each_spec python script fate
              scripted_Popen scripted_communicate scripted_returncode
              scripted_poll scripted_kill
              [Exits 0 (lit "ok") []; Hangs] [lit "A"; lit "B"])
    as [_ [_ Hspec]].
  split.
  - destruct (Hspec [] (lit "A") [lit "B"] eq_refl [Hangs] (Exits 0 (lit "ok") []) eq_refl)
      as [Hexit _].
    destruct (Hexit [Hangs] (lit "ok") [] eq_refl) as [_ [_ [Hzero _]]].
    destruct (Hzero eq_refl) as [_ [_ Hin]]. exact Hin.
  - destruct (Hspec [lit "A"] (lit "B") [] eq_refl [] Hangs eq_refl) as [_ Htime].
    destruct (Htime [] (Exn TimeoutExpired (lit "timed out")) eq_refl eq_refl)
      as [_ [_ [_ [Hlast _]]]].
    apply Hlast. intros [].
Defined.

End InstallExamples.

(* ================================================================== *)
(** * Further properties of the tailer, the filter and the hints *)
(* ================================================================== *)

Section SplitlinesFacts.
Import Py.
Local Open Scope N_scope.

Lemma splitlines_break (c : codepoint) (rest : str) :
  is_linebreak c = true ->
  splitlines (c :: rest)
  = [] :: match rest with
          | [] => []
          | d :: rest' =>
              if (N.eqb c 13 && N.eqb d 10)%bool then splitlines rest'
              else splitlines rest
          end.
Proof. intros H. simpl. now rewrite H. Qed.

Lemma splitlines_char (c : codepoint) (rest : str) :
  is_linebreak c = false ->
  splitlines (c :: rest)
  = match splitlines rest with
    | [] => [[c]]
    | l :: ls => (c :: l) :: ls
    end.
Proof. intros H. simpl. now rewrite H. Qed.

Lemma splitlines_nil (s : str) : splitlines s = [] -> s = [].
Proof.
  destruct s as [|c rest]; [reflexivity|].
  destruct (is_linebreak c) eqn:Hc.
  - rewrite splitlines_break by assumption. discriminate.
  - rewrite splitlines_char by assumption.
    destruct (splitlines rest); discriminate.
Qed.

(** No line of [splitlines] holds a line boundary. *)
Lemma splitlines_no_break (s : str) :
  Forall (fun l => forallb (fun c => negb (is_linebreak c)) l = true) (splitlines s).
Proof.
  assert (H : forall n (s : str), (List.length s <= n)%nat ->
            Forall (fun l => forallb (fun c => negb (is_linebreak c)) l = true)
                   (splitlines s)).
  { clear s. induction n as [|n IH]; intros s Hlen.
    - destruct s; [constructor | simpl in Hlen; lia].
    - destruct s as [|c rest]; [constructor|]. simpl in Hlen.
      destruct (is_linebreak c) eqn:Hc.
      + rewrite splitlines_break by assumption. constructor; [reflexivity|].
        destruct rest as [|d rest']; [constructor|].
        destruct (N.eqb c 13 && N.eqb d 10)%bool; apply IH; simpl in *; lia.
      + rewrite splitlines_char by assumption.
        assert (Hr := IH rest ltac:(lia)).
        destruct (splitlines rest) as [|l ls].
        * constructor; [|constructor]. simpl. now rewrite Hc.
        * inversion Hr; subst. constructor; [|assumption].
          simpl. now rewrite Hc. }
  now apply (H (List.length s)).
Qed.

(** The lines of a text cut inside a line: the last line before the cut
    and the first line after it are the two halves of one line. *)
Lemma splitlines_cut (a b : str) :
  a <> [] -> b <> [] -> is_linebreak (last a 0) = false ->
  splitlines (a ++ b)
  = drop_last (splitlines a)
      ++ (last (splitlines a) [] ++ hd [] (splitlines b)) :: tl (splitlines b).
Proof.
  intros Ha Hb.
  assert (Hsb : exists l ls, splitlines b = l :: ls).
  { destruct (splitlines b) as [|l ls] eqn:E; [|eauto].
    apply splitlines_nil in E. contradiction. }
  destruct Hsb as [l0 [ls0 Hsb]]. rewrite Hsb. simpl hd. simpl tl.
  assert (H : forall n (a : str), (List.length a <= n)%nat -> a <> [] ->
            is_linebreak (last a 0) = false ->
            splitlines (a ++ b)
            = drop_last (splitlines a) ++ (last (splitlines a) [] ++ l0) :: ls0).
  { clear a Ha. induction n as [|n IH]; intros a Hlen Ha Hlast.
    - destruct a; [contradiction | simpl in Hlen; lia].
    - destruct a as [|c a']; [contradiction|]. simpl in Hlen.
      destruct a' as [|d a''].
      + (* the cut comes after the single character [c] *)
        simpl in Hlast. simpl app.
        rewrite Hlast, (splitlines_char c b), Hsb by assumption. reflexivity.
      + assert (Hlast' : is_linebreak (last (d :: a'') 0) = false) by exact Hlast.
        change ((c :: d :: a'') ++ b) with (c :: (d :: a'') ++ b).
        destruct (is_linebreak c) eqn:Hc.
        * rewrite !splitlines_break by assumption.
          change ((d :: a'') ++ b) with (d :: a'' ++ b). cbv iota.
          destruct (N.eqb c 13 && N.eqb d 10)%bool eqn:Hcr.
          -- (* CR LF: two characters are passed *)
             assert (Ha'' : a'' <> []).
             { intros ->. simpl in Hlast.
               apply andb_true_iff in Hcr as [_ Hd]. apply N.eqb_eq in Hd.
               subst d. discriminate. }
             assert (Hl : last (d :: a'') 0 = last a'' 0).
             { destruct a''; [contradiction | reflexivity]. }
             rewrite Hl in Hlast'.
             rewrite (IH a'') by (assumption || simpl in *; lia).
             destruct (splitlines a'') as [|l ls] eqn:E;
               [apply splitlines_nil in E; contradiction|].
             reflexivity.
          -- change (d :: a'' ++ b) with ((d :: a'') ++ b).
             rewrite (IH (d :: a'')) by (assumption || discriminate || simpl in *; lia).
             destruct (splitlines (d :: a'')) as [|l ls] eqn:E;
               [apply splitlines_nil in E; discriminate|].
             reflexivity.
        * rewrite !splitlines_char by assumption.
          rewrite (IH (d :: a'')) by (assumption || discriminate || simpl in *; lia).
          destruct (splitlines (d :: a'')) as [|l ls] eqn:E;
            [apply splitlines_nil in E; discriminate|].
          destruct ls as [|l' ls']; reflexivity. }
  now apply (H (List.length a)).
Qed.

(** Whatever precedes a text, the lines of the text after its first one
    are lines of the whole, at its end. *)
Lemma splitlines_suffix (x y : str) :
  y <> [] ->
  exists p pre, splitlines (x ++ y) = (p :: pre) ++ tl (splitlines y).
Proof.
  intros Hy.
  assert (Hsy : exists l ls, splitlines y = l :: ls).
  { destruct (splitlines y) as [|l ls] eqn:E; [|eauto].
    apply splitlines_nil in E. contradiction. }
  destruct Hsy as [l0 [ls0 Hsy]]. rewrite Hsy. simpl tl.
  assert (H : forall n (x : str), (List.length x <= n)%nat ->
            exists p pre, splitlines (x ++ y) = (p :: pre) ++ ls0).
  { clear x. induction n as [|n IH]; intros x Hlen.
    - destruct x; [|simpl in Hlen; lia]. simpl. rewrite Hsy.
      exists l0, []. reflexivity.
    - destruct x as [|c x']; [simpl; rewrite Hsy; exists l0, []; reflexivity|].
      simpl in Hlen. rewrite <- app_comm_cons.
      destruct (is_linebreak c) eqn:Hc.
      + rewrite splitlines_break by assumption.
        destruct x' as [|d x''].
        * simpl app. destruct y as [|d y']; [contradiction|].
          destruct (N.eqb c 13 && N.eqb d 10)%bool eqn:Hcr.
          -- apply andb_true_iff in Hcr as [_ Hd]. apply N.eqb_eq in Hd. subst d.
             rewrite splitlines_break in Hsy by reflexivity.
             assert (Hy' : splitlines y' = ls0).
             { injection Hsy as _ Hsy. destruct y'; [exact Hsy|].
               simpl andb in Hsy. exact Hsy. }
             rewrite Hy'. exists [], []. reflexivity.
          -- rewrite Hsy. exists [], [l0]. reflexivity.
        * rewrite <- app_comm_cons.
          destruct (N.eqb c 13 && N.eqb d 10)%bool.
          -- destruct (IH x'' ltac:(simpl in *; lia)) as [p [pre E]].
             rewrite E. exists [], (p :: pre). reflexivity.
          -- destruct (IH (d :: x'') ltac:(simpl in *; lia)) as [p [pre E]].
             rewrite <- app_comm_cons in E. rewrite E.
             exists [], (p :: pre). reflexivity.
      + rewrite splitlines_char by assumption.
        destruct (IH x' ltac:(lia)) as [p [pre E]]. rewrite E.
        exists (c :: p), pre. reflexivity. }
  now apply (H (List.length x)).
Qed.

End SplitlinesFacts.

Section TailStitching.
Import Py LogAnalyzer.
Local Open Scope Z_scope.

Lemma decode_ascii (bs : bytes) :
  ascii_only bs -> decode_utf8_replace bs = map Byte.to_N bs.
Proof.
  unfold ascii_only. induction bs as [|x r IH]; [reflexivity|].
  intros H. simpl in H. apply andb_true_iff in H as [Hx Hr].
  simpl. rewrite Hx. f_equal. now apply IH.
Qed.

Lemma ascii_only_firstn (n : nat) (bs : bytes) :
  ascii_only bs -> ascii_only (firstn n bs).
Proof.
  unfold ascii_only. revert n. induction bs as [|x r IH]; intros [|n] H;
    try reflexivity.
  simpl in *. apply andb_true_iff in H as [Hx Hr]. rewrite Hx. now apply IH.
Qed.

Lemma ascii_only_skipn (n : nat) (bs : bytes) :
  ascii_only bs -> ascii_only (skipn n bs).
Proof.
  unfold ascii_only. revert n. induction bs as [|x r IH]; intros [|n] H;
    try reflexivity; try assumption.
  simpl in *. apply andb_true_iff in H as [Hx Hr]. now apply IH.
Qed.

Lemma last_skipn {A} (n : nat) (l : list A) (d : A) :
  skipn n l <> [] -> last (skipn n l) d = last l d.
Proof.
  revert l. induction n as [|n IH]; intros l H; [reflexivity|].
  destruct l as [|x l]; [contradiction|]. simpl skipn in *.
  rewrite IH by assumption.
  destruct l as [|y l]; [destruct n; contradiction | reflexivity].
Qed.

Lemma last_map_to_N (l : bytes) :
  last (map Byte.to_N l) 0%N = Byte.to_N (last l x00).
Proof.
  induction l as [|x l IH]; [reflexivity|].
  destruct l as [|y l]; [reflexivity|]. exact IH.
Qed.

Lemma slice_from_neg_app {A} (n : Z) (p t : list A) :
  0 < n -> n <= Z.of_nat (List.length t) ->
  slice_from (- n) (p ++ t) = slice_from (- n) t.
Proof.
  intros Hn Hlen. unfold slice_from.
  destruct (Z.ltb_spec (- n) 0) as [_|H]; [|lia].
  rewrite length_app, skipn_app.
  replace (Z.to_nat (Z.max (Z.of_nat (List.length p + List.length t) + - n) 0))
    with (List.length p + Z.to_nat (Z.of_nat (List.length t) - n))%nat by lia.
  rewrite skipn_all2 by lia. simpl.
  replace (List.length p + Z.to_nat (Z.of_nat (List.length t) - n) - List.length p)%nat
    with (Z.to_nat (Z.of_nat (List.length t) - n)) by lia.
  replace (Z.max (Z.of_nat (List.length t) + - n) 0)
    with (Z.of_nat (List.length t) - n) by lia.
  reflexivity.
Qed.

Variable data : bytes.
Hypothesis Hascii : ascii_only data.
Hypothesis Hcuts : cuts_inside_lines data.

Local Abbreviation E := (file_end data).

Lemma tail_body_keeps_lines (st : tail_state) (n_lines : Z) :
  lines_of_part_read data st ->
  tail_cond n_lines E st = true ->
  lines_of_part_read data (tail_body data E st).
Proof.
  destruct st as [lines_found total].
  intros [Hrange [Hmult Hlines]] Hcond. cbn [fst snd] in Hrange, Hmult, Hlines.
  unfold tail_cond in Hcond. apply andb_true_iff in Hcond as [_ Hlt].
  apply Z.ltb_lt in Hlt. cbn [fst snd] in Hlt.
  destruct Hmult as [->|[k [Hk Htotal]]]; [lia|].
  set (offset := Z.min buffer_size (E - total)).
  assert (Hoff : 0 < offset <= E - total) by (unfold offset, buffer_size; lia).
  assert (Hsplit : read_so_far data (total + offset)
                   = read_chunk data (E - (total + offset)) offset
                       ++ read_so_far data total).
  { unfold read_so_far, read_chunk.
    rewrite <- (firstn_skipn (Z.to_nat offset)
                  (skipn (Z.to_nat (E - (total + offset))) data)) at 1.
    f_equal. rewrite skipn_skipn. f_equal. lia. }
  assert (Hchunk : read_chunk data (E - (total + offset)) offset <> []).
  { unfold read_chunk. intros Hnil. apply (f_equal (@List.length byte)) in Hnil.
    rewrite length_firstn, length_skipn in Hnil. simpl in Hnil.
    unfold file_end in *. lia. }
  assert (Hdec : decode_utf8_replace (read_so_far data (total + offset))
                 = map Byte.to_N (read_chunk data (E - (total + offset)) offset)
                     ++ map Byte.to_N (read_so_far data total)).
  { rewrite Hsplit, decode_ascii, map_app; [reflexivity|].
    rewrite <- Hsplit. now apply ascii_only_skipn. }
  unfold lines_of_part_read, tail_body. fold offset.
  set (chunk := read_chunk data (E - (total + offset)) offset) in *.
  rewrite (decode_ascii chunk)
    by (unfold chunk, read_chunk; now apply ascii_only_firstn, ascii_only_skipn).
  rewrite (decode_ascii (read_so_far data total)) in Hlines
    by (now apply ascii_only_skipn).
  assert (Hfinal : forall lf cl : list str,
            snd (let '(lf', cl') := (lf, cl) in (cl' ++ lf', total + offset))
            = total + offset) by reflexivity.
  split; [|split].
  - destruct lines_found as [|first others];
      destruct (splitlines (map Byte.to_N chunk)) as [|c cs];
      cbv beta iota delta [snd]; unfold file_end in *; lia.
  - assert (Hm : total + offset = E
                 \/ exists k', 0 <= k' /\ total + offset = buffer_size * k').
    { destruct (Z.le_gt_cases buffer_size (E - total)) as [Hfull|Hpart].
      - right. exists (k + 1). unfold offset. split; [lia|]. lia.
      - left. unfold offset. lia. }
    destruct lines_found as [|first others];
      destruct (splitlines (map Byte.to_N chunk)) as [|c cs];
      cbv beta iota delta [snd]; exact Hm.
  - assert (Hgoal : (let '(lf', cl') :=
                       match lines_found, splitlines (map Byte.to_N chunk) with
                       | first :: others, _ :: _ =>
                           ((last (splitlines (map Byte.to_N chunk)) [] ++ first) :: others,
                            drop_last (splitlines (map Byte.to_N chunk)))
                       | _, _ => (lines_found, splitlines (map Byte.to_N chunk))
                       end in cl' ++ lf')
                    = splitlines (decode_utf8_replace (read_so_far data (total + offset)))).
    { rewrite Hdec. fold chunk.
      destruct (Z.eq_dec total 0) as [Hzero|Hpos].
      - (* the first chunk: nothing has been read yet *)
        assert (Hnone : read_so_far data total = []).
        { unfold read_so_far. apply skipn_all2. unfold file_end. lia. }
        rewrite Hnone in *. simpl in Hlines. subst lines_found.
        simpl. rewrite !app_nil_r. reflexivity.
      - (* a later chunk: its last line is the start of [lines_found]'s first *)
        assert (Hlater : map Byte.to_N (read_so_far data total) <> []).
        { intros Hnil. apply (f_equal (@List.length N)) in Hnil.
          rewrite length_map in Hnil. unfold read_so_far in Hnil.
          rewrite length_skipn in Hnil. simpl in Hnil. unfold file_end in *. lia. }
        assert (Hbefore : is_linebreak (last (map Byte.to_N chunk) 0%N) = false).
        { rewrite last_map_to_N.
          assert (Hk' : 0 < k) by (unfold buffer_size in *; lia).
          specialize (Hcuts k Hk'). fold (file_end data) in Hcuts. rewrite <- Htotal in Hcuts.
          specialize (Hcuts Hlt). unfold byte_before in Hcuts.
          unfold chunk, read_chunk.
          rewrite firstn_skipn_comm, last_skipn.
          - replace (Z.to_nat (E - (total + offset)) + Z.to_nat offset)%nat
              with (Z.to_nat (E - total)) by lia.
            exact Hcuts.
          - rewrite <- firstn_skipn_comm. exact Hchunk. }
        assert (Hfirst : map Byte.to_N chunk <> [])
          by (intros Hnil; apply map_eq_nil in Hnil; contradiction).
        pose proof (splitlines_cut (map Byte.to_N chunk)
                      (map Byte.to_N (read_so_far data total)) Hfirst Hlater Hbefore)
          as Hcut.
        unfold str, codepoint in *. rewrite Hcut.
        rewrite <- Hlines.
        destruct lines_found as [|first others].
        { symmetry in Hlines. apply splitlines_nil in Hlines. contradiction. }
        destruct (splitlines (map Byte.to_N chunk)) as [|c cs] eqn:Hc.
        { apply splitlines_nil in Hc. apply map_eq_nil in Hc. contradiction. }
        reflexivity. }
    destruct lines_found as [|first others];
      destruct (splitlines (map Byte.to_N chunk)) as [|c cs]; exact Hgoal.
Qed.

Lemma tail_loop_keeps_lines (n_lines : Z) (fuel : nat) :
  forall st, lines_of_part_read data st ->
             lines_of_part_read data (tail_loop fuel data n_lines E st).
Proof.
  induction fuel as [|fuel IH]; intros st Hst; simpl; [exact Hst|].
  destruct (tail_cond n_lines E st) eqn:Hcond; [|exact Hst].
  apply IH. now apply tail_body_keeps_lines with (n_lines := n_lines).
Qed.

Lemma tail_of_ascii_file (n_lines : Z) :
  1 <= n_lines ->
  tail_of_bytes data n_lines
  = slice_from (- n_lines) (splitlines (decode_utf8_replace data)).
Proof.
  intros Hn. unfold tail_of_bytes. fold (file_end data).
  destruct (Z.eqb_spec E 0) as [Hempty|Hne].
  - assert (data = []) by (destruct data; [reflexivity | unfold file_end in Hempty; simpl in Hempty; lia]).
    subst data. unfold slice_from. simpl splitlines. now rewrite skipn_nil.
  - assert (Hinit : lines_of_part_read data ([], 0)).
    { unfold lines_of_part_read. simpl. split; [unfold file_end; lia|]. split.
      - right. exists 0. unfold buffer_size. lia.
      - unfold read_so_far. rewrite skipn_all2 by (unfold file_end; lia). reflexivity. }
    pose proof (tail_loop_keeps_lines n_lines (List.length data) _ Hinit) as Hinv.
    pose proof (tail_loop_exits (List.length data) data n_lines E ([], 0)
                  ltac:(simpl; unfold file_end; lia)) as Hexit.
    destruct (tail_loop (List.length data) data n_lines E ([], 0))
      as [lines_found total].
    destruct Hinv as [Hrange [_ Hlines]]. simpl in Hrange, Hlines.
    unfold tail_cond in Hexit. simpl in Hexit.
    apply andb_false_iff in Hexit as [Hfound|Hall].
    + (* enough lines were found in a part of the file *)
      apply Z.ltb_ge in Hfound.
      destruct (Z.eq_dec total E) as [->|Hpart].
      { rewrite Hlines. unfold read_so_far. now replace (E - E) with 0 by lia. }
      assert (Hlater : map Byte.to_N (read_so_far data total) <> []).
      { intros Hnil. rewrite decode_ascii in Hlines by (now apply ascii_only_skipn).
        rewrite Hnil in Hlines. subst lines_found. simpl in Hfound. lia. }
      replace (decode_utf8_replace data)
        with (map Byte.to_N (firstn (Z.to_nat (E - total)) data)
                ++ map Byte.to_N (read_so_far data total)).
      2: { rewrite decode_ascii, <- map_app by assumption. f_equal.
           unfold read_so_far. apply firstn_skipn. }
      destruct (splitlines_suffix (map Byte.to_N (firstn (Z.to_nat (E - total)) data))
                  (map Byte.to_N (read_so_far data total)) Hlater)
        as [p [pre Hsuffix]].
      unfold str, codepoint in *. rewrite Hsuffix.
      rewrite decode_ascii in Hlines by (now apply ascii_only_skipn).
      rewrite <- Hlines.
      destruct lines_found as [|first others]; [simpl in Hfound; lia|].
      simpl tl. simpl in Hfound.
      rewrite slice_from_neg_app by lia.
      change (first :: others) with ([first] ++ others).
      now rewrite slice_from_neg_app by lia.
    + (* the whole file was read *)
      apply Z.ltb_ge in Hall. assert (total = E) by lia. subst total.
      rewrite Hlines. unfold read_so_far. now replace (E - E) with 0 by lia.
Qed.

End TailStitching.

Section TailInvariants.
Import Py LogAnalyzer.
Local Open Scope Z_scope.

Lemma no_line_break_app (a b : str) :
  no_line_break a -> no_line_break b -> no_line_break (a ++ b).
Proof.
  unfold no_line_break. intros Ha Hb. rewrite forallb_app, Ha, Hb. reflexivity.
Qed.

Lemma Forall_removelast {A} (P : A -> Prop) (l : list A) :
  Forall P l -> Forall P (removelast l).
Proof.
  induction l as [|x l IH]; intros H; [constructor|].
  inversion H; subst. destruct l as [|y l]; [constructor|].
  simpl. constructor; [assumption | now apply IH].
Qed.

Lemma Forall_last {A} (P : A -> Prop) (l : list A) (d : A) :
  P d -> Forall P l -> P (last l d).
Proof.
  intros Hd. induction l as [|x l IH]; intros H; [exact Hd|].
  inversion H; subst. destruct l as [|y l]; [assumption | now apply IH].
Qed.

Lemma Forall_skipn {A} (P : A -> Prop) (n : nat) (l : list A) :
  Forall P l -> Forall P (skipn n l).
Proof.
  revert l. induction n as [|n IH]; intros l H; [exact H|].
  destruct l as [|x l]; [constructor|]. inversion H; subst. now apply IH.
Qed.

Lemma tail_body_no_line_break (data : bytes) (end_byte : Z) (st : tail_state) :
  Forall no_line_break (fst st) ->
  Forall no_line_break (fst (tail_body data end_byte st)).
Proof.
  destruct st as [lines_found total]. intros Hst. simpl in Hst. unfold tail_body.
  pose proof (splitlines_no_break
                (decode_utf8_replace
                   (read_chunk data
                      (end_byte - (total + Z.min buffer_size (end_byte - total)))
                      (Z.min buffer_size (end_byte - total))))) as Hcur.
  destruct lines_found as [|first others].
  - cbv beta iota. cbn [fst]. rewrite app_nil_r. exact Hcur.
  - destruct (splitlines _) as [|c cs] eqn:E.
    + cbn [fst app]. exact Hst.
    + cbn [fst]. apply Forall_app. split.
      * now apply Forall_removelast.
      * inversion Hst; subst. constructor; [|assumption].
        apply no_line_break_app; [|assumption].
        apply Forall_last; [reflexivity | exact Hcur].
Qed.

Lemma tail_loop_no_line_break (fuel : nat) (data : bytes) (n_lines end_byte : Z) :
  forall st, Forall no_line_break (fst st) ->
             Forall no_line_break (fst (tail_loop fuel data n_lines end_byte st)).
Proof.
  induction fuel as [|fuel IH]; intros st Hst; simpl; [exact Hst|].
  destruct (tail_cond n_lines end_byte st); [|exact Hst].
  apply IH. now apply tail_body_no_line_break.
Qed.

(** X3.  No string that the tailer returns holds a line boundary, whatever
    the bytes of the file and the number of lines asked for.  (A string
    returned need not be one line of the file: two lines that meet at a
    chunk boundary come back as one string, without the boundary.) *)
Theorem tail_lines_hold_no_line_break
    (fs : filesystem) (filepath : option str) (n_lines : Z) (lines : list str) :
  _efficient_tail fs filepath n_lines = Ok lines ->
  Forall no_line_break lines.
Proof.
  unfold _efficient_tail.
  destruct filepath as [[|c path]|]; try discriminate.
  destruct (fs (c :: path)) as [| |e|data]; try discriminate.
  intros H. injection H as <-. unfold tail_of_bytes.
  destruct (Z.of_nat (List.length data) =? 0); [constructor|].
  pose proof (tail_loop_no_line_break (List.length data) data n_lines
                (Z.of_nat (List.length data)) ([], 0) ltac:(constructor)) as Hloop.
  destruct (tail_loop _ _ _ _ _) as [lines_found total]. simpl in Hloop.
  unfold slice_from. now apply Forall_skipn.
Qed.

(** When the loop is left, the whole file has been read or more lines
    than were asked for have been put together; the loop never reads past
    the start of the file. *)
Lemma tail_body_in_range (data : bytes) (st : tail_state) :
  0 <= snd st <= Z.of_nat (List.length data) ->
  0 <= snd (tail_body data (Z.of_nat (List.length data)) st)
    <= Z.of_nat (List.length data).
Proof.
  intros H. rewrite tail_body_read. unfold buffer_size. lia.
Qed.

Lemma tail_loop_in_range (fuel : nat) (data : bytes) (n_lines : Z) :
  forall st,
    0 <= snd st <= Z.of_nat (List.length data) ->
    0 <= snd (tail_loop fuel data n_lines (Z.of_nat (List.length data)) st)
      <= Z.of_nat (List.length data).
Proof.
  induction fuel as [|fuel IH]; intros st Hst; simpl; [exact Hst|].
  destruct (tail_cond _ _ st); [|exact Hst].
  apply IH. now apply tail_body_in_range.
Qed.

Lemma tail_loop_stops_when_done (data : bytes) (n_lines : Z) :
  let end_byte := Z.of_nat (List.length data) in
  let st := tail_loop (List.length data) data n_lines end_byte ([], 0) in
  0 <= snd st <= end_byte
  /\ (snd st = end_byte \/ n_lines + 1 <= Z.of_nat (List.length (fst st))).
Proof.
  intros end_byte st. split.
  - apply tail_loop_in_range. simpl. lia.
  - pose proof (tail_loop_exits (List.length data) data n_lines end_byte ([], 0)
                  ltac:(simpl; unfold end_byte; lia)) as Hexit.
    fold st in Hexit. unfold tail_cond in Hexit.
    pose proof (tail_loop_in_range (List.length data) data n_lines ([], 0)
                  ltac:(simpl; lia)) as Hrange.
    fold end_byte in Hrange. fold st in Hrange.
    apply andb_false_iff in Hexit as [H|H]; apply Z.ltb_ge in H; [right | left]; lia.
Qed.

Lemma tail_body_last_chunk (data : bytes) :
  tail_body data (Z.of_nat (List.length data)) ([], 0)
  = (splitlines (decode_utf8_replace (last_chunk data)),
     Z.min buffer_size (Z.of_nat (List.length data))).
Proof.
  unfold tail_body, last_chunk. cbv beta iota zeta.
  replace (Z.of_nat (List.length data) - 0) with (Z.of_nat (List.length data)) by lia.
  replace (0 + Z.min buffer_size (Z.of_nat (List.length data)))
    with (Z.min buffer_size (Z.of_nat (List.length data))) by lia.
  now rewrite app_nil_r.
Qed.

(** X4.  When the last chunk of the file holds more lines than were asked
    for, only that chunk is read, however long the file is, and what is
    returned is the slice [lines_found[-n_lines:]] of the lines of the
    chunk: its last [n_lines] lines, exactly that many, when at least one
    line is asked for, and all its lines when none is asked for. *)
Theorem tail_reads_one_chunk_when_it_suffices (data : bytes) (n_lines : Z) :
  0 <= n_lines ->
  n_lines + 1
  <= Z.of_nat (List.length (splitlines (decode_utf8_replace (last_chunk data)))) ->
  tail_loop (List.length data) data n_lines (Z.of_nat (List.length data)) ([], 0)
  = (splitlines (decode_utf8_replace (last_chunk data)),
     Z.min buffer_size (Z.of_nat (List.length data)))
  /\ tail_of_bytes data n_lines
     = slice_from (- n_lines) (splitlines (decode_utf8_replace (last_chunk data)))
  /\ (1 <= n_lines ->
      tail_of_bytes data n_lines
      = skipn (List.length (splitlines (decode_utf8_replace (last_chunk data)))
               - Z.to_nat n_lines)
              (splitlines (decode_utf8_replace (last_chunk data)))
      /\ List.length (tail_of_bytes data n_lines) = Z.to_nat n_lines)
  /\ (n_lines = 0 ->
      tail_of_bytes data n_lines
      = splitlines (decode_utf8_replace (last_chunk data))).
Proof.
  intros Hn Henough.
  destruct data as [|b data'] eqn:Hd.
  - simpl in Henough. lia.
  - rewrite <- Hd in *.
    assert (Hlen : List.length data = S (List.length data')) by (subst; reflexivity).
    assert (Hloop : tail_loop (List.length data) data n_lines
                      (Z.of_nat (List.length data)) ([], 0)
                    = (splitlines (decode_utf8_replace (last_chunk data)),
                       Z.min buffer_size (Z.of_nat (List.length data)))).
    { rewrite Hlen at 1. rewrite tail_loop_one_pass.
      - apply tail_body_last_chunk.
      - unfold tail_cond. cbn [fst snd]. apply andb_true_iff.
        split; apply Z.ltb_lt; simpl List.length; lia.
      - rewrite tail_body_last_chunk. unfold tail_cond. cbn [fst snd].
        apply andb_false_iff. left. apply Z.ltb_ge. lia. }
    assert (Htail : tail_of_bytes data n_lines
                    = slice_from (- n_lines)
                        (splitlines (decode_utf8_replace (last_chunk data)))).
    { unfold tail_of_bytes. rewrite Hloop.
      destruct (Z.eqb_spec (Z.of_nat (List.length data)) 0) as [E|_]; [lia|].
      reflexivity. }
    split; [exact Hloop|]. split; [exact Htail|]. split.
    + intros Hone.
      assert (Hslice : slice_from (- n_lines)
                         (splitlines (decode_utf8_replace (last_chunk data)))
                       = skipn (List.length
                                  (splitlines (decode_utf8_replace (last_chunk data)))
                                - Z.to_nat n_lines)
                               (splitlines (decode_utf8_replace (last_chunk data)))).
      { unfold slice_from. cbv zeta.
        destruct (Z.ltb_spec (- n_lines) 0) as [_|H]; [|lia].
        f_equal. lia. }
      rewrite Htail, Hslice. split; [reflexivity|].
      rewrite length_skipn. lia.
    + intros ->. rewrite Htail. apply slice_from_zero.
Qed.

(** X1.  For a file of ASCII text in which no chunk of 4096 bytes, counted
    from the end of the file, starts at the start of a line, the tailer
    returns the last [n_lines] lines of the file as [splitlines] gives
    them, for every [n_lines] of at least one: the pieces of the lines
    that the chunk boundaries cut are put together again. *)
Theorem tail_returns_the_last_lines (fs : filesystem) (path : str)
    (data : bytes) (n_lines : Z) :
  path <> [] ->
  fs path = Contents data ->
  ascii_only data ->
  cuts_inside_lines data ->
  1 <= n_lines ->
  _efficient_tail fs (Some path) n_lines
  = Ok (slice_from (- n_lines) (splitlines (decode_utf8_replace data))).
Proof.
  intros Hpath Hfile Hascii Hcuts Hn. unfold _efficient_tail.
  destruct path as [|c p]; [contradiction|]. rewrite Hfile.
  now rewrite (tail_of_ascii_file data Hascii Hcuts n_lines Hn).
Qed.

(** X2.  When at least one line is asked for, the tailer returns at most as
    many lines as were asked for, whatever the file holds. *)
Theorem tail_never_exceeds_the_request (fs : filesystem)
    (filepath : option str) (n_lines : Z) (lines : list str) :
  1 <= n_lines ->
  _efficient_tail fs filepath n_lines = Ok lines ->
  (List.length lines <= Z.to_nat n_lines)%nat.
Proof.
  intros Hn. unfold _efficient_tail.
  destruct filepath as [[|c path]|]; try discriminate.
  destruct (fs (c :: path)) as [| |e|data]; try discriminate.
  intros H. injection H as <-.
  pose proof (tail_length_bound data n_lines ltac:(lia)). lia.
Qed.

End TailInvariants.

Section FilterMore.
Import Py LogAnalyzer.

Variable str_lower : str -> str.
Variable str_upper : str -> str.
Variable LOG_LINE_REGEX_match : str -> option str.

Local Abbreviation line_passes := (line_passes str_lower str_upper LOG_LINE_REGEX_match).
Local Abbreviation filter_lines := (filter_lines str_lower str_upper LOG_LINE_REGEX_match).
Local Abbreviation get_filtered_log_lines :=
  (get_filtered_log_lines str_lower str_upper LOG_LINE_REGEX_match).
Local Abbreviation keyword_passes := (keyword_passes str_lower).

Local Abbreviation line_passes_string_level :=
  (line_passes_string_level str_lower str_upper LOG_LINE_REGEX_match).
Local Abbreviation filter_lines_by_line :=
  (filter_lines_by_line str_lower str_upper LOG_LINE_REGEX_match).

(** X5.  With a string for the level the loop does not raise, and what it keeps
    is what a filter by the verdict on each line keeps: the lines stay in
    their order and the fate of a line does not depend on the others. *)
Theorem filter_lines_keeps_by_line (l : str) (keyword_filter : pyarg)
    (raw_lines : list str) :
  snd (filter_lines (PyStr l) keyword_filter raw_lines)
  = Ok (filter (fun line =>
                  match snd (line_passes (PyStr l) keyword_filter line) with
                  | Ok keep => keep
                  | Raise _ => false
                  end) raw_lines).
Proof. apply filter_lines_by_line. Qed.

(** X6.  The lines kept under a string level filter are the fetched lines that
    hold the keyword and, unless the filter is ['ALL'], carry the level of
    the filter, or follow no grammar while the filter is ['INFO'] or
    ['DEBUG']. *)
Theorem filter_lines_keeps_exactly (l : str) (keyword_filter : pyarg)
    (raw_lines kept : list str) (line : str) :
  snd (filter_lines (PyStr l) keyword_filter raw_lines) = Ok kept ->
  (In line kept <->
   In line raw_lines
   /\ keyword_passes keyword_filter line = true
   /\ (l = lit "ALL"
       \/ match LOG_LINE_REGEX_match line with
          | Some level => str_upper level = str_upper l
          | None => l = lit "INFO" \/ l = lit "DEBUG"
          end)).
Proof.
  rewrite filter_lines_by_line. intros H. injection H as <-.
  rewrite filter_In.
  destruct (line_passes_string_level l keyword_filter line) as [ev [keep [E Hiff]]].
  rewrite E. simpl snd. rewrite Hiff. tauto.
Qed.

(** X7.  With a string for the level, [get_filtered_log_lines] returns in every
    state of the file system, with one of the four statuses: no failure of
    the file and no line of the log makes it raise. *)
Theorem get_filtered_log_lines_returns (fs : filesystem)
    (log_file_path : option str) (num_lines : Z) (l : str)
    (keyword_filter : pyarg) :
  exists ev lines status,
    get_filtered_log_lines fs log_file_path num_lines (PyStr l) keyword_filter
    = (ev, Ok (lines, status))
    /\ In status LOG_STATUSES.
Proof.
  unfold LogAnalyzer.get_filtered_log_lines, LOG_STATUSES.
  destruct log_file_path as [[|c path]|].
  - eexists; eexists; eexists; split; [reflexivity|]. simpl; auto.
  - destruct (_efficient_tail fs _ num_lines) as [[|line rest]|[cls msg]].
    + eexists; eexists; eexists; split; [reflexivity|]. simpl; auto.
    + pose proof (filter_lines_by_line l keyword_filter (line :: rest)) as Hf.
      destruct (filter_lines (PyStr l) keyword_filter _) as [ev r].
      cbn [snd] in Hf. subst r.
      destruct (filter _ (line :: rest)) as [|k ks];
        (eexists; eexists; eexists; split; [reflexivity|]); simpl; auto 6.
    + destruct cls; (eexists; eexists; eexists; split; [reflexivity|]);
        simpl; auto.
  - eexists; eexists; eexists; split; [reflexivity|]. simpl; auto.
Qed.

End FilterMore.

Section DiagnoseMore.
Import Py LogAnalyzer.

Variable re_search : str -> str -> option (list str).

Lemma diagnose_loop_candidates (rules : list (str * hint_or_func))
    (log_lines : list str) :
  forall st,
    diagnose_loop re_search rules log_lines st
    = diagnose_loop re_search rules (filter is_candidate log_lines) st.
Proof.
  induction log_lines as [|line rest IH]; intros st; [reflexivity|].
  simpl. destruct (is_candidate line) eqn:Hc; simpl.
  - rewrite Hc. simpl. apply IH.
  - apply IH.
Qed.

(** X8.  Only the lines that hold ERROR, CRITICAL or WARNING count: the hints
    for a list of lines are the hints for these lines alone; when there is
    no such line the answer is the one fallback hint; the answer is never
    empty. *)
Theorem diagnose_logs_reads_candidates_only (log_lines : list str) :
  diagnose_logs re_search log_lines
  = diagnose_logs re_search (filter is_candidate log_lines)
  /\ (filter is_candidate log_lines = [] ->
      diagnose_logs re_search log_lines = [NO_HINT])
  /\ diagnose_logs re_search log_lines <> [].
Proof.
  assert (H : diagnose_logs re_search log_lines
              = diagnose_logs re_search (filter is_candidate log_lines)).
  { unfold diagnose_logs, diagnose_run. now rewrite diagnose_loop_candidates. }
  split; [exact H|]. split.
  - intros Hnone. rewrite H, Hnone. reflexivity.
  - unfold diagnose_logs.
    destruct (fst (diagnose_run re_search log_lines)); discriminate.
Qed.

Lemma apply_rules_count (rules : list (str * hint_or_func)) (line : str) :
  forall st,
    (List.length (fst (apply_rules re_search rules line st))
     <= List.length (fst st) + List.length rules)%nat.
Proof.
  induction rules as [|[pattern action] rules IH]; intros st; simpl; [lia|].
  match goal with |- context [apply_rules _ _ _ ?s] => specialize (IH s) end.
  eapply Nat.le_trans; [exact IH|].
  destruct (re_search pattern line) as [groups|]; [|lia].
  destruct st as [hints texts].
  destruct (negb (existsb _ texts)); simpl; rewrite ?length_app; simpl; lia.
Qed.

Lemma diagnose_loop_count (rules : list (str * hint_or_func)) (log_lines : list str) :
  forall st,
    (List.length (fst (diagnose_loop re_search rules log_lines st))
     <= List.length (fst st)
        + List.length (filter is_candidate log_lines) * List.length rules)%nat.
Proof.
  induction log_lines as [|line rest IH]; intros st; simpl; [lia|].
  match goal with |- context [diagnose_loop _ _ _ ?s] => specialize (IH s) end.
  eapply Nat.le_trans; [exact IH|].
  destruct (is_candidate line); simpl; [|lia].
  pose proof (apply_rules_count rules line st). lia.
Qed.

(** A line yields at most one hint for each of the eight rules. *)
Lemma diagnose_logs_count (log_lines : list str) :
  (List.length (fst (diagnose_run re_search log_lines))
   <= 8 * List.length (filter is_candidate log_lines))%nat.
Proof.
  pose proof (diagnose_loop_count DIAGNOSTIC_PATTERNS log_lines ([], [])) as H.
  unfold diagnose_run. simpl List.length in H.
  change (List.length DIAGNOSTIC_PATTERNS) with 8%nat in H. lia.
Qed.

Lemma slice_from_length_le {A} (n : Z) (l : list A) :
  (0 < n)%Z -> (List.length (slice_from (- n) l) <= Z.to_nat n)%nat.
Proof.
  intros Hn. pose proof (slice_from_neg_length n l Hn). lia.
Qed.

(** X9.  The part of the line quoted in a hint is at most its last 150
    characters: a hint is longer than its text by 174 characters at
    most. *)
Theorem diagnose_logs_hints_are_bounded (log_lines : list str) :
  Forall2 (fun hint text =>
             (List.length hint <= List.length text + 174)%nat)
          (fst (diagnose_run re_search log_lines))
          (snd (diagnose_run re_search log_lines)).
Proof.
  assert (H : hints_distinct log_lines (diagnose_run re_search log_lines)).
  { apply diagnose_loop_distinct; [apply incl_refl | split; constructor]. }
  destruct H as [_ Hall].
  induction Hall as [|hint text hints texts [line [_ ->]] _ IH]; constructor;
    [|exact IH].
  unfold format_hint. rewrite !length_app.
  pose proof (slice_from_length_le 150 line ltac:(lia)) as Hq.
  cbn [Z.opp] in Hq.
  change (List.length (lit "- ")) with 2%nat.
  change (List.length (lit " (related to log: ...")) with 21%nat.
  change (List.length (lit ")")) with 1%nat.
  change (Z.to_nat 150) with 150%nat in Hq. lia.
Qed.

End DiagnoseMore.

(* ================================================================== *)
(** * Further properties of the scan and of the checks *)
(* ================================================================== *)

Section StripFacts.
Import Py.

Lemma lstrip_suffix (s : str) : exists p, s = p ++ lstrip s.
Proof.
  induction s as [|c s [p IH]]; [exists []; reflexivity|].
  simpl. destruct (is_space c).
  - exists (c :: p). simpl. now rewrite <- IH.
  - exists []. reflexivity.
Qed.

Lemma lstrip_head (s : str) (c : codepoint) (t : str) :
  lstrip s = c :: t -> is_space c = false.
Proof.
  induction s as [|x s IH]; simpl; [discriminate|].
  destruct (is_space x) eqn:E; [exact IH|].
  intros H. injection H as <- _. exact E.
Qed.

Lemma lstrip_fixed (s : str) :
  (forall c t, s = c :: t -> is_space c = false) -> lstrip s = s.
Proof.
  destruct s as [|c t]; [reflexivity|]. intros H. simpl.
  now rewrite (H c t eq_refl).
Qed.

Lemma lstrip_idem (s : str) : lstrip (lstrip s) = lstrip s.
Proof. apply lstrip_fixed. intros c t. apply lstrip_head. Qed.

(** [strip] cuts a piece out of the string. *)
Lemma strip_inside (s : str) : exists a b, s = a ++ strip s ++ b.
Proof.
  unfold strip. destruct (lstrip_suffix s) as [a Ha].
  destruct (lstrip_suffix (rev (lstrip s))) as [p Hp].
  exists a, (rev p). rewrite <- rev_app_distr, <- Hp, rev_involutive. exact Ha.
Qed.

Lemma strip_idem (s : str) : strip (strip s) = strip s.
Proof.
  unfold strip.
  destruct (lstrip_suffix (rev (lstrip s))) as [p Hp].
  set (u := lstrip (rev (lstrip s))) in *.
  assert (Hfix : lstrip (rev u) = rev u).
  { apply lstrip_fixed. intros c t Hc.
    assert (Ht : lstrip s = c :: (t ++ rev p)).
    { rewrite <- (rev_involutive (lstrip s)), Hp, rev_app_distr, Hc. reflexivity. }
    exact (lstrip_head _ _ _ Ht). }
  rewrite Hfix, rev_involutive. unfold u. now rewrite lstrip_idem.
Qed.

End StripFacts.

Section ScanMore.
Import Py AddonRequirementsChecker.

Variable fs : filesystem.

Lemma requirement_lines_clean (lines : list str) :
  Forall clean_requirement (requirement_lines lines).
Proof.
  induction lines as [|line rest IH]; simpl; [constructor|].
  destruct (strip line) as [|c t] eqn:Hs; [exact IH|].
  destruct (startswith (c :: t) (lit "#")) eqn:Hh; simpl; [exact IH|].
  constructor; [|exact IH].
  split; [discriminate|]. split; [|exact Hh].
  rewrite <- Hs. apply strip_idem.
Qed.

Lemma parse_clean (file_path : str) :
  Forall clean_requirement (snd (_parse_requirements_file fs file_path)).
Proof.
  unfold _parse_requirements_file.
  destruct (open_utf8 fs file_path) as [e|lines [e|]]; simpl;
    [constructor | apply requirement_lines_clean | apply requirement_lines_clean].
Qed.

Lemma dict_set_Forall {V} (P : str * V -> Prop) (d : dict V) (k : str) (v : V) :
  Forall P d -> P (k, v) -> Forall P (dict_set d k v).
Proof.
  intros Hd Hk. induction Hd as [|[k0 v0] d H0 Hd IH]; simpl.
  - constructor; [exact Hk | constructor].
  - destruct (str_eqb k0 k) eqn:E.
    + apply str_eqb_eq in E. subst k0. constructor; assumption.
    + constructor; assumption.
Qed.

(** What [scan_module] does, by cases. *)
Lemma scan_module_cases (addons_path m : str) (d : dict details) :
  snd (scan_module fs addons_path m d)
  = if has_requirements fs addons_path m
    then dict_set d m (module_details fs addons_path m)
    else d.
Proof.
  unfold scan_module, has_requirements, module_details. cbv zeta.
  simpl packages.
  destruct (isdir fs _ && exists_ fs _); simpl; [|reflexivity].
  destruct (exists_ fs _); simpl; [|reflexivity].
  destruct (_parse_requirements_file fs _) as [l [|p ps]]; reflexivity.
Qed.

Local Abbreviation entry_from addons_paths :=
  (fun e : str * details =>
     exists addons_path,
       In addons_path addons_paths
       /\ records fs addons_path (fst e)
       /\ snd e = module_details fs addons_path (fst e)).

Lemma scan_modules_entries (addons_paths : list str) (addons_path : str)
    (all_names : list str) :
  In addons_path addons_paths ->
  isdir fs addons_path = true ->
  listdir fs addons_path = Ok all_names ->
  forall names d,
    incl names all_names ->
    Forall (entry_from addons_paths) d ->
    Forall (entry_from addons_paths) (snd (scan_modules fs addons_path names d)).
Proof.
  intros Hin Hdir Hls. induction names as [|n names IH]; intros d Hincl Hd.
  - exact Hd.
  - simpl. destruct (scan_module fs addons_path n d) as [l d1] eqn:Hn.
    destruct (scan_modules fs addons_path names d1) as [l' d2] eqn:Hrest.
    simpl. change d2 with (snd (l', d2)). rewrite <- Hrest.
    apply IH; [intros x Hx; apply Hincl; now right|].
    change d1 with (snd (l, d1)). rewrite <- Hn, scan_module_cases.
    destruct (has_requirements fs addons_path n) eqn:Hq; [|exact Hd].
    apply dict_set_Forall; [exact Hd|].
    exists addons_path. split; [exact Hin|]. split; [|reflexivity].
    split; [exact Hdir|]. exists all_names.
    split; [exact Hls|]. split; [apply Hincl; now left | exact Hq].
Qed.

Lemma scan_addons_path_entries (addons_paths : list str) (addons_path : str)
    (d : dict details) :
  In addons_path addons_paths ->
  Forall (entry_from addons_paths) d ->
  Forall (entry_from addons_paths) (snd (scan_addons_path fs addons_path d)).
Proof.
  intros Hin Hd. unfold scan_addons_path.
  destruct (isdir fs addons_path) eqn:Hdir; simpl; [|exact Hd].
  destruct (listdir fs addons_path) as [names|e] eqn:Hls; [|exact Hd].
  apply (scan_modules_entries addons_paths addons_path names); auto.
  apply incl_refl.
Qed.

Lemma scan_addons_paths_entries (addons_paths : list str) :
  forall paths d,
    incl paths addons_paths ->
    Forall (entry_from addons_paths) d ->
    Forall (entry_from addons_paths) (snd (scan_addons_paths fs paths d)).
Proof.
  induction paths as [|p ps IH]; intros d Hincl Hd; [exact Hd|].
  simpl. destruct (scan_addons_path fs p d) as [l d1] eqn:Hp.
  destruct (scan_addons_paths fs ps d1) as [l' d2] eqn:Hrest.
  simpl. change d2 with (snd (l', d2)). rewrite <- Hrest.
  apply IH; [intros x Hx; apply Hincl; now right|].
  change d1 with (snd (l, d1)). rewrite <- Hp.
  apply scan_addons_path_entries; [apply Hincl; now left | exact Hd].
Qed.

Lemma has_requirements_packages (addons_path m : str) :
  has_requirements fs addons_path m = true ->
  packages (module_details fs addons_path m) <> [].
Proof.
  unfold has_requirements. cbv zeta. intros H.
  apply andb_true_iff in H as [_ H].
  destruct (packages _); [discriminate | discriminate].
Qed.

Lemma find_requirements_sound (addons_paths : list str) (m : str)
    (d : details) :
  In (m, d) (snd (find_requirements fs addons_paths)) ->
  (exists addons_path,
     In addons_path addons_paths
     /\ records fs addons_path m
     /\ d = module_details fs addons_path m)
  /\ packages d <> []
  /\ Forall clean_requirement (packages d).
Proof.
  intros Hin.
  assert (Hall : Forall (entry_from addons_paths)
                   (snd (find_requirements fs addons_paths))).
  { unfold find_requirements. destruct addons_paths as [|p ps]; [constructor|].
    apply scan_addons_paths_entries; [apply incl_refl | constructor]. }
  rewrite Forall_forall in Hall. destruct (Hall _ Hin) as [ap [Hap [Hrec Hd]]].
  simpl in Hrec, Hd.
  split; [exists ap; auto|]. subst d. split.
  - destruct Hrec as [_ [names [_ [_ Hq]]]]. now apply has_requirements_packages.
  - apply parse_clean.
Qed.

(** X11.  Every entry of the result of [find_requirements] comes from a module
    directory of one of the addons paths that has a manifest and a
    requirements file; it holds the path of the directory, the path of
    the file and the requirements read from the file, of which there is
    at least one, and each of them is a line of the file without the
    white space around it, not empty and not a comment. *)
Theorem find_requirements_entries (addons_paths : list str) (m : str)
    (d : details) :
  In (m, d) (snd (find_requirements fs addons_paths)) ->
  (exists addons_path,
     In addons_path addons_paths
     /\ records fs addons_path m
     /\ d = module_details fs addons_path m)
  /\ packages d <> []
  /\ Forall clean_requirement (packages d).
Proof. apply find_requirements_sound. Qed.

(** *** Which entry a module gets *)

Lemma str_eq_dec (a b : str) : {a = b} + {a <> b}.
Proof. apply (list_eq_dec N.eq_dec). Qed.

Lemma scan_modules_keeps (addons_path m : str) (names : list str) :
  has_requirements fs addons_path m = true ->
  forall d,
    dict_get d m = Some (module_details fs addons_path m) ->
    dict_get (snd (scan_modules fs addons_path names d)) m
    = Some (module_details fs addons_path m).
Proof.
  intros Hq. induction names as [|n names IH]; intros d Hd; [exact Hd|].
  simpl. destruct (scan_module fs addons_path n d) as [l d1] eqn:Hn.
  destruct (scan_modules fs addons_path names d1) as [l' d2] eqn:Hrest.
  simpl. change d2 with (snd (l', d2)). rewrite <- Hrest. apply IH.
  change d1 with (snd (l, d1)). rewrite <- Hn.
  destruct (str_eq_dec m n) as [<-|Hne].
  - rewrite scan_module_cases, Hq. apply dict_get_set_same.
  - now rewrite scan_module_other.
Qed.

Lemma scan_modules_records (addons_path m : str) (names : list str) :
  has_requirements fs addons_path m = true ->
  In m names ->
  forall d,
    dict_get (snd (scan_modules fs addons_path names d)) m
    = Some (module_details fs addons_path m).
Proof.
  intros Hq. induction names as [|n names IH]; intros Hin d; [destruct Hin|].
  simpl. destruct (scan_module fs addons_path n d) as [l d1] eqn:Hn.
  destruct (scan_modules fs addons_path names d1) as [l' d2] eqn:Hrest.
  simpl. change d2 with (snd (l', d2)). rewrite <- Hrest.
  destruct (str_eq_dec n m) as [->|Hne].
  - apply scan_modules_keeps; [exact Hq|].
    change d1 with (snd (l, d1)). rewrite <- Hn.
    rewrite scan_module_cases, Hq. apply dict_get_set_same.
  - apply IH. destruct Hin as [H|H]; [contradiction | exact H].
Qed.

Lemma scan_modules_passes (addons_path m : str) (names : list str) :
  (In m names -> has_requirements fs addons_path m = false) ->
  forall d,
    dict_get (snd (scan_modules fs addons_path names d)) m = dict_get d m.
Proof.
  induction names as [|n names IH]; intros Hno d; [reflexivity|].
  simpl. destruct (scan_module fs addons_path n d) as [l d1] eqn:Hn.
  destruct (scan_modules fs addons_path names d1) as [l' d2] eqn:Hrest.
  simpl. change d2 with (snd (l', d2)). rewrite <- Hrest.
  rewrite IH by (intros H; apply Hno; now right).
  change d1 with (snd (l, d1)). rewrite <- Hn.
  destruct (str_eq_dec m n) as [<-|Hne].
  - rewrite scan_module_cases, Hno by now left. reflexivity.
  - now apply scan_module_other.
Qed.

Lemma scan_addons_path_records (addons_path m : str) (d : dict details) :
  records fs addons_path m ->
  dict_get (snd (scan_addons_path fs addons_path d)) m
  = Some (module_details fs addons_path m).
Proof.
  intros [Hdir [names [Hls [Hin Hq]]]]. unfold scan_addons_path.
  rewrite Hdir, Hls. simpl. now apply scan_modules_records.
Qed.

Lemma scan_addons_path_passes (addons_path m : str) (d : dict details) :
  ~ records fs addons_path m ->
  dict_get (snd (scan_addons_path fs addons_path d)) m = dict_get d m.
Proof.
  intros Hno. unfold scan_addons_path.
  destruct (isdir fs addons_path) eqn:Hdir; simpl; [|reflexivity].
  destruct (listdir fs addons_path) as [names|e] eqn:Hls; [|reflexivity].
  apply scan_modules_passes. intros Hin.
  destruct (has_requirements fs addons_path m) eqn:Hq; [|reflexivity].
  exfalso. apply Hno. split; [exact Hdir|]. exists names. auto.
Qed.

Lemma scan_addons_paths_passes (m : str) (paths : list str) :
  (forall p, In p paths -> ~ records fs p m) ->
  forall d, dict_get (snd (scan_addons_paths fs paths d)) m = dict_get d m.
Proof.
  induction paths as [|p ps IH]; intros Hno d; [reflexivity|].
  simpl. destruct (scan_addons_path fs p d) as [l d1] eqn:Hp.
  destruct (scan_addons_paths fs ps d1) as [l' d2] eqn:Hrest.
  simpl. change d2 with (snd (l', d2)). rewrite <- Hrest.
  rewrite IH by (intros q Hq; apply Hno; now right).
  change d1 with (snd (l, d1)). rewrite <- Hp.
  apply scan_addons_path_passes. apply Hno. now left.
Qed.

Lemma scan_addons_paths_app (a b : list str) :
  forall d,
    snd (scan_addons_paths fs (a ++ b) d)
    = snd (scan_addons_paths fs b (snd (scan_addons_paths fs a d))).
Proof.
  induction a as [|p a IH]; intros d; [reflexivity|].
  simpl. destruct (scan_addons_path fs p d) as [l d1].
  specialize (IH d1).
  destruct (scan_addons_paths fs (a ++ b) d1) as [l' d2].
  destruct (scan_addons_paths fs a d1) as [l'' d3].
  simpl in *. exact IH.
Qed.

(** X12.  The result is keyed by the name of the module alone: a module that
    the scan finds with requirements has an entry, and when several addons
    paths hold a module of the same name, the entry is the one of the last
    of them. *)
Theorem find_requirements_last_path_wins (before after : list str)
    (addons_path m : str) :
  records fs addons_path m ->
  (forall p, In p after -> ~ records fs p m) ->
  dict_get (snd (find_requirements fs (before ++ addons_path :: after))) m
  = Some (module_details fs addons_path m).
Proof.
  intros Hrec Hlater.
  assert (Hrun : snd (find_requirements fs (before ++ addons_path :: after))
                 = snd (scan_addons_paths fs (before ++ addons_path :: after) [])).
  { unfold find_requirements.
    destruct (before ++ addons_path :: after) eqn:E; [|reflexivity].
    destruct before; discriminate. }
  rewrite Hrun, scan_addons_paths_app. simpl.
  destruct (scan_addons_path fs addons_path _) as [l d1] eqn:Hp.
  destruct (scan_addons_paths fs after d1) as [l' d2] eqn:Hrest.
  simpl. change d2 with (snd (l', d2)). rewrite <- Hrest.
  rewrite scan_addons_paths_passes by exact Hlater.
  change d1 with (snd (l, d1)). rewrite <- Hp.
  now apply scan_addons_path_records.
Qed.

(** *** Addons paths that cannot be listed *)

Lemma scan_addons_path_unreadable (addons_path : str) (d : dict details) :
  unreadable fs addons_path ->
  snd (scan_addons_path fs addons_path d) = d
  /\ exists lvl message,
       (forall d', fst (scan_addons_path fs addons_path d') = [(lvl, message)])
       /\ lvl <> Info.
Proof.
  unfold scan_addons_path. intros [Hdir|[e Hls]].
  - rewrite Hdir. simpl. split; [reflexivity|].
    eexists; eexists; split; [reflexivity | discriminate].
  - destruct (isdir fs addons_path); simpl.
    + rewrite Hls. split; [reflexivity|].
      eexists; eexists; split; [reflexivity | discriminate].
    + split; [reflexivity|].
      eexists; eexists; split; [reflexivity | discriminate].
Qed.

(** X13.  An addons path that is not a directory, or whose listing fails, is
    passed over: the requirements found are those of a scan without it, and
    the scan logs one diagnostic for it, a warning or an error. *)
Theorem unreadable_addons_path_is_skipped (before after : list str)
    (addons_path : str) :
  unreadable fs addons_path ->
  snd (find_requirements fs (before ++ addons_path :: after))
  = snd (find_requirements fs (before ++ after))
  /\ exists lvl message,
       lvl <> Info
       /\ fst (scan_addons_path fs addons_path []) = [(lvl, message)]
       /\ In (lvl, message)
             (fst (find_requirements fs (before ++ addons_path :: after))).
Proof.
  intros Hbad.
  assert (Hrun : forall paths,
             snd (find_requirements fs paths) = snd (scan_addons_paths fs paths [])).
  { intros [|p ps]; reflexivity. }
  split.
  - rewrite !Hrun, !scan_addons_paths_app. simpl.
    destruct (scan_addons_path_unreadable addons_path
                (snd (scan_addons_paths fs before [])) Hbad) as [Hd _].
    destruct (scan_addons_path fs addons_path _) as [l d1]. simpl in Hd. subst d1.
    destruct (scan_addons_paths fs after _) as [l' d2]. reflexivity.
  - destruct (scan_addons_path_unreadable addons_path [] Hbad)
      as [_ [lvl [message [Hlog Hlvl]]]].
    exists lvl, message. split; [exact Hlvl|]. split; [apply Hlog|].
    unfold find_requirements.
    destruct (before ++ addons_path :: after) eqn:E;
      [destruct before; discriminate|].
    rewrite <- E.
    apply (scan_addons_paths_log fs addons_path).
    + apply in_or_app. right. now left.
    + intros d. rewrite Hlog. now left.
Qed.

End ScanMore.

(* ================================================================== *)
(** * A requirements file that cannot be read to its end *)
(* ================================================================== *)

Section MalformedFile.
Import Py AddonRequirementsChecker.

Variable fs : filesystem.

(** When only [addons_path] records [m], the entry of [m] is the one of
    [addons_path], wherever the path stands among the paths and however
    often. *)
Lemma scan_addons_paths_only (addons_path m : str) (paths : list str) :
  records fs addons_path m ->
  no_other_path_records fs paths addons_path m ->
  In addons_path paths ->
  forall d,
    dict_get (snd (scan_addons_paths fs paths d)) m
    = Some (module_details fs addons_path m).
Proof.
  intros Hrec. induction paths as [|p ps IH]; intros Hno Hin d; [destruct Hin|].
  simpl. destruct (scan_addons_path fs p d) as [l d1] eqn:Hp.
  destruct (scan_addons_paths fs ps d1) as [l' d2] eqn:Hrest.
  simpl. change d2 with (snd (l', d2)). rewrite <- Hrest.
  destruct (in_dec str_eq_dec addons_path ps) as [Hlater|Hlast].
  - apply IH; [|exact Hlater]. intros q Hq. apply Hno. now right.
  - destruct Hin as [->|Hin]; [|contradiction].
    rewrite scan_addons_paths_passes.
    + change d1 with (snd (l, d1)). rewrite <- Hp.
      now apply scan_addons_path_records.
    + intros q Hq. apply Hno; [now right|]. intros ->. contradiction.
Qed.

(** C6, as the code has it.  When the requirements file of a module that
    the scan reaches cannot be opened, or fails while it is read, then an
    error is logged for it and the parser returns the requirement lines
    that were read before the failure, which are none when the file could
    not be opened.  When no other addons path holds a module of that name
    with requirements, the result of the scan has no entry for the module
    if the parser returned no line, and otherwise the entry with the lines
    that were read.  The entry of every other module is the one of a scan
    in which the module does not exist. *)
Theorem malformed_requirements_file_is_confined
    (addons_paths : list str) (addons_path : str) (names : list str)
    (bad : str) (e : exn) (lines : list str) :
  let module_path := path_join addons_path bad in
  let file_path := path_join module_path (lit "requirements.txt") in
  In addons_path addons_paths ->
  isdir fs addons_path = true ->
  listdir fs addons_path = Ok names ->
  In bad names ->
  isdir fs module_path = true ->
  exists_ fs (path_join module_path (lit "__manifest__.py")) = true ->
  exists_ fs file_path = true ->
  (open_utf8 fs file_path = OpenFails e /\ lines = []
   \/ open_utf8 fs file_path = Yields lines (Some e)) ->
  In (Error, reading_error file_path e) (fst (find_requirements fs addons_paths))
  /\ _parse_requirements_file fs file_path
     = ([(Error, reading_error file_path e)], requirement_lines lines)
  /\ (requirement_lines lines = [] ->
      no_other_path_records fs addons_paths addons_path bad ->
      dict_get (snd (find_requirements fs addons_paths)) bad = None)
  /\ (requirement_lines lines <> [] ->
      no_other_path_records fs addons_paths addons_path bad ->
      dict_get (snd (find_requirements fs addons_paths)) bad
      = Some {| path := module_path; requirements_file := file_path;
                packages := requirement_lines lines |})
  /\ (forall m, m <> bad ->
        dict_get (snd (find_requirements fs addons_paths)) m
        = dict_get (snd (find_requirements (without_module bad fs) addons_paths)) m).
Proof.
  intros module_path file_path Hpath Hdir Hls Hbad Hmdir Hman Hreq Hopen.
  pose proof (parse_of_malformed_file fs file_path e lines Hopen) as Hparse.
  assert (Hdetails : module_details fs addons_path bad
                     = {| path := module_path; requirements_file := file_path;
                          packages := requirement_lines lines |}).
  { unfold module_details. cbv zeta. fold module_path. fold file_path.
    now rewrite Hparse. }
  assert (Hq : has_requirements fs addons_path bad
               = match requirement_lines lines with [] => false | _ => true end).
  { unfold has_requirements. cbv zeta. rewrite Hdetails.
    fold module_path. fold file_path. rewrite Hmdir, Hman, Hreq. reflexivity. }
  assert (Hrun : snd (find_requirements fs addons_paths)
                 = snd (scan_addons_paths fs addons_paths [])).
  { destruct addons_paths; [destruct Hpath | reflexivity]. }
  split; [|split; [exact Hparse|split; [|split]]].
  - unfold find_requirements. destruct addons_paths as [|p ps]; [destruct Hpath|].
    apply (scan_addons_paths_log fs addons_path); [exact Hpath|].
    intros d.
    apply (scan_addons_path_log fs addons_path d [] names bad); try assumption.
    unfold scan_module. fold module_path. rewrite Hmdir, Hman.
    simpl andb. cbv iota. fold file_path. rewrite Hreq, Hparse.
    destruct (requirement_lines lines); left; reflexivity.
  - intros Hnone Hno. rewrite Hrun, scan_addons_paths_passes; [reflexivity|].
    intros p Hp Hrec. destruct (str_eq_dec p addons_path) as [->|Hne].
    + destruct Hrec as [_ [names' [_ [_ Hyes]]]].
      rewrite Hq, Hnone in Hyes. discriminate.
    + exact (Hno p Hp Hne Hrec).
  - intros Hsome Hno. rewrite Hrun, <- Hdetails.
    apply scan_addons_paths_only; [|exact Hno | exact Hpath].
    split; [exact Hdir|]. exists names. split; [exact Hls|]. split; [exact Hbad|].
    rewrite Hq. destruct (requirement_lines lines); [contradiction | reflexivity].
  - intros m Hne. now apply find_requirements_without.
Qed.

End MalformedFile.

Section MalformedFileExamples.
Import Py AddonRequirementsChecker Scenario Cases.

(** C6, as it is stated, fails on a requirements file whose first block
    decodes and whose third one does not: the error is logged, but the
    package list of the module is not empty, it holds the 1820 lines that
    were read, and the module is recorded with them. *)
Lemma partly_read_file_keeps_its_lines :
  open_utf8 (two_modules_fs late_failure) (requirements_of (lit "billing"))
  = Yields (repeat (line "requests") 1820) (Some (decode_error 1616))
  /\ snd (_parse_requirements_file (two_modules_fs late_failure)
            (requirements_of (lit "billing")))
     = repeat (lit "requests") 1820
  /\ snd (_parse_requirements_file (two_modules_fs late_failure)
            (requirements_of (lit "billing"))) <> []
  /\ option_map packages
       (dict_get (snd (find_requirements (two_modules_fs late_failure) [addons]))
          (lit "billing"))
     = Some (repeat (lit "requests") 1820).
Proof.
  assert (H : snd (_parse_requirements_file (two_modules_fs late_failure)
                     (requirements_of (lit "billing")))
              = repeat (lit "requests") 1820) by (vm_compute; reflexivity).
  split; [vm_compute; reflexivity|]. split; [exact H|]. split.
  - rewrite H. discriminate.
  - vm_compute. reflexivity.
Qed.

(** The module [stock] of the other addons path is not [billing]. *)
Lemma billing_is_in_one_path (billing : text_file) :
  no_other_path_records (three_modules_fs billing) [addons; custom_addons]
    addons (lit "billing").
Proof.
  intros p [<-|[<-|[]]] Hne; [congruence|].
  intros [_ [names [Hls [Hin _]]]].
  vm_compute in Hls. injection Hls as <-.
  destruct Hin as [H|[]]. discriminate.
Qed.

Lemma malformed_requirements_file_is_confined_witness :
  let fs := three_modules_fs early_failure in
  let fs' := three_modules_fs late_failure in
  let addons_paths := [addons; custom_addons] in
  In (Error, reading_error (requirements_of (lit "billing")) (decode_error 0))
     (fst (find_requirements fs addons_paths))
  /\ snd (_parse_requirements_file fs (requirements_of (lit "billing"))) = []
  /\ dict_get (snd (find_requirements fs addons_paths)) (lit "billing") = None
  /\ option_map packages
       (dict_get (snd (find_requirements fs addons_paths)) (lit "shipping"))
     = Some [lit "requests==2.31.0"]
  /\ option_map packages
       (dict_get (snd (find_requirements fs addons_paths)) (lit "stock"))
     = Some [lit "lxml"]
  /\ dict_get (snd (find_requirements fs' addons_paths)) (lit "billing")
     = Some {| path := module_dir (lit "billing");
               requirements_file := requirements_of (lit "billing");
               packages := repeat (lit "requests") 1820 |}.
Proof.
  intros fs fs' addons_paths.
  destruct (@malformed_requirements_file_is_confined
              fs addons_paths addons
              [lit "billing"; lit "shipping"] (lit "billing") (decode_error 0) [])
    as [Hlog [Hparse [Hnone [_ Hothers]]]];
    try reflexivity; [left; reflexivity | left; reflexivity | right; reflexivity|].
  destruct (@malformed_requirements_file_is_confined
              fs' addons_paths addons
              [lit "billing"; lit "shipping"] (lit "billing") (decode_error 1616)
              (repeat (line "requests") 1820))
    as [_ [_ [_ [Hsome _]]]];
    try reflexivity; [left; reflexivity | left; reflexivity | right; reflexivity|].
  assert (Hlines : requirement_lines (repeat (line "requests") 1820)
                   = repeat (lit "requests") 1820) by (vm_compute; reflexivity).
  rewrite Hlines in Hsome.
  split; [exact Hlog|]. split.
  { unfold requirements_of, module_dir. now rewrite Hparse. }
  split; [apply Hnone; [reflexivity | apply billing_is_in_one_path]|].
  split; [rewrite Hothers by discriminate; vm_compute; reflexivity|].
  split; [rewrite Hothers by discriminate; vm_compute; reflexivity|].
  apply Hsome; [vm_compute; discriminate | apply billing_is_in_one_path].
Defined.

(** Why the other addons paths matter: the result is keyed by the name of
    the module, so a module whose requirements file yields nothing still
    has an entry when an earlier addons path holds a module of the same
    name. *)
Example same_name_in_an_earlier_path :
  snd (_parse_requirements_file billing_malformed_in_second_fs
         (path_join (path_join custom_addons (lit "billing"))
                    (lit "requirements.txt"))) = []
  /\ option_map packages
       (dict_get (snd (find_requirements billing_malformed_in_second_fs
                         [addons; custom_addons]))
          (lit "billing"))
     = Some [lit "requests"].
Proof. split; vm_compute; reflexivity. Qed.

End MalformedFileExamples.

Section SplitFacts.
Import Py.
Local Open Scope N_scope.

Lemma startswith_nil (s : str) : startswith s [] = true.
Proof. destruct s; reflexivity. Qed.

Lemma split_go_cons (sep cur : str) (x : codepoint) (s : str) :
  split_go sep 0 cur (x :: s)
  = if startswith (x :: s) sep
    then rev cur :: split_go sep (List.length sep - 1) [] s
    else split_go sep 0 (x :: cur) s.
Proof. reflexivity. Qed.

Lemma split_go_nonempty (sep : str) (s : str) :
  forall skip cur, split_go sep skip cur s <> [].
Proof.
  induction s as [|x s IH]; intros skip cur; [discriminate|].
  destruct skip as [|k]; [|apply IH].
  rewrite split_go_cons. destruct (startswith (x :: s) sep);
    [discriminate | apply IH].
Qed.

Lemma split_go_cur (sep : str) (s : str) :
  forall cur,
    split_go sep 0 cur s
    = match split_go sep 0 [] s with
      | [] => []
      | h :: t => (rev cur ++ h) :: t
      end.
Proof.
  induction s as [|x s IH]; intros cur.
  - simpl. now rewrite app_nil_r.
  - rewrite !split_go_cons. destruct (startswith (x :: s) sep).
    + simpl. now rewrite app_nil_r.
    + rewrite (IH (x :: cur)), (IH [x]).
      destruct (split_go sep 0 [] s) as [|h t]; [reflexivity|].
      simpl. now rewrite <- app_assoc.
Qed.

Lemma split_hd_nil (sep : str) : hd [] (split sep []) = [].
Proof. reflexivity. Qed.

Lemma split_hd_hit (sep : str) (x : codepoint) (s : str) :
  startswith (x :: s) sep = true -> hd [] (split sep (x :: s)) = [].
Proof. unfold split. rewrite split_go_cons. now intros ->. Qed.

Lemma split_hd_miss (sep : str) (x : codepoint) (s : str) :
  startswith (x :: s) sep = false ->
  hd [] (split sep (x :: s)) = x :: hd [] (split sep s).
Proof.
  unfold split. rewrite split_go_cons. intros ->. rewrite split_go_cur.
  destruct (split_go sep 0 [] s) as [|h t] eqn:E; [|reflexivity].
  now apply split_go_nonempty in E.
Qed.

Lemma split_hd_prefix (sep s : str) : exists r, s = hd [] (split sep s) ++ r.
Proof.
  induction s as [|x s [r IH]]; [exists []; reflexivity|].
  destruct (startswith (x :: s) sep) eqn:E.
  - rewrite split_hd_hit by exact E. exists (x :: s). reflexivity.
  - rewrite split_hd_miss by exact E. exists r. simpl. now rewrite <- IH.
Qed.

Lemma startswith_app (p t : str) : startswith (p ++ t) p = true.
Proof.
  induction p as [|x p IH]; [destruct t; reflexivity|].
  simpl. now rewrite N.eqb_refl, IH.
Qed.

Lemma startswith_head (c0 x : codepoint) (sep s : str) :
  x <> c0 -> startswith (x :: s) (c0 :: sep) = false.
Proof.
  intros Hne. simpl. apply N.eqb_neq in Hne.
  rewrite N.eqb_sym, Hne. reflexivity.
Qed.

(** A separator cannot begin inside a piece that lacks its first
    character. *)
Lemma split_hd_app (c0 : codepoint) (sep name t : str) :
  ~ In c0 name ->
  hd [] (split (c0 :: sep) (name ++ t)) = name ++ hd [] (split (c0 :: sep) t).
Proof.
  induction name as [|x name IH]; intros Hno; [reflexivity|].
  simpl app. rewrite split_hd_miss.
  - rewrite IH; [reflexivity|]. intros H. apply Hno. now right.
  - apply startswith_head. intros ->. apply Hno. now left.
Qed.

Lemma split_hd_absent (c0 : codepoint) (sep name : str) :
  ~ In c0 name -> hd [] (split (c0 :: sep) name) = name.
Proof.
  intros Hno. rewrite <- (app_nil_r name) at 1.
  rewrite split_hd_app by exact Hno. simpl. apply app_nil_r.
Qed.

Lemma split_hd_at_sep (c0 : codepoint) (sep t : str) :
  hd [] (split (c0 :: sep) ((c0 :: sep) ++ t)) = [].
Proof.
  simpl app. apply split_hd_hit.
  change (c0 :: sep ++ t) with ((c0 :: sep) ++ t). apply startswith_app.
Qed.

(** The first piece of a split at one character does not hold it. *)
Lemma split_hd_single (c : codepoint) (s : str) :
  ~ In c (hd [] (split [c] s)).
Proof.
  induction s as [|x s IH]; [intros []|].
  destruct (startswith (x :: s) [c]) eqn:E.
  - rewrite split_hd_hit by exact E. intros [].
  - rewrite split_hd_miss by exact E. intros [H|H]; [|now apply IH].
    subst x. simpl in E. rewrite N.eqb_refl, startswith_nil in E. discriminate.
Qed.

(** The pieces of a split at one character do not hold it. *)
Lemma split_go_single (c : codepoint) (s : str) :
  forall cur,
    ~ In c cur -> Forall (fun piece => ~ In c piece) (split_go [c] 0 cur s).
Proof.
  induction s as [|x s IH]; intros cur Hcur.
  - simpl. constructor; [|constructor]. now rewrite <- in_rev.
  - rewrite split_go_cons. simpl startswith. rewrite startswith_nil.
    destruct (c =? x) eqn:E; simpl.
    + constructor; [now rewrite <- in_rev|]. apply IH. intros [].
    + apply IH. intros [H|H]; [|contradiction].
      subst x. now rewrite N.eqb_refl in E.
Qed.

End SplitFacts.

Section AddonsPathsFacts.
Import Py AddonRequirementsChecker.
Local Open Scope N_scope.

(** X10.  The paths that [_get_addons_paths] takes from the setting: with no
    setting there is none, and a warning is logged; otherwise each path is
    not empty, has no white space around it and holds no comma, and nothing
    is logged. *)
Theorem addons_paths_are_clean (paths_str : str) :
  (paths_str = [] ->
   _get_addons_paths paths_str
   = ([(Warning, lit "Addons path not configured in odoo.conf.")], []))
  /\ (paths_str <> [] -> fst (_get_addons_paths paths_str) = [])
  /\ forall p, In p (snd (_get_addons_paths paths_str)) ->
       p <> [] /\ strip p = p /\ ~ In 44 p.
Proof.
  split; [intros ->; reflexivity|].
  split; [destruct paths_str; [contradiction | reflexivity]|].
  intros p. destruct paths_str as [|c s]; [intros []|].
  unfold _get_addons_paths. cbv iota. cbn [snd].
  rewrite in_map_iff. intros [q [<- Hq]].
  apply filter_In in Hq as [Hq Hne].
  split; [destruct (strip q); [discriminate | discriminate]|].
  split; [apply strip_idem|].
  intros Hcomma.
  pose proof (split_go_single 44 (c :: s) [] (fun H => H)) as Hall.
  rewrite Forall_forall in Hall. apply (Hall q Hq).
  destruct (strip_inside q) as [a [b Hab]]. rewrite Hab.
  apply in_or_app. right. apply in_or_app. now left.
Qed.

End AddonsPathsFacts.

Section NameOnlyFacts.
Import Py AddonRequirementsChecker.
Local Open Scope N_scope.

Lemma not_in_prefix (c : codepoint) (s p r : str) :
  s = p ++ r -> ~ In c s -> ~ In c p.
Proof. intros -> H Hp. apply H. apply in_or_app. now left. Qed.

Lemma not_in_strip (c : codepoint) (s : str) : ~ In c s -> ~ In c (strip s).
Proof.
  intros H Hs. apply H. destruct (strip_inside s) as [a [b Hab]].
  rewrite Hab. apply in_or_app. right. apply in_or_app. now left.
Qed.

Local Abbreviation cut sep s := (hd [] (split sep s)).

Lemma name_only_unfold (s : str) :
  name_only s
  = strip (cut [60] (cut [62] (cut [126; 61] (cut [33; 61] (cut [60; 61]
      (cut [62; 61] (cut [61; 61] s))))))).
Proof. reflexivity. Qed.

Section Named.

Variable name : str.
Hypothesis Hname : forallb (fun c => negb (is_operator_char c)) name = true.

Lemma name_lacks (c : codepoint) : is_operator_char c = true -> ~ In c name.
Proof.
  intros Hc Hin. rewrite forallb_forall in Hname.
  specialize (Hname c Hin). now rewrite Hc in Hname.
Qed.

Lemma cut_name (c0 : codepoint) (sep : str) :
  is_operator_char c0 = true -> cut (c0 :: sep) name = name.
Proof. intros Hc. apply split_hd_absent. now apply name_lacks. Qed.

Lemma cut_so_far_step (c c0 : codepoint) (sep x : str) :
  is_operator_char c0 = true ->
  cut_so_far name c x -> cut_so_far name c (cut (c0 :: sep) x).
Proof.
  intros Hc [p [-> Hp]]. rewrite split_hd_app by now apply name_lacks.
  exists (cut (c0 :: sep) p). split; [reflexivity|].
  destruct (split_hd_prefix (c0 :: sep) p) as [r Hr].
  destruct (cut (c0 :: sep) p) as [|y q]; [now left|]. right.
  destruct Hp as [->|[q' ->]]; [discriminate|].
  injection Hr as <- _. now exists q.
Qed.

Lemma cut_so_far_end (c : codepoint) (x : str) :
  is_operator_char c = true -> cut_so_far name c x -> cut [c] x = name.
Proof.
  intros Hc [p [-> Hp]]. rewrite split_hd_app by now apply name_lacks.
  destruct Hp as [->|[q ->]].
  - simpl. apply app_nil_r.
  - change (c :: q) with ([c] ++ q).
    rewrite (split_hd_at_sep c [] q). apply app_nil_r.
Qed.

Lemma name_only_at_angle (c : codepoint) (t : str) :
  c = 60 \/ c = 62 -> name_only (name ++ c :: t) = strip name.
Proof.
  intros Hc. rewrite name_only_unfold. f_equal.
  assert (H0 : cut_so_far name c (name ++ c :: t)).
  { exists (c :: t). split; [reflexivity|]. right. now exists t. }
  assert (H5 : cut_so_far name c
                 (cut [126; 61] (cut [33; 61] (cut [60; 61] (cut [62; 61]
                    (cut [61; 61] (name ++ c :: t))))))).
  { repeat (apply cut_so_far_step; [reflexivity|]). exact H0. }
  destruct Hc as [->| ->].
  - apply cut_so_far_end; [reflexivity|].
    apply cut_so_far_step; [reflexivity | exact H5].
  - pose proof (cut_so_far_end 62 _ eq_refl H5) as E.
    pose proof (cut_name 60 [] eq_refl) as E'.
    unfold str, codepoint in *. now rewrite E.
Qed.

(** The same with an operator [op] that ends with [=] and starts with
    another character. *)
Lemma cut_past (c c0 : codepoint) (sep q : str) :
  is_operator_char c0 = true -> c0 <> c -> c0 <> 61 ->
  cut (c0 :: sep) (name ++ [c; 61] ++ q)
  = name ++ [c; 61] ++ cut (c0 :: sep) q.
Proof.
  intros Hc Hne Heq. rewrite !app_assoc. rewrite split_hd_app; [reflexivity|].
  intros Hin. apply in_app_or in Hin as [Hin|[H|[H|[]]]]; try congruence.
  now apply (name_lacks c0).
Qed.

Lemma cut_at (c : codepoint) (q : str) :
  is_operator_char c = true ->
  cut [c; 61] (name ++ [c; 61] ++ q) = name.
Proof.
  intros Hc. rewrite split_hd_app by now apply name_lacks.
  rewrite split_hd_at_sep. apply app_nil_r.
Qed.

Lemma cut_equals (c : codepoint) (rest : str) :
  is_operator_char c = true -> c <> 61 ->
  startswith rest [61] = false ->
  cut [61; 61] (name ++ [c; 61] ++ rest)
  = name ++ [c; 61] ++ cut [61; 61] rest.
Proof.
  intros Hc Hne Hrest.
  replace (name ++ [c; 61] ++ rest) with ((name ++ [c]) ++ 61 :: rest)
    by now rewrite <- app_assoc.
  rewrite split_hd_app.
  - rewrite split_hd_miss; [now rewrite <- app_assoc|].
    destruct rest as [|y rest]; [reflexivity|].
    simpl in Hrest |- *. exact Hrest.
  - intros Hin. apply in_app_or in Hin as [Hin|[H|[]]]; [|congruence].
    now apply (name_lacks 61).
Qed.

End Named.

Ltac rw H :=
  let E := fresh "E" in
  pose proof H as E; unfold str, codepoint in E |- *; rewrite E; clear E.

Ltac rest_of_cuts name Hname :=
  try rw (cut_name name Hname 62 [61] eq_refl);
  try rw (cut_name name Hname 60 [61] eq_refl);
  try rw (cut_name name Hname 33 [61] eq_refl);
  try rw (cut_name name Hname 126 [61] eq_refl);
  try rw (cut_name name Hname 62 [] eq_refl);
  try rw (cut_name name Hname 60 [] eq_refl);
  reflexivity.

Lemma name_only_cuts_at_operator (name op rest : str) :
  forallb (fun c => negb (is_operator_char c)) name = true ->
  In op COMPARISON_OPERATORS ->
  (op = lit "!=" \/ op = lit "~=" -> startswith rest (lit "=") = false) ->
  name_only (name ++ op ++ rest) = strip name.
Proof.
  intros Hname Hop Hrest.
  assert (Hne33 : (33 : codepoint) <> 61) by discriminate.
  assert (Hne126 : (126 : codepoint) <> 61) by discriminate.
  unfold COMPARISON_OPERATORS in Hop. simpl in Hop.
  destruct Hop as [<-|[<-|[<-|[<-|[<-|[<-|[<-|[]]]]]]]].
  - (* == *)
    rewrite name_only_unfold. f_equal.
    change (lit "==") with [61; 61].
    rw (cut_at name Hname 61 rest eq_refl).
    rest_of_cuts name Hname.
  - apply (name_only_at_angle name Hname 62 (61 :: rest)). now right.
  - apply (name_only_at_angle name Hname 60 (61 :: rest)). now left.
  - (* != *)
    rewrite name_only_unfold. f_equal.
    change (lit "!=") with [33; 61] in *.
    rw (cut_equals name Hname 33 rest eq_refl Hne33 (Hrest (or_introl eq_refl))).
    rw (cut_past name Hname 33 62 [61] (cut [61; 61] rest) eq_refl
          ltac:(discriminate) ltac:(discriminate)).
    rw (cut_past name Hname 33 60 [61] (cut [62; 61] (cut [61; 61] rest)) eq_refl
          ltac:(discriminate) ltac:(discriminate)).
    rw (cut_at name Hname 33 (cut [60; 61] (cut [62; 61] (cut [61; 61] rest)))
          eq_refl).
    rest_of_cuts name Hname.
  - (* ~= *)
    rewrite name_only_unfold. f_equal.
    change (lit "~=") with [126; 61] in *.
    rw (cut_equals name Hname 126 rest eq_refl Hne126 (Hrest (or_intror eq_refl))).
    rw (cut_past name Hname 126 62 [61] (cut [61; 61] rest) eq_refl
          ltac:(discriminate) ltac:(discriminate)).
    rw (cut_past name Hname 126 60 [61] (cut [62; 61] (cut [61; 61] rest)) eq_refl
          ltac:(discriminate) ltac:(discriminate)).
    rw (cut_past name Hname 126 33 [61]
          (cut [60; 61] (cut [62; 61] (cut [61; 61] rest))) eq_refl
          ltac:(discriminate) ltac:(discriminate)).
    rw (cut_at name Hname 126
          (cut [33; 61] (cut [60; 61] (cut [62; 61] (cut [61; 61] rest)))) eq_refl).
    rest_of_cuts name Hname.
  - apply (name_only_at_angle name Hname 62 rest). now right.
  - apply (name_only_at_angle name Hname 60 rest). now left.
Qed.

(** X15.  For a requirement that is a name, one of the comparison operators and
    a version, the name taken is the name without the white space around
    it, whatever follows the operator; after [!=] and [~=] a further [=]
    is excepted.  What stands before the operator is kept as it is, so
    that extras in brackets stay part of the name. *)
Theorem name_only_of_versioned_requirement (name op rest : str) :
  forallb (fun c => negb (is_operator_char c)) name = true ->
  In op COMPARISON_OPERATORS ->
  (op = lit "!=" \/ op = lit "~=" -> startswith rest (lit "=") = false) ->
  name_only (name ++ op ++ rest) = strip name.
Proof. apply name_only_cuts_at_operator. Qed.

(** A requirement that holds no operator character is a bare name: the
    name taken is the requirement without the white space around it. *)
Lemma name_only_of_bare_name (name : str) :
  forallb (fun c => negb (is_operator_char c)) name = true ->
  name_only name = strip name.
Proof.
  intros Hname. rewrite name_only_unfold. f_equal.
  rw (cut_name name Hname 61 [61] eq_refl).
  rest_of_cuts name Hname.
Qed.

(** X14.  The name that [name_only] takes from a requirement is cut from its
    start, holds neither [<] nor [>] and has no white space around it; of
    a requirement without any operator character it is the whole
    requirement, without the white space around it. *)
Theorem name_only_is_a_stripped_prefix (package_spec : str) :
  (exists pre rest,
     package_spec = pre ++ rest /\ name_only package_spec = strip pre)
  /\ ~ In 60 (name_only package_spec)
  /\ ~ In 62 (name_only package_spec)
  /\ strip (name_only package_spec) = name_only package_spec
  /\ (forallb (fun c => negb (is_operator_char c)) package_spec = true ->
      name_only package_spec = strip package_spec).
Proof.
  assert (Hbare : forallb (fun c => negb (is_operator_char c)) package_spec = true ->
                  name_only package_spec = strip package_spec)
    by apply name_only_of_bare_name.
  revert Hbare. rewrite name_only_unfold. intros Hbare.
  set (x1 := cut [61; 61] package_spec).
  set (x2 := cut [62; 61] x1). set (x3 := cut [60; 61] x2).
  set (x4 := cut [33; 61] x3). set (x5 := cut [126; 61] x4).
  set (x6 := cut [62] x5). set (x7 := cut [60] x6).
  destruct (split_hd_prefix [61; 61] package_spec) as [r1 H1].
  destruct (split_hd_prefix [62; 61] x1) as [r2 H2].
  destruct (split_hd_prefix [60; 61] x2) as [r3 H3].
  destruct (split_hd_prefix [33; 61] x3) as [r4 H4].
  destruct (split_hd_prefix [126; 61] x4) as [r5 H5].
  destruct (split_hd_prefix [62] x5) as [r6 H6].
  destruct (split_hd_prefix [60] x6) as [r7 H7].
  fold x1 in H1. fold x2 in H2. fold x3 in H3. fold x4 in H4. fold x5 in H5.
  fold x6 in H6. fold x7 in H7.
  split; [|split; [|split; [|split]]]; [| | | |exact Hbare].
  - exists x7, (r7 ++ r6 ++ r5 ++ r4 ++ r3 ++ r2 ++ r1). split; [|reflexivity].
    rewrite H1 at 1. rewrite H2 at 1. rewrite H3 at 1. rewrite H4 at 1.
    rewrite H5 at 1. rewrite H6 at 1. rewrite H7 at 1.
    now rewrite <- !app_assoc.
  - apply not_in_strip. apply split_hd_single.
  - apply not_in_strip. apply (not_in_prefix 62 x6 x7 r7 H7).
    apply split_hd_single.
  - apply strip_idem.
Qed.

End NameOnlyFacts.

Section AnalysisFacts.
Import Py AddonRequirementsChecker.

Variable imp : imports.
Variable importlib_metadata_distribution : str -> result str.
Variable pkg_resources_get_distribution : str -> result str.
Variables Version SpecifierSet : Type.
Variable Requirement : str -> result (str * SpecifierSet).
Variable canonicalize_name : str -> str.
Variable parse_version : str -> result Version.
Variable specifier_nonempty : SpecifierSet -> bool.
Variable version_in : Version -> SpecifierSet -> bool.
Variable str_of_version : Version -> str.
Variable str_of_specifier : SpecifierSet -> str.

Local Abbreviation check_spec :=
  (_check_package_installed imp importlib_metadata_distribution
     pkg_resources_get_distribution Requirement canonicalize_name parse_version
     specifier_nonempty version_in str_of_version str_of_specifier).
Local Abbreviation check_packages :=
  (check_packages imp importlib_metadata_distribution
     pkg_resources_get_distribution Requirement canonicalize_name parse_version
     specifier_nonempty version_in str_of_version str_of_specifier).
Local Abbreviation check_modules :=
  (check_modules imp importlib_metadata_distribution
     pkg_resources_get_distribution Requirement canonicalize_name parse_version
     specifier_nonempty version_in str_of_version str_of_specifier).
Local Abbreviation analyze_dependencies :=
  (analyze_dependencies imp importlib_metadata_distribution
     pkg_resources_get_distribution Requirement canonicalize_name parse_version
     specifier_nonempty version_in str_of_version str_of_specifier).
Local Abbreviation lookup :=
  (installed_version imp importlib_metadata_distribution
     pkg_resources_get_distribution).
Local Abbreviation check_of := (fun spec => snd (check_spec spec)).

Lemma record_check_buckets (module_name spec : str) (c : check) (a : analysis) :
  check_of spec = Ok c ->
  buckets_are (record_check module_name spec c a)
    (satisfied a ++ classified check_of Satisfied [(module_name, spec)])
    (to_install a ++ classified check_of ToInstall [(module_name, spec)])
    (errors a ++ classified check_of CheckFailed [(module_name, spec)]).
Proof.
  intros Hc. unfold classified, buckets_are. simpl flat_map.
  cbv beta in Hc. cbn [fst snd]. rewrite Hc.
  destruct c as [[is_installed status_msg] req]. unfold record_check, bucket_of.
  cbn [fst snd].
  destruct is_installed; simpl; rewrite ?app_nil_r; [auto|].
  destruct (contains (lit "Not installed") status_msg
            || contains (lit "Version conflict") status_msg);
    simpl; rewrite ?app_nil_r; auto.
Qed.

Lemma classified_app (b : bucket) (x y : list (str * str)) :
  classified check_of b (x ++ y)
  = classified check_of b x ++ classified check_of b y.
Proof. unfold classified. apply flat_map_app. Qed.

Lemma check_packages_buckets (module_name : str) (specs : list str) :
  forall a l a',
    check_packages module_name specs a = (l, Ok a') ->
    buckets_are a'
      (satisfied a ++ classified check_of Satisfied (map (pair module_name) specs))
      (to_install a ++ classified check_of ToInstall (map (pair module_name) specs))
      (errors a ++ classified check_of CheckFailed (map (pair module_name) specs))
    /\ Forall (fun spec => exists c, check_of spec = Ok c) specs.
Proof.
  induction specs as [|spec rest IH]; intros a l a' Hrun.
  - simpl in Hrun. injection Hrun as _ <-. unfold buckets_are. simpl.
    rewrite !app_nil_r. auto.
  - simpl in Hrun.
    destruct (check_spec spec) as [l1 [c|e]] eqn:Hc; [|discriminate].
    destruct (check_packages module_name rest (record_check module_name spec c a))
      as [l2 r] eqn:Hrest.
    injection Hrun as _ ->.
    destruct (IH _ _ _ Hrest) as [[Hs [Hi He]] Hall].
    assert (Hc' : check_of spec = Ok c) by (cbv beta; now rewrite Hc).
    destruct (record_check_buckets module_name spec c a Hc') as [Hs1 [Hi1 He1]].
    split.
    + unfold buckets_are. rewrite Hs, Hi, He, Hs1, Hi1, He1.
      change (map (pair module_name) (spec :: rest))
        with ([(module_name, spec)] ++ map (pair module_name) rest).
      rewrite !classified_app, !app_assoc. auto.
    + constructor; [now exists c | exact Hall].
Qed.

Lemma check_modules_cons (module_name : str) (d : details)
    (rest : dict details) (a : analysis) :
  check_modules ((module_name, d) :: rest) a
  = match packages d with
    | [] =>
        check_modules rest
          (add_summary (lit "  - No packages listed in its requirements.txt.")
             (add_summary (lit "Module: '" ++ module_name ++ lit "'") a))
    | spec :: specs =>
        match check_packages module_name (spec :: specs)
                (add_summary (lit "Module: '" ++ module_name ++ lit "'") a) with
        | (l, Raise e) => (l, Raise e)
        | (l, Ok a') =>
            let '(l', r) := check_modules rest (add_summary [] a') in
            (l ++ l', r)
        end
    end.
Proof. reflexivity. Qed.

Lemma check_modules_buckets (modules : dict details) :
  forall a l a',
    check_modules modules a = (l, Ok a') ->
    buckets_are a'
      (satisfied a ++ classified check_of Satisfied (requirements_found modules))
      (to_install a ++ classified check_of ToInstall (requirements_found modules))
      (errors a ++ classified check_of CheckFailed (requirements_found modules))
    /\ Forall (fun r => exists c, check_of (snd r) = Ok c)
              (requirements_found modules).
Proof.
  induction modules as [|[module_name d] rest IH]; intros a l a' Hrun.
  - simpl in Hrun. injection Hrun as _ <-. unfold buckets_are. simpl.
    rewrite !app_nil_r. auto.
  - rewrite check_modules_cons in Hrun.
    unfold requirements_found. simpl flat_map. cbn [fst snd].
    fold (requirements_found rest).
    destruct (packages d) as [|spec specs] eqn:Hp.
    + destruct (IH _ _ _ Hrun) as [[Hs [Hi He]] Hall].
      unfold add_summary in Hs, Hi, He.
      cbn [satisfied to_install errors] in Hs, Hi, He.
      simpl app. split; [split; [|split]; assumption | exact Hall].
    + destruct (check_packages module_name (spec :: specs) _)
        as [l1 [a1|e]] eqn:Hc; [|discriminate].
      destruct (check_modules rest (add_summary [] a1)) as [l2 r] eqn:Hrest.
      injection Hrun as _ ->.
      destruct (IH _ _ _ Hrest) as [[Hs [Hi He]] Hall].
      destruct (check_packages_buckets _ _ _ _ _ Hc) as [[Hs1 [Hi1 He1]] Hall1].
      unfold add_summary in Hs, Hi, He, Hs1, Hi1, He1.
      cbn [satisfied to_install errors] in Hs, Hi, He, Hs1, Hi1, He1. split.
      * unfold buckets_are. rewrite Hs, Hi, He, Hs1, Hi1, He1.
        rewrite !classified_app, !app_assoc. auto.
      * apply Forall_app. split; [|exact Hall].
        rewrite Forall_forall in Hall1 |- *. intros r Hr.
        apply in_map_iff in Hr as [s [<- Hs']]. simpl. now apply Hall1.
Qed.

Lemma closing_lines_buckets (a : analysis) :
  satisfied (closing_lines a) = satisfied a
  /\ to_install (closing_lines a) = to_install a
  /\ errors (closing_lines a) = errors a.
Proof.
  destruct a as [ins sat err lines]. unfold closing_lines. cbn [to_install errors].
  destruct ins, err; simpl; auto.
Qed.

Lemma classified_total (requirements : list (str * str)) :
  Forall (fun r => exists c, check_of (snd r) = Ok c) requirements ->
  (List.length (classified check_of Satisfied requirements)
   + List.length (classified check_of ToInstall requirements)
   + List.length (classified check_of CheckFailed requirements)
   = List.length requirements)%nat.
Proof.
  induction 1 as [|r rest [c Hc] _ IH]; [reflexivity|].
  change (r :: rest) with ([r] ++ rest). rewrite !classified_app, !length_app.
  assert (H1 : (List.length (classified check_of Satisfied [r])
                + List.length (classified check_of ToInstall [r])
                + List.length (classified check_of CheckFailed [r]) = 1)%nat).
  { unfold classified. simpl flat_map. cbv beta in Hc. rewrite Hc.
    destruct (bucket_of c); reflexivity. }
  simpl List.length at 7. lia.
Qed.

Lemma analysis_buckets (fs : filesystem)
    (addons_paths : list str) (l : log) (a : analysis) :
  analyze_dependencies fs addons_paths = (l, Ok a) ->
  let requirements := requirements_found (snd (find_requirements fs addons_paths)) in
  satisfied a = classified check_of Satisfied requirements
  /\ to_install a = classified check_of ToInstall requirements
  /\ errors a = classified check_of CheckFailed requirements
  /\ (List.length (satisfied a) + List.length (to_install a)
      + List.length (errors a) = List.length requirements)%nat.
Proof.
  unfold AddonRequirementsChecker.analyze_dependencies.
  destruct (find_requirements fs addons_paths) as [l0 modules]. cbn [snd].
  destruct modules as [|m rest].
  - intros H. injection H as _ <-. simpl. auto.
  - destruct (check_modules (m :: rest) _) as [l1 [a1|e]] eqn:Hrun;
      [|discriminate].
    intros H. injection H as _ <-.
    destruct (check_modules_buckets _ _ _ _ Hrun) as [[Hs [Hi He]] Hall].
    simpl in Hs, Hi, He.
    destruct (closing_lines_buckets a1) as [Cs [Ci Ce]].
    cbv zeta. rewrite Cs, Ci, Ce, Hs, Hi, He.
    split; [reflexivity|]. split; [reflexivity|]. split; [reflexivity|].
    now apply classified_total.
Qed.

(** X19.  When the analysis returns, its three lists hold between them every
    requirement of the scan once: each list holds, in the order of the
    scan, the requirements whose check puts them there, installed ones in
    [satisfied], ones whose status holds [Not installed] or
    [Version conflict] in [to_install], the others in [errors]. *)
Theorem analysis_sorts_every_requirement (fs : filesystem)
    (addons_paths : list str) (l : log) (a : analysis) :
  analyze_dependencies fs addons_paths = (l, Ok a) ->
  let requirements := requirements_found (snd (find_requirements fs addons_paths)) in
  satisfied a = classified check_of Satisfied requirements
  /\ to_install a = classified check_of ToInstall requirements
  /\ errors a = classified check_of CheckFailed requirements
  /\ (List.length (satisfied a) + List.length (to_install a)
      + List.length (errors a) = List.length requirements)%nat.
Proof. apply analysis_buckets. Qed.

(** *** What decides the bucket of a requirement *)

Hypothesis lookup_is_bound :
  importlib_metadata_in_sys_modules imp = importlib_metadata_bound imp.

Lemma contains_prefix (needle t : str) : contains needle (needle ++ t) = true.
Proof.
  assert (H : forall hay, contains needle hay
                = startswith hay needle
                  || match hay with [] => false | _ :: hay' => contains needle hay' end)
    by (intros [|x hay]; reflexivity).
  now rewrite H, startswith_app.
Qed.

Lemma not_found_class_bound :
  not_found_class imp
  = Ok (if importlib_metadata_bound imp
        then PackageNotFoundError else DistributionNotFound).
Proof.
  unfold not_found_class, pkg_resources_bound. rewrite lookup_is_bound.
  destruct (importlib_metadata_bound imp); reflexivity.
Qed.

(** X16.  With [packaging], a requirement that [Requirement] accepts with a
    version specifier, and whose distribution is installed with a version
    that [parse_version] accepts, is satisfied exactly when that version is
    in the specifier; otherwise it is marked for installation with the two
    versions as the reason.  It is never an error of the check. *)
Theorem requirement_is_judged_by_its_version (package_spec name v : str)
    (specifier : SpecifierSet) (pv : Version) :
  PACKAGING_LIB_AVAILABLE imp = true ->
  Requirement package_spec = Ok (name, specifier) ->
  specifier_nonempty specifier = true ->
  lookup (canonicalize_name name) = Ok v ->
  parse_version v = Ok pv ->
  exists c,
    check_of package_spec = Ok c
    /\ fst (fst c) = version_in pv specifier
    /\ snd c = Some (str_of_specifier specifier)
    /\ (version_in pv specifier = true ->
        snd (fst c) = str_of_version pv /\ bucket_of c = Satisfied)
    /\ (version_in pv specifier = false ->
        snd (fst c)
        = lit "Version conflict: Installed " ++ str_of_version pv
            ++ lit ", Required " ++ str_of_specifier specifier
        /\ bucket_of c = ToInstall).
Proof.
  intros Hpack Hreq Hne Hv Hpv. cbv beta.
  unfold _check_package_installed. rewrite Hpack.
  unfold _check_package_installed_advanced. rewrite Hreq. cbv beta iota zeta.
  rewrite Hv, Hpv. unfold spec_str. rewrite Hne.
  destruct (version_in pv specifier) eqn:Hin; eexists; (split; [reflexivity|]);
    cbn [fst snd]; (split; [reflexivity|]); (split; [reflexivity|]);
    (split; [intros H | intros H]); try discriminate.
  - split; reflexivity.
  - split; [reflexivity|]. unfold bucket_of.
    change (lit "Version conflict: Installed " ++ str_of_version pv
              ++ lit ", Required " ++ str_of_specifier specifier)
      with (lit "Version conflict" ++
              (lit ": Installed " ++ str_of_version pv
                 ++ lit ", Required " ++ str_of_specifier specifier)).
    rewrite contains_prefix, orb_true_r. reflexivity.
Qed.

(** X17.  A requirement whose distribution the registry does not know is marked
    for installation with the reason [Not installed], with and without
    [packaging], whether or not [Requirement] accepts it. *)
Theorem missing_distribution_is_marked_for_installation
    (package_spec : str) (e : exn) :
  lookup (looked_up imp Requirement canonicalize_name package_spec) = Raise e ->
  exn_cls e = (if importlib_metadata_bound imp
               then PackageNotFoundError else DistributionNotFound) ->
  exists c,
    check_of package_spec = Ok c
    /\ fst c = (false, lit "Not installed")
    /\ bucket_of c = ToInstall.
Proof.
  unfold looked_up. intros Hv Hcls. cbv beta.
  assert (Heq : exn_class_eqb (exn_cls e)
                  (if importlib_metadata_bound imp
                   then PackageNotFoundError else DistributionNotFound) = true).
  { rewrite Hcls. destruct (importlib_metadata_bound imp); reflexivity. }
  unfold _check_package_installed.
  destruct (PACKAGING_LIB_AVAILABLE imp).
  - unfold _check_package_installed_advanced.
    destruct (Requirement package_spec) as [[name specifier]|e0];
      cbv beta iota zeta; rewrite Hv, not_found_class_bound, Heq;
      eexists; (split; [reflexivity|]); split; reflexivity.
  - unfold _check_package_installed_basic.
    rewrite Hv, not_found_class_bound, Heq. simpl.
    eexists; (split; [reflexivity|]); split; reflexivity.
Qed.

(** X18.  Without [packaging], and with [packaging] for a requirement that
    [Requirement] rejects, the version that a requirement asks for is not
    looked at: the distribution named before the operator is looked up, and
    the requirement is satisfied by whatever version is installed. *)
Theorem version_is_ignored_without_parsed_requirement
    (name op rest v : str) :
  forallb (fun c => negb (is_operator_char c)) name = true ->
  In op COMPARISON_OPERATORS ->
  (op = lit "!=" \/ op = lit "~=" -> startswith rest (lit "=") = false) ->
  (PACKAGING_LIB_AVAILABLE imp = false ->
   lookup (strip name) = Ok v ->
   check_of (name ++ op ++ rest) = Ok (true, v, None))
  /\ (forall e pv,
        PACKAGING_LIB_AVAILABLE imp = true ->
        Requirement (name ++ op ++ rest) = Raise e ->
        lookup (canonicalize_name (strip name)) = Ok v ->
        parse_version v = Ok pv ->
        check_of (name ++ op ++ rest) = Ok (true, str_of_version pv, None)).
Proof.
  intros Hname Hop Hrest.
  pose proof (name_only_cuts_at_operator name op rest Hname Hop Hrest)
    as Hn.
  split.
  - intros Hpack Hv. cbv beta. unfold _check_package_installed.
    rewrite Hpack. unfold _check_package_installed_basic.
    unfold str, codepoint in *. rewrite Hn, Hv. reflexivity.
  - intros e pv Hpack Hreq Hv Hpv. cbv beta. unfold _check_package_installed.
    rewrite Hpack. unfold _check_package_installed_advanced.
    unfold str, codepoint in *. rewrite Hreq. cbv beta iota zeta.
    rewrite Hn, Hv, Hpv. reflexivity.
Qed.

End AnalysisFacts.

Section AnalysisSummary.
Import Py AddonRequirementsChecker.

Variable imp : imports.
Variable importlib_metadata_distribution : str -> result str.
Variable pkg_resources_get_distribution : str -> result str.
Variables Version SpecifierSet : Type.
Variable Requirement : str -> result (str * SpecifierSet).
Variable canonicalize_name : str -> str.
Variable parse_version : str -> result Version.
Variable specifier_nonempty : SpecifierSet -> bool.
Variable version_in : Version -> SpecifierSet -> bool.
Variable str_of_version : Version -> str.
Variable str_of_specifier : SpecifierSet -> str.

Local Abbreviation check_spec :=
  (_check_package_installed imp importlib_metadata_distribution
     pkg_resources_get_distribution Requirement canonicalize_name parse_version
     specifier_nonempty version_in str_of_version str_of_specifier).
Local Abbreviation check_packages :=
  (check_packages imp importlib_metadata_distribution
     pkg_resources_get_distribution Requirement canonicalize_name parse_version
     specifier_nonempty version_in str_of_version str_of_specifier).
Local Abbreviation check_modules :=
  (check_modules imp importlib_metadata_distribution
     pkg_resources_get_distribution Requirement canonicalize_name parse_version
     specifier_nonempty version_in str_of_version str_of_specifier).
Local Abbreviation analyze_dependencies :=
  (analyze_dependencies imp importlib_metadata_distribution
     pkg_resources_get_distribution Requirement canonicalize_name parse_version
     specifier_nonempty version_in str_of_version str_of_specifier).

Local Abbreviation other_lines a :=
  (Forall (fun line => line <> NO_PACKAGES_LINE) (summary_lines a)).

Lemma add_summary_other (line : str) (a : analysis) :
  line <> NO_PACKAGES_LINE -> other_lines a -> other_lines (add_summary line a).
Proof.
  intros Hline Ha. unfold add_summary. cbn [summary_lines].
  apply Forall_app. split; [exact Ha | constructor; [exact Hline | constructor]].
Qed.

Lemma record_check_other (module_name spec : str) (c : check) (a : analysis) :
  other_lines a -> other_lines (record_check module_name spec c a).
Proof.
  intros Ha. destruct c as [[is_installed status_msg] req]. unfold record_check.
  destruct is_installed;
    [|destruct (contains (lit "Not installed") status_msg
                || contains (lit "Version conflict") status_msg)];
    cbn [summary_lines]; (apply Forall_app; split; [exact Ha|]);
    (constructor; [|constructor]); intros H; vm_compute in H; discriminate.
Qed.

Lemma check_packages_cons (module_name spec : str) (rest : list str)
    (a : analysis) :
  check_packages module_name (spec :: rest) a
  = match check_spec spec with
    | (l, Raise e) => (l, Raise e)
    | (l, Ok c) =>
        let '(l', r) :=
          check_packages module_name rest (record_check module_name spec c a) in
        (l ++ l', r)
    end.
Proof. reflexivity. Qed.

Lemma check_packages_other (module_name : str) (specs : list str) :
  forall a l a',
    check_packages module_name specs a = (l, Ok a') ->
    other_lines a -> other_lines a'.
Proof.
  induction specs as [|spec rest IH]; intros a l a' Hrun Ha.
  - simpl in Hrun. now injection Hrun as _ <-.
  - rewrite check_packages_cons in Hrun.
    destruct (check_spec spec) as [l1 [c|e]]; [|discriminate].
    destruct (check_packages module_name rest _) as [l2 r] eqn:Hrest.
    injection Hrun as _ ->.
    apply (IH _ _ _ Hrest). now apply record_check_other.
Qed.

Lemma check_modules_other (modules : dict details) :
  Forall (fun e => packages (snd e) <> []) modules ->
  forall a l a',
    check_modules modules a = (l, Ok a') ->
    other_lines a -> other_lines a'.
Proof.
  induction 1 as [|[module_name d] rest Hd _ IH]; intros a l a' Hrun Ha.
  - simpl in Hrun. now injection Hrun as _ <-.
  - rewrite check_modules_cons in Hrun. simpl in Hd.
    destruct (packages d) as [|spec specs]; [contradiction|].
    destruct (check_packages module_name (spec :: specs) _)
      as [l1 [a1|e]] eqn:Hc; [|discriminate].
    destruct (check_modules rest (add_summary [] a1)) as [l2 r] eqn:Hrest.
    injection Hrun as _ ->.
    apply (IH _ _ _ Hrest). apply add_summary_other; [discriminate|].
    apply (check_packages_other _ _ _ _ _ Hc).
    apply add_summary_other; [|exact Ha].
    intros H. vm_compute in H. discriminate.
Qed.

Lemma closing_lines_other (a : analysis) :
  other_lines a -> other_lines (closing_lines a).
Proof.
  intros Ha. destruct a as [ins sat err lines]. unfold closing_lines.
  cbn [to_install errors].
  destruct ins, err; cbn [to_install errors add_summary summary_lines] in *;
    repeat (apply Forall_app; split); try exact Ha;
    (constructor; [|constructor]); intros H; vm_compute in H; discriminate.
Qed.

(** X20.  The scan records no module without requirements, so the summary of an
    analysis never holds the line for a module whose requirements file
    lists no packages. *)
Theorem summary_never_reports_an_empty_module (fs : filesystem)
    (addons_paths : list str) (l : log) (a : analysis) (line : str) :
  analyze_dependencies fs addons_paths = (l, Ok a) ->
  In line (summary_lines a) ->
  line <> NO_PACKAGES_LINE.
Proof.
  unfold AddonRequirementsChecker.analyze_dependencies.
  destruct (find_requirements fs addons_paths) as [l0 modules] eqn:Hscan.
  assert (Hmods : Forall (fun e => packages (snd e) <> []) modules).
  { rewrite Forall_forall. intros [m d] Hin.
    assert (Hin' : In (m, d) (snd (find_requirements fs addons_paths)))
      by now rewrite Hscan.
    now destruct (find_requirements_sound fs addons_paths m d Hin')
      as [_ [Hne _]]. }
  destruct modules as [|m rest].
  - intros H. injection H as _ <-. intros [<-|[]]. discriminate.
  - destruct (check_modules (m :: rest) _) as [l1 [a1|e]] eqn:Hrun;
      [|discriminate].
    intros H. injection H as _ <-. intros Hin.
    assert (Hall : other_lines (closing_lines a1)).
    { apply closing_lines_other.
      apply (check_modules_other _ Hmods _ _ _ Hrun).
      cbn [summary_lines]. constructor; [|constructor].
      intros H. apply (f_equal (hd 0%N)) in H. discriminate. }
    rewrite Forall_forall in Hall. now apply Hall.
Qed.

End AnalysisSummary.

Section StockAnalysis.
Import Py AddonRequirementsChecker Scenario.

Variable importlib_metadata_distribution : str -> result str.
Variable pkg_resources_get_distribution : str -> result str.
Variables Version SpecifierSet : Type.
Variable Requirement : str -> result (str * SpecifierSet).
Variable canonicalize_name : str -> str.
Variable parse_version : str -> result Version.
Variable specifier_nonempty : SpecifierSet -> bool.
Variable version_in : Version -> SpecifierSet -> bool.
Variable str_of_version : Version -> str.
Variable str_of_specifier : SpecifierSet -> str.

Local Abbreviation analyze_with imp :=
  (analyze_dependencies imp importlib_metadata_distribution
     pkg_resources_get_distribution Requirement canonicalize_name parse_version
     specifier_nonempty version_in str_of_version str_of_specifier).

Lemma stock_analysis (packaging : bool) (fs : filesystem)
    (addons_paths : list str) :
  snd (analyze_with (stock_imports packaging) fs addons_paths)
  = match snd (find_requirements fs addons_paths) with
    | [] =>
        Ok {| to_install := []; satisfied := []; errors := [];
              summary_lines :=
                [lit "No 'requirements.txt' files found in any scanned addon modules."] |}
    | _ :: _ => Raise (name_error "pkg_resources")
    end.
Proof.
  unfold AddonRequirementsChecker.analyze_dependencies.
  destruct (find_requirements fs addons_paths) as [l0 modules] eqn:Hscan.
  cbn [snd]. destruct modules as [|[m d] rest]; [reflexivity|].
  assert (Hin : In (m, d) (snd (find_requirements fs addons_paths)))
    by (rewrite Hscan; now left).
  destruct (find_requirements_sound fs addons_paths m d Hin) as [_ [Hne _]].
  rewrite check_modules_cons.
  destruct (packages d) as [|spec specs]; [contradiction|].
  rewrite check_packages_cons.
  pose proof (stock_interpreter_check importlib_metadata_distribution
                pkg_resources_get_distribution Version SpecifierSet Requirement
                canonicalize_name parse_version specifier_nonempty version_in
                str_of_version str_of_specifier packaging spec) as Hraise.
  destruct (_check_package_installed _ _ _ _ _ _ _ _ _ _ spec) as [l1 r].
  cbn [snd] in Hraise. subst r. reflexivity.
Qed.

(** X21.  On an interpreter that has [importlib.metadata] and no module called
    [importlib_metadata], the analysis returns only when the scan finds no
    requirements; as soon as one module has a requirement, the analysis
    raises [NameError], whatever is installed. *)
Theorem analysis_on_stock_interpreter (packaging : bool) (fs : filesystem)
    (addons_paths : list str) :
  snd (analyze_with (stock_imports packaging) fs addons_paths)
  = match snd (find_requirements fs addons_paths) with
    | [] =>
        Ok {| to_install := []; satisfied := []; errors := [];
              summary_lines :=
                [lit "No 'requirements.txt' files found in any scanned addon modules."] |}
    | _ :: _ => Raise (name_error "pkg_resources")
    end.
Proof. apply stock_analysis. Qed.

End StockAnalysis.

(* ================================================================== *)
(** * Further properties of the installer *)
(* ================================================================== *)

Section InstallMore.
Import Py AddonRequirementsChecker.

Variable sys_executable : str.
Variables world proc : Type.
Variable Popen : world -> list str -> world * result proc.
Variable communicate : world -> proc -> option Z -> world * result (str * str).
Variable returncode : world -> proc -> Z.
Variable poll : world -> proc -> option Z.
Variable kill : world -> proc -> world.

Local Abbreviation install_one :=
  (install_one sys_executable Popen communicate returncode poll kill).
Local Abbreviation install_loop :=
  (install_loop sys_executable Popen communicate returncode poll kill).
Local Abbreviation install_packages :=
  (install_packages sys_executable Popen communicate returncode poll kill).
Local Abbreviation install_handler := (install_handler communicate poll kill).
Local Abbreviation state := (install_state world proc).
Local Abbreviation install_start := (@install_start sys_executable world proc).

Lemma dict_keys_set_fresh {V} (d : dict V) (k : str) (v : V) :
  ~ In k (dict_keys d) -> dict_keys (dict_set d k v) = dict_keys d ++ [k].
Proof.
  unfold dict_keys. induction d as [|[k0 v0] d IH]; intros Hno; [reflexivity|].
  simpl. destruct (str_eqb k0 k) eqn:E.
  - apply str_eqb_eq in E. exfalso. apply Hno. now left.
  - simpl. rewrite IH; [reflexivity|]. intros H. apply Hno. now right.
Qed.

Lemma dict_keys_set_in {V} (d : dict V) (k k' : str) (v : V) :
  In k' (dict_keys (dict_set d k v)) <-> k' = k \/ In k' (dict_keys d).
Proof.
  unfold dict_keys. induction d as [|[k0 v0] d IH]; simpl.
  - split; [intros [H|[]]; auto | intros [H|[]]; auto].
  - destruct (str_eqb k0 k) eqn:E; simpl.
    + apply str_eqb_eq in E. subst k0. split; [tauto|].
      intros [H|H]; [left; congruence | exact H].
    + rewrite IH. tauto.
Qed.

(** A pass either adds the requirement to [success] or stores a reason
    for it in [failed], and makes one of the sequences of calls of
    [pass_calls]. *)
Lemma install_handler_outcome (e : exn) (spec : str) (w : world)
    (process : option proc) (cs : list call) (r : install_result) :
  let st' := install_handler e spec w process cs r in
  success (acc st') = success r
  /\ (exists reason, failed (acc st') = dict_set (failed r) spec reason)
  /\ (calls st' = cs
      \/ (process <> None /\ exn_cls e = TimeoutExpired /\
          (calls st' = cs ++ [CallPoll]
           \/ calls st' = cs ++ [CallPoll; CallKill; CallCommunicate None]))).
Proof.
  unfold AddonRequirementsChecker.install_handler.
  destruct (exn_class_eqb (exn_cls e) TimeoutExpired) eqn:Hcls.
  - assert (Ht : exn_cls e = TimeoutExpired)
      by (destruct (exn_cls e); try discriminate; reflexivity).
    destruct process as [p|]; [destruct (poll w p) as [code|]|].
    + simpl. split; [reflexivity|]. split; [eexists; reflexivity|].
      right. split; [discriminate|]. split; [exact Ht | now left].
    + destruct (communicate (kill w p) p None) as [w' r']. simpl.
      split; [reflexivity|]. split; [eexists; reflexivity|].
      right. split; [discriminate|]. split; [exact Ht | now right].
    + simpl. split; [reflexivity|]. split; [eexists; reflexivity|]. now left.
  - simpl. split; [reflexivity|]. split; [eexists; reflexivity|]. now left.
Qed.

Lemma install_one_outcome (st : state) (spec : str) :
  let st' := install_one st spec in
  ((success (acc st') = success (acc st) ++ [spec]
    /\ failed (acc st') = failed (acc st))
   \/ (success (acc st') = success (acc st)
       /\ exists reason, failed (acc st') = dict_set (failed (acc st)) spec reason))
  /\ exists block,
       calls st' = calls st ++ block
       /\ In block (pass_calls (pip_install sys_executable spec)).
Proof.
  unfold AddonRequirementsChecker.install_one.
  change (pip_executable sys_executable ++ [lit "install"; spec])
    with (pip_install sys_executable spec).
  set (cmd := pip_install sys_executable spec).
  set (r0 := add_log _ (acc st)).
  destruct (Popen (host st) cmd) as [w [process|e]].
  - destruct (communicate w process (Some 300%Z)) as [w' [[stdout stderr]|e]].
    + cbn [calls acc]. split.
      * destruct (returncode w' process =? 0)%Z; simpl.
        -- left. split; reflexivity.
        -- right. split; [reflexivity | eexists; reflexivity].
      * exists [CallPopen cmd; CallCommunicate (Some 300%Z)].
        split; [now rewrite <- app_assoc | simpl; auto].
    + destruct (install_handler_outcome e spec w' (Some process)
                  ((calls st ++ [CallPopen cmd]) ++ [CallCommunicate (Some 300%Z)])
                  r0) as [Hs [Hf Hc]].
      cbv zeta in Hs, Hf, Hc |- *. split.
      * right. split; [exact Hs | exact Hf].
      * destruct Hc as [->|[_ [_ [->| ->]]]]; rewrite <- !app_assoc;
          eexists; (split; [reflexivity|]); simpl; auto 7.
  - destruct (install_handler_outcome e spec w (cur_process st)
                (calls st ++ [CallPopen cmd]) r0) as [Hs [Hf Hc]].
    cbv zeta in Hs, Hf, Hc |- *. split.
    + right. split; [exact Hs | exact Hf].
    + destruct Hc as [->|[_ [_ [->| ->]]]]; rewrite <- ?app_assoc;
        eexists; (split; [reflexivity|]); simpl; auto 7.
Qed.

Lemma install_loop_cons (spec : str) (rest : list str) (st : state) :
  install_loop (spec :: rest) st = install_loop rest (install_one st spec).
Proof. reflexivity. Qed.

Lemma install_loop_accounts (specs : list str) :
  forall (st : state) (done : list str),
    (forall k, In k (success (acc st) ++ dict_keys (failed (acc st)))
               <-> In k done) ->
    let st' := install_loop specs st in
    (forall k, In k (success (acc st') ++ dict_keys (failed (acc st')))
               <-> In k (done ++ specs))
    /\ (NoDup (done ++ specs) ->
        Permutation (success (acc st) ++ dict_keys (failed (acc st))) done ->
        Permutation (success (acc st') ++ dict_keys (failed (acc st')))
                    (done ++ specs)).
Proof.
  induction specs as [|spec rest IH]; intros st done Hin.
  - simpl. rewrite app_nil_r. split; [exact Hin | auto].
  - cbv zeta. rewrite install_loop_cons.
    destruct (install_one_outcome st spec) as [Hout _]. cbv zeta in Hout.
    assert (Hin1 : forall k,
               In k (success (acc (install_one st spec))
                     ++ dict_keys (failed (acc (install_one st spec))))
               <-> In k (done ++ [spec])).
    { intros k. rewrite in_app_iff. rewrite (in_app_iff done).
      specialize (Hin k). rewrite in_app_iff in Hin.
      destruct Hout as [[-> ->]|[-> [reason ->]]].
      - rewrite in_app_iff. simpl. intuition.
      - rewrite dict_keys_set_in. simpl. intuition. }
    destruct (IH (install_one st spec) (done ++ [spec]) Hin1) as [Hall Hperm].
    cbv zeta in Hall, Hperm. rewrite <- app_assoc in Hall, Hperm.
    split; [exact Hall|].
    intros Hnd Hp. apply Hperm; [exact Hnd|].
    assert (Hfresh : ~ In spec (dict_keys (failed (acc st)))).
    { intros Hk. apply NoDup_remove_2 in Hnd. apply Hnd.
      apply in_or_app. left. apply Hin. apply in_or_app. now right. }
    destruct Hout as [[-> ->]|[-> [reason ->]]].
    + rewrite <- app_assoc.
      apply Permutation_trans
        with ((success (acc st) ++ dict_keys (failed (acc st))) ++ [spec]).
      * rewrite <- app_assoc. apply Permutation_app_head. apply Permutation_app_comm.
      * now apply Permutation_app_tail.
    + rewrite dict_keys_set_fresh by exact Hfresh. rewrite app_assoc.
      now apply Permutation_app_tail.
Qed.

Lemma install_accounts (w : world) (specs : list str) :
  let r := acc (install_packages w specs) in
  (forall spec, In spec (success r) \/ In spec (dict_keys (failed r))
                <-> In spec specs)
  /\ (NoDup specs ->
      Permutation (success r ++ dict_keys (failed r)) specs
      /\ NoDup (success r ++ dict_keys (failed r))
      /\ (List.length (success r) + List.length (failed r)
          = List.length specs)%nat).
Proof.
  intros r.
  assert (H : (forall k, In k (success r ++ dict_keys (failed r)) <-> In k specs)
              /\ (NoDup specs ->
                  Permutation (success r ++ dict_keys (failed r)) specs)).
  { subst r. unfold AddonRequirementsChecker.install_packages.
    destruct specs as [|s rest].
    - simpl. split; [tauto | constructor].
    - destruct (install_loop_accounts (s :: rest) (install_start w) [])
        as [Hall Hperm]; [simpl; tauto|].
      split; [exact Hall|]. intros Hnd. apply Hperm; [exact Hnd | constructor]. }
  destruct H as [Hall Hperm]. split.
  - intros spec. rewrite <- Hall, in_app_iff. tauto.
  - intros Hnd. specialize (Hperm Hnd). split; [exact Hperm|]. split.
    + apply (Permutation_NoDup (Permutation_sym Hperm) Hnd).
    + apply Permutation_length in Hperm. rewrite length_app in Hperm.
      unfold dict_keys in Hperm. rewrite length_map in Hperm. exact Hperm.
Qed.

(** X22.  Every requirement handed to [install_packages] ends in [success] or as
    a key of [failed], and nothing else does; when no requirement is listed
    twice, each is in exactly one of the two, and once. *)
Theorem install_packages_accounts_for_every_spec (w : world) (specs : list str) :
  let r := acc (install_packages w specs) in
  (forall spec, In spec (success r) \/ In spec (dict_keys (failed r))
                <-> In spec specs)
  /\ (NoDup specs ->
      Permutation (success r ++ dict_keys (failed r)) specs
      /\ NoDup (success r ++ dict_keys (failed r))
      /\ (List.length (success r) + List.length (failed r)
          = List.length specs)%nat).
Proof. apply install_accounts. Qed.

Lemma install_loop_calls (specs : list str) :
  forall st : state,
    exists blocks,
      calls (install_loop specs st) = calls st ++ List.concat blocks
      /\ Forall2 (fun spec block =>
                    In block (pass_calls (pip_install sys_executable spec)))
                 specs blocks.
Proof.
  induction specs as [|spec rest IH]; intros st.
  - exists []. simpl. rewrite app_nil_r. split; [reflexivity | constructor].
  - rewrite install_loop_cons.
    destruct (install_one_outcome st spec) as [_ [block [Hc Hb]]].
    destruct (IH (install_one st spec)) as [blocks [Hcs Hbs]].
    exists (block :: blocks). split; [|constructor; assumption].
    rewrite Hcs, Hc. simpl. now rewrite app_assoc.
Qed.

(** X23.  The calls that [install_packages] makes are, for each requirement in
    turn, one of the sequences of [pass_calls]: a process is only killed
    right after it has been asked whether it still runs, a killed process
    is collected at once, and every other wait has the limit. *)
Theorem install_packages_calls_by_pass (w : world) (specs : list str) :
  exists blocks,
    calls (install_packages w specs) = List.concat blocks
    /\ Forall2 (fun spec block =>
                  In block (pass_calls (pip_install sys_executable spec)))
               specs blocks.
Proof.
  unfold AddonRequirementsChecker.install_packages.
  destruct specs as [|s rest].
  - exists []. split; [reflexivity | constructor].
  - destruct (install_loop_calls (s :: rest) (install_start w))
      as [blocks [Hc Hb]].
    exists blocks. split; [exact Hc | exact Hb].
Qed.

(** X24.  An exception that is not a timeout, from the start of the process or
    from the wait for it, is stored as the reason of the failure of the
    requirement and written to the log; nothing more is called for the
    requirement, and the loop goes on with the next one. *)
Theorem install_records_unexpected_errors (w : world)
    (before_specs after_specs : list str) (spec : str) (e : exn)
    (made : list call) :
  let before := install_loop before_specs (install_start w) in
  let after := install_one before spec in
  let cmd := pip_install sys_executable spec in
  exn_cls e <> TimeoutExpired ->
  (exists w1, Popen (host before) cmd = (w1, Raise e)
              /\ made = [CallPopen cmd])
  \/ (exists w1 p w2,
        Popen (host before) cmd = (w1, Ok p)
        /\ communicate w1 p (Some 300%Z) = (w2, Raise e)
        /\ made = [CallPopen cmd; CallCommunicate (Some 300%Z)]) ->
  calls after = calls before ++ made
  /\ success (acc after) = success (acc before)
  /\ dict_get (failed (acc after)) spec = Some (exn_msg e)
  /\ last (log_lines (acc after)) [] = unexpected_error_line spec e
  /\ install_packages w (before_specs ++ spec :: after_specs)
     = install_loop after_specs after.
Proof.
  intros before after cmd Hcls Hcase.
  assert (Hne : exn_class_eqb (exn_cls e) TimeoutExpired = false)
    by (destruct (exn_cls e); try reflexivity; contradiction).
  assert (Hrun : install_packages w (before_specs ++ spec :: after_specs)
                 = install_loop after_specs after).
  { unfold AddonRequirementsChecker.install_packages.
    destruct (before_specs ++ spec :: after_specs) eqn:E;
      [destruct before_specs; discriminate|].
    rewrite <- E. unfold AddonRequirementsChecker.install_loop.
    now rewrite fold_left_app. }
  assert (Hafter : after = install_one before spec) by reflexivity.
  unfold AddonRequirementsChecker.install_one in Hafter.
  change (pip_executable sys_executable ++ [lit "install"; spec])
    with cmd in Hafter.
  destruct Hcase as [[w1 [HP ->]]|[w1 [p [w2 [HP [HC ->]]]]]];
    rewrite HP in Hafter; [|rewrite HC in Hafter];
    unfold AddonRequirementsChecker.install_handler in Hafter;
    rewrite Hne in Hafter; rewrite Hafter;
    cbn [acc calls success failed log_lines add_failed add_log];
    (split; [now rewrite <- ?app_assoc|]);
    (split; [reflexivity|]); (split; [apply dict_get_set_same|]);
    (split; [rewrite last_last; reflexivity|]);
    rewrite <- Hafter; exact Hrun.
Qed.

End InstallMore.

(* ================================================================== *)
(** * The actions of the wizard *)
(* ================================================================== *)

Section LogActionFacts.
Import Py LogAnalyzer SetupAssistWizard.

Variable str_lower : str -> str.
Variable str_upper : str -> str.
Variable LOG_LINE_REGEX_match : str -> option str.
Variable re_search : str -> str -> option (list str).

Local Abbreviation line_passes := (line_passes str_lower str_upper LOG_LINE_REGEX_match).
Local Abbreviation filter_lines := (filter_lines str_lower str_upper LOG_LINE_REGEX_match).
Local Abbreviation get_filtered_log_lines :=
  (get_filtered_log_lines str_lower str_upper LOG_LINE_REGEX_match).
Local Abbreviation keyword_passes := (keyword_passes str_lower).
Local Abbreviation action_load_and_analyze_logs :=
  (action_load_and_analyze_logs str_lower str_upper LOG_LINE_REGEX_match re_search).

Lemma filter_lines_cons (level_filter keyword_filter : pyarg) (line : str)
    (rest : list str) :
  filter_lines level_filter keyword_filter (line :: rest)
  = match line_passes level_filter keyword_filter line with
    | (ev, Raise e) => (ev, Raise e)
    | (ev, Ok keep) =>
        match filter_lines level_filter keyword_filter rest with
        | (ev', Raise e) => (ev ++ ev', Raise e)
        | (ev', Ok kept) => (ev ++ ev', Ok (if keep then line :: kept else kept))
        end
    end.
Proof. reflexivity. Qed.

Lemma filter_lines_length (level_filter keyword_filter : pyarg)
    (raw_lines : list str) :
  forall ev kept,
    filter_lines level_filter keyword_filter raw_lines = (ev, Ok kept) ->
    (List.length kept <= List.length raw_lines)%nat.
Proof.
  induction raw_lines as [|line rest IH]; intros ev kept Hrun.
  - simpl in Hrun. injection Hrun as _ <-. simpl. lia.
  - rewrite filter_lines_cons in Hrun.
    destruct (line_passes level_filter keyword_filter line) as [ev1 [keep|e]];
      [|discriminate].
    destruct (filter_lines level_filter keyword_filter rest)
      as [ev2 [kept2|e]]; [|discriminate].
    injection Hrun as _ <-. specialize (IH _ _ eq_refl).
    destruct keep; simpl; lia.
Qed.

(** What [get_filtered_log_lines] returns when it is asked for at least
    one line. *)
Lemma get_filtered_log_lines_answer (fs : filesystem)
    (log_file_path : option str) (num_lines : Z)
    (level_filter keyword_filter : pyarg) (ev : list event)
    (lines : list str) (status : str) :
  (0 < num_lines)%Z ->
  get_filtered_log_lines fs log_file_path num_lines level_filter keyword_filter
  = (ev, Ok (lines, status)) ->
  In status LOG_STATUSES
  /\ lines <> []
  /\ (List.length lines <= Z.to_nat num_lines)%nat.
Proof.
  intros Hn. unfold LogAnalyzer.get_filtered_log_lines, LOG_STATUSES.
  assert (Hone : forall (ev' : list event) (msg st : str),
             In st [lit "success"; lit "no_log_file"; lit "error_reading";
                    lit "empty_after_filter"] ->
             (ev', Ok ([msg], st)) = (ev, Ok (lines, status)) ->
             In status [lit "success"; lit "no_log_file"; lit "error_reading";
                        lit "empty_after_filter"]
             /\ lines <> [] /\ (List.length lines <= Z.to_nat num_lines)%nat).
  { intros ev' msg st Hst H. injection H as _ <- <-.
    split; [exact Hst|]. split; [discriminate|]. simpl. lia. }
  destruct log_file_path as [[|c path]|];
    [apply Hone; simpl; auto | | apply Hone; simpl; auto].
  unfold _efficient_tail.
  destruct (fs (c :: path)) as [| |e|data];
    [apply Hone; simpl; auto | apply Hone; simpl; auto | |].
  - destruct e as [cls msg]. destruct cls; apply Hone; simpl; auto.
  - pose proof (tail_length_bound data num_lines Hn) as Hlen.
    destruct (tail_of_bytes data num_lines) as [|l ls] eqn:Htail;
      [apply Hone; simpl; auto|].
    destruct (filter_lines level_filter keyword_filter (l :: ls))
      as [ev' [[|k ks]|e]] eqn:Hrun; [apply Hone; simpl; auto | | discriminate].
    intros H. injection H as _ <- <-.
    split; [simpl; auto|]. split; [discriminate|].
    pose proof (filter_lines_length _ _ _ _ _ Hrun) as Hk. lia.
Qed.

Lemma lines_to_fetch_positive (w : wizard) : (0 < lines_to_fetch w)%Z.
Proof.
  unfold lines_to_fetch. destruct (Z.gtb_spec (log_lines_to_fetch w) 0); lia.
Qed.

(** X25.  The log action always ends with one of the four statuses of the
    analyzer, never with [not_run].  When the status is [success], what is
    shown are lines joined by newlines, at least one and at most as many
    as the number of lines to fetch, or 200 when that number is not
    positive; the hints are those of [diagnose_logs] for these lines. *)
Theorem log_action_shows_at_most_the_requested_lines (fs : filesystem)
    (logfile data_dir : option str) (w : wizard) :
  let w' := action_load_and_analyze_logs fs logfile data_dir w in
  In (log_analysis_status w') LOG_STATUSES
  /\ (log_analysis_status w' = lit "success" ->
      exists lines,
        lines <> []
        /\ (List.length lines <= Z.to_nat (lines_to_fetch w))%nat
        /\ (Z.to_nat (lines_to_fetch w)
            = if (log_lines_to_fetch w >? 0)%Z
              then Z.to_nat (log_lines_to_fetch w) else 200)%nat
        /\ log_display_content w' = join SetupAssistWizard.NL lines
        /\ log_diagnostic_hints w'
           = join SetupAssistWizard.NL (diagnose_logs re_search lines)).
Proof.
  intros w'. subst w'. unfold SetupAssistWizard.action_load_and_analyze_logs.
  assert (Hpath : snd (_get_log_file_path logfile data_dir) = logfile).
  { unfold _get_log_file_path.
    destruct logfile as [[|c p]|]; try reflexivity.
    destruct data_dir as [[|c' p']|]; try reflexivity.
    destruct (negb _); reflexivity. }
  rewrite Hpath. cbv zeta.
  set (w0 := set_log_view _ _ _ (set_log_file_path_display _ w)).
  assert (Hfetch : lines_to_fetch w0 = lines_to_fetch w) by reflexivity.
  assert (Hno : In (lit "no_log_file") LOG_STATUSES)
    by (right; left; reflexivity).
  assert (Herr : In (lit "error_reading") LOG_STATUSES)
    by (right; right; left; reflexivity).
  destruct logfile as [[|c path]|].
  - split; [exact Hno | discriminate].
  - destruct (LogAnalyzer.get_filtered_log_lines _ _ _ _ _ _ _ _)
      as [ev [[lines status]|e]] eqn:Hrun; cbn [snd].
    + destruct (get_filtered_log_lines_answer _ _ _ _ _ _ _ _
                  (lines_to_fetch_positive w0) Hrun) as [Hst [Hne Hlen]].
      rewrite Hfetch in Hlen.
      destruct (str_eqb status (lit "success")) eqn:Hs.
      * apply str_eqb_eq in Hs. subst status.
        destruct lines as [|l ls]; [contradiction|].
        cbn [log_analysis_status log_display_content log_diagnostic_hints
               set_log_view given].
        split; [left; reflexivity|]. intros _. exists (l :: ls).
        split; [discriminate|]. split; [exact Hlen|]. split.
        { unfold lines_to_fetch. destruct (log_lines_to_fetch w >? 0)%Z; reflexivity. }
        split; [reflexivity|].
        destruct (diagnose_logs re_search (l :: ls)) as [|h hs] eqn:Hd;
          [|reflexivity].
        unfold diagnose_logs in Hd.
        destruct (fst (diagnose_run re_search (l :: ls))); discriminate.
      * apply str_eqb_neq in Hs.
        destruct (str_eqb status (lit "empty_after_filter"));
          cbn [log_analysis_status set_log_view given];
          (split; [exact Hst | intros H; contradiction]).
    + cbn [log_analysis_status set_log_view given].
      split; [exact Herr | discriminate].
  - split; [exact Hno | discriminate].
Qed.

(** *** The filter ['ALL'] of the wizard *)

Lemma line_passes_none (keyword_filter : pyarg) (line : str) :
  snd (line_passes PyNone keyword_filter line)
  = if keyword_passes keyword_filter line
    then match LOG_LINE_REGEX_match line with
         | Some _ =>
             Raise (Exn AttributeError
                      (lit "'NoneType' object has no attribute 'upper'"))
         | None => Ok false
         end
    else Ok false.
Proof.
  unfold LogAnalyzer.line_passes, level_passes.
  destruct (keyword_passes keyword_filter line); [|reflexivity].
  simpl. destruct (LOG_LINE_REGEX_match line); reflexivity.
Qed.

Lemma filter_lines_none (keyword_filter : pyarg) (raw_lines : list str) :
  (snd (filter_lines PyNone keyword_filter raw_lines)
   = Raise (Exn AttributeError (lit "'NoneType' object has no attribute 'upper'"))
   /\ exists line, In line raw_lines
                   /\ keyword_passes keyword_filter line = true
                   /\ LOG_LINE_REGEX_match line <> None)
  \/ (snd (filter_lines PyNone keyword_filter raw_lines) = Ok []
      /\ forall line, In line raw_lines ->
                      keyword_passes keyword_filter line = true ->
                      LOG_LINE_REGEX_match line = None).
Proof.
  induction raw_lines as [|line rest IH].
  - right. split; [reflexivity | intros line []].
  - rewrite filter_lines_cons.
    pose proof (line_passes_none keyword_filter line) as Hline.
    destruct (line_passes PyNone keyword_filter line) as [ev r].
    cbn [snd] in Hline. subst r.
    destruct (keyword_passes keyword_filter line) eqn:Hkw;
      [destruct (LOG_LINE_REGEX_match line) as [level|] eqn:Hm|].
    + left. split; [reflexivity|]. exists line.
      split; [now left|]. split; [exact Hkw | congruence].
    + destruct (filter_lines PyNone keyword_filter rest) as [ev' r'].
      cbn [snd] in IH.
      destruct IH as [[-> [l [Hin [Hk Hl]]]]|[-> Hall]].
      * left. split; [reflexivity|]. exists l. split; [now right | auto].
      * right. split; [reflexivity|].
        intros l [<-|Hin] Hk; [exact Hm | now apply Hall].
    + destruct (filter_lines PyNone keyword_filter rest) as [ev' r'].
      cbn [snd] in IH.
      destruct IH as [[-> [l [Hin [Hk Hl]]]]|[-> Hall]].
      * left. split; [reflexivity|]. exists l. split; [now right | auto].
      * right. split; [reflexivity|].
        intros l [<-|Hin] Hk; [congruence | now apply Hall].
Qed.

(** X26.  With the level filter ['ALL'], which the action hands over as [None],
    the action shows no line of a log that has any: when a fetched line
    passes the keyword test and follows the grammar, the comparison of the
    levels raises and the action reports an error; otherwise every line is
    dropped and the action reports that nothing matches the filters. *)
Theorem log_action_with_all_levels_shows_no_log_line (fs : filesystem)
    (path : str) (data_dir : option str) (w : wizard) (raw_lines : list str) :
  path <> [] ->
  log_level_filter w = lit "ALL" ->
  _efficient_tail fs (Some path) (lines_to_fetch w) = Ok raw_lines ->
  raw_lines <> [] ->
  let w' := action_load_and_analyze_logs fs (Some path) data_dir w in
  (log_analysis_status w' = lit "error_reading"
   /\ log_display_content w'
      = lit "An unexpected error occurred while analyzing logs: 'NoneType' object has no attribute 'upper'"
   /\ exists line, In line raw_lines
                   /\ keyword_passes (keyword_argument w) line = true
                   /\ LOG_LINE_REGEX_match line <> None)
  \/ (log_analysis_status w' = lit "empty_after_filter"
      /\ log_display_content w'
         = lit "No log entries found matching the current filter criteria."
      /\ forall line, In line raw_lines ->
                      keyword_passes (keyword_argument w) line = true ->
                      LOG_LINE_REGEX_match line = None).
Proof.
  intros Hpath Hall Htail Hraw w'. subst w'.
  unfold SetupAssistWizard.action_load_and_analyze_logs.
  assert (Hp : snd (_get_log_file_path (Some path) data_dir) = Some path).
  { unfold _get_log_file_path. destruct path as [|c p]; [contradiction|].
    destruct data_dir as [[|c' p']|]; try reflexivity.
    destruct (negb _); reflexivity. }
  rewrite Hp. cbv zeta.
  set (w0 := set_log_view _ _ _ (set_log_file_path_display _ w)).
  assert (Hlevel : level_argument w0 = PyNone).
  { unfold level_argument.
    change (log_level_filter w0) with (log_level_filter w).
    rewrite Hall. reflexivity. }
  change (lines_to_fetch w0) with (lines_to_fetch w).
  change (keyword_argument w0) with (keyword_argument w).
  rewrite Hlevel. destruct path as [|c p]; [contradiction|].
  unfold LogAnalyzer.get_filtered_log_lines.
  unfold str, codepoint in *. rewrite Htail.
  destruct raw_lines as [|l ls]; [contradiction|].
  destruct (filter_lines_none (keyword_argument w) (l :: ls))
    as [[Hr Hex]|[Hr Hno]].
  - left. destruct (filter_lines PyNone (keyword_argument w) (l :: ls)) as [ev r].
    cbn [snd] in Hr. subst r. cbn [snd].
    split; [reflexivity|]. split; [reflexivity | exact Hex].
  - right. destruct (filter_lines PyNone (keyword_argument w) (l :: ls)) as [ev r].
    cbn [snd] in Hr. subst r. cbn [snd].
    split; [reflexivity|]. split; [reflexivity | exact Hno].
Qed.

End LogActionFacts.

Section SeparatorFacts.
Import Py SetupAssistWizard.
Local Open Scope N_scope.

Lemma contains_unfold (needle hay : str) :
  contains needle hay
  = startswith hay needle
    || match hay with [] => false | _ :: hay' => contains needle hay' end.
Proof. destruct hay; reflexivity. Qed.

Lemma separable_tail (x : codepoint) (s : str) :
  separable (x :: s) -> separable s.
Proof.
  intros [Hc Hl]. rewrite contains_unfold in Hc.
  apply orb_false_iff in Hc as [_ Hc]. split; [exact Hc|].
  destruct s as [|y s]; [reflexivity | exact Hl].
Qed.

Lemma separable_head (x : codepoint) (s rest : str) :
  separable (x :: s) ->
  startswith (x :: s ++ SEPARATOR ++ rest) SEPARATOR = false.
Proof.
  intros [Hc Hl]. rewrite contains_unfold in Hc.
  apply orb_false_iff in Hc as [Hs _].
  change SEPARATOR with [59; 59; 59] in *.
  destruct s as [|y [|z s]].
  - cbn [last] in Hl. cbn [app startswith]. rewrite N.eqb_sym in Hl.
    now rewrite Hl.
  - cbn [last] in Hl. cbn [app startswith]. rewrite N.eqb_sym in Hl.
    rewrite Hl. now rewrite andb_false_r.
  - cbn [app startswith] in Hs |- *. rewrite startswith_nil in *. exact Hs.
Qed.

Lemma split_miss (sep : str) (x : codepoint) (s : str) :
  startswith (x :: s) sep = false ->
  split sep (x :: s)
  = match split sep s with
    | [] => []
    | h :: t => (x :: h) :: t
    end.
Proof.
  unfold split. rewrite split_go_cons. intros ->. now rewrite split_go_cur.
Qed.

Lemma split_at_separator (rest : str) :
  split SEPARATOR (SEPARATOR ++ rest) = [] :: split SEPARATOR rest.
Proof.
  unfold split. change SEPARATOR with [59; 59; 59].
  cbn [app]. rewrite split_go_cons.
  assert (H : startswith (59 :: 59 :: 59 :: rest) [59; 59; 59] = true)
    by (cbn [startswith]; now rewrite !N.eqb_refl, startswith_nil).
  unfold str, codepoint in *. rewrite H. reflexivity.
Qed.

Lemma split_separable_head (s rest : str) :
  separable s ->
  split SEPARATOR (s ++ SEPARATOR ++ rest) = s :: split SEPARATOR rest.
Proof.
  induction s as [|x s IH]; intros Hs.
  - apply split_at_separator.
  - cbn [app]. rewrite split_miss by now apply separable_head.
    rewrite IH by exact (separable_tail _ _ Hs). reflexivity.
Qed.

Lemma split_separable (s : str) : separable s -> split SEPARATOR s = [s].
Proof.
  induction s as [|x s IH]; intros Hs; [reflexivity|].
  rewrite split_miss.
  - now rewrite IH by exact (separable_tail _ _ Hs).
  - destruct Hs as [Hc _]. rewrite contains_unfold in Hc.
    now apply orb_false_iff in Hc as [Hc _].
Qed.

Lemma split_join (specs : list str) :
  specs <> [] -> Forall separable specs ->
  split SEPARATOR (join SEPARATOR specs) = specs.
Proof.
  induction specs as [|s [|s2 rest] IH]; intros Hne Hall; [contradiction| |].
  - simpl. inversion Hall; subst. now apply split_separable.
  - change (join SEPARATOR (s :: s2 :: rest))
      with (s ++ SEPARATOR ++ join SEPARATOR (s2 :: rest)).
    inversion Hall; subst.
    rewrite split_separable_head by assumption.
    now rewrite IH by (discriminate || assumption).
Qed.

Lemma packages_specs_of_list (specs : list str) :
  Forall (fun spec => spec <> [] /\ strip spec = spec) specs ->
  Forall separable specs ->
  packages_specs (packages_to_install_str specs) = specs.
Proof.
  intros Hclean Hsep. unfold packages_specs, packages_to_install_str.
  destruct specs as [|s rest]; [reflexivity|].
  rewrite split_join by (discriminate || assumption).
  induction Hclean as [|x l [Hne Hstrip] _ IH]; [reflexivity|].
  simpl. rewrite Hstrip. destruct x as [|c x]; [contradiction|].
  simpl. rewrite Hstrip. f_equal. apply IH. now inversion Hsep.
Qed.

(** X27.  The list of requirements that the wizard keeps between the scan and
    the installation is read back as it was written, when each requirement
    is not empty, has no white space around it, does not hold the
    separator and does not end with [;]. *)
Theorem packages_list_round_trip (specs : list str) :
  Forall (fun spec => spec <> [] /\ strip spec = spec) specs ->
  Forall separable specs ->
  packages_specs (packages_to_install_str specs) = specs.
Proof. apply packages_specs_of_list. Qed.

End SeparatorFacts.

Section ScanActionFacts.
Import Py AddonRequirementsChecker SetupAssistWizard.

Variable imp : imports.
Variable importlib_metadata_distribution : str -> result str.
Variable pkg_resources_get_distribution : str -> result str.
Variables Version SpecifierSet : Type.
Variable Requirement : str -> result (str * SpecifierSet).
Variable canonicalize_name : str -> str.
Variable parse_version : str -> result Version.
Variable specifier_nonempty : SpecifierSet -> bool.
Variable version_in : Version -> SpecifierSet -> bool.
Variable str_of_version : Version -> str.
Variable str_of_specifier : SpecifierSet -> str.

Local Abbreviation check_spec :=
  (_check_package_installed imp importlib_metadata_distribution
     pkg_resources_get_distribution Requirement canonicalize_name parse_version
     specifier_nonempty version_in str_of_version str_of_specifier).
Local Abbreviation check_of := (fun spec => snd (check_spec spec)).
Local Abbreviation run_analysis :=
  (run_analysis imp importlib_metadata_distribution
     pkg_resources_get_distribution Requirement canonicalize_name parse_version
     specifier_nonempty version_in str_of_version str_of_specifier).
Local Abbreviation action_scan_addon_python_dependencies :=
  (action_scan_addon_python_dependencies imp importlib_metadata_distribution
     pkg_resources_get_distribution Requirement canonicalize_name parse_version
     specifier_nonempty version_in str_of_version str_of_specifier).

Lemma classified_in (b : bucket) (requirements : list (str * str)) (e : entry) :
  In e (classified check_of b requirements) ->
  In (module e, package_spec e) requirements.
Proof.
  unfold classified. rewrite in_flat_map. intros [[m s] [Hin He]].
  cbn [fst snd] in He.
  destruct (snd (check_spec s)) as [c|x]; [|destruct He].
  destruct (bucket_eqb (bucket_of c) b); [|destruct He].
  destruct He as [<-|[]]. exact Hin.
Qed.

Lemma requirements_found_in (modules : dict details) (m s : str) :
  In (m, s) (requirements_found modules) ->
  exists d, In (m, d) modules /\ In s (packages d).
Proof.
  unfold requirements_found. rewrite in_flat_map. intros [[m' d] [Hin Hs]].
  cbn [fst snd] in Hs. apply in_map_iff in Hs as [s' [E Hs']].
  injection E as <- <-. now exists d.
Qed.

Lemma marked_specs_are_clean (fs : filesystem) (addons_paths : list str)
    (l : log) (a : analysis) :
  analyze_dependencies imp importlib_metadata_distribution
    pkg_resources_get_distribution Requirement canonicalize_name parse_version
    specifier_nonempty version_in str_of_version str_of_specifier
    fs addons_paths = (l, Ok a) ->
  Forall (fun spec => spec <> [] /\ strip spec = spec)
         (map package_spec (to_install a)).
Proof.
  intros Hrun.
  destruct (analysis_buckets _ _ _ _ _ _ _ _ _ _ _ _ _ _ _ _ Hrun)
    as [_ [Hins _]].
  rewrite Forall_forall. intros spec Hin.
  apply in_map_iff in Hin as [e [<- He]]. rewrite Hins in He.
  apply classified_in in He.
  apply requirements_found_in in He as [d [Hd Hs]].
  destruct (find_requirements_sound fs addons_paths _ d Hd) as [_ [_ Hclean]].
  rewrite Forall_forall in Hclean. destruct (Hclean _ Hs) as [H1 [H2 _]]. auto.
Qed.

(** X28.  When the analysis returns, the scan action stores the requirements
    marked for installation so that the install action reads back the same
    list, provided none of them holds the separator or ends with [;]; the
    status is [scanned_error] when a check ended in an error, otherwise
    [scanned_ok] when nothing is marked, otherwise [scanned_issues]. *)
Theorem scan_action_hands_over_the_marked_requirements (fs : filesystem)
    (addons_path_setting : str) (w : wizard) (a : analysis) :
  run_analysis fs addons_path_setting = Ok a ->
  let w' := action_scan_addon_python_dependencies fs addons_path_setting w in
  let marked := map package_spec (to_install a) in
  (Forall separable marked ->
   packages_specs (packages_to_install_list w') = marked)
  /\ addon_req_status w'
     = match errors a, marked with
       | _ :: _, _ => lit "scanned_error"
       | [], [] => lit "scanned_ok"
       | [], _ :: _ => lit "scanned_issues"
       end.
Proof.
  intros Hrun w' marked. subst w'.
  unfold SetupAssistWizard.action_scan_addon_python_dependencies.
  rewrite Hrun. fold marked.
  assert (Hclean : Forall (fun spec => spec <> [] /\ strip spec = spec) marked).
  { unfold SetupAssistWizard.run_analysis in Hrun.
    destruct (analyze_dependencies _ _ _ _ _ _ _ _ _ _ fs _) as [l r] eqn:Ha.
    cbn [snd] in Hrun. subst r. exact (marked_specs_are_clean _ _ _ _ Ha). }
  split.
  - intros Hsep. cbv zeta.
    match goal with
    | |- packages_specs (packages_to_install_list ?shown) = _ =>
        assert (Hlist : packages_to_install_list shown
                        = packages_to_install_str marked)
          by (destruct (errors a), marked; reflexivity)
    end.
    rewrite Hlist. now apply packages_specs_of_list.
  - cbv zeta. destruct (errors a), marked; reflexivity.
Qed.

End ScanActionFacts.

Section ScanActionOnStockInterpreter.
Import Py AddonRequirementsChecker SetupAssistWizard Scenario.

Variable importlib_metadata_distribution : str -> result str.
Variable pkg_resources_get_distribution : str -> result str.
Variables Version SpecifierSet : Type.
Variable Requirement : str -> result (str * SpecifierSet).
Variable canonicalize_name : str -> str.
Variable parse_version : str -> result Version.
Variable specifier_nonempty : SpecifierSet -> bool.
Variable version_in : Version -> SpecifierSet -> bool.
Variable str_of_version : Version -> str.
Variable str_of_specifier : SpecifierSet -> str.

Local Abbreviation scan_with imp :=
  (action_scan_addon_python_dependencies imp importlib_metadata_distribution
     pkg_resources_get_distribution Requirement canonicalize_name parse_version
     specifier_nonempty version_in str_of_version str_of_specifier).

(** X29.  On an interpreter that has [importlib.metadata] and no module called
    [importlib_metadata], the scan action ends in one of two ways: when the
    scan finds no requirements, with [scanned_ok]; when it finds any, with
    [scanned_error], the text of the [NameError] as the result of the scan
    and nothing to install. *)
Theorem scan_action_on_stock_interpreter (packaging : bool) (fs : filesystem)
    (addons_path_setting : str) (w : wizard) :
  let w' := scan_with (stock_imports packaging) fs addons_path_setting w in
  match snd (find_requirements fs (snd (_get_addons_paths addons_path_setting))) with
  | [] =>
      addon_req_status w' = lit "scanned_ok"
      /\ addon_req_scan_results w'
         = lit "No 'requirements.txt' files found in any scanned addon modules."
      /\ packages_to_install_list w' = []
  | _ :: _ =>
      addon_req_status w' = lit "scanned_error"
      /\ addon_req_scan_results w'
         = lit "A critical error occurred during scan: name 'pkg_resources' is not defined"
      /\ packages_to_install_list w' = []
  end.
Proof.
  intros w'. subst w'.
  unfold SetupAssistWizard.action_scan_addon_python_dependencies,
    SetupAssistWizard.run_analysis.
  rewrite (stock_analysis importlib_metadata_distribution
             pkg_resources_get_distribution Version SpecifierSet Requirement
             canonicalize_name parse_version specifier_nonempty version_in
             str_of_version str_of_specifier packaging fs).
  destruct (snd (find_requirements fs _)) as [|m rest].
  - split; [reflexivity|]. split; reflexivity.
  - split; [reflexivity|]. split; reflexivity.
Qed.

End ScanActionOnStockInterpreter.

Section InstallActionFacts.
Import Py AddonRequirementsChecker SetupAssistWizard.

Variable sys_executable : str.
Variables world proc : Type.
Variable Popen : world -> list str -> world * result proc.
Variable communicate : world -> proc -> option Z -> world * result (str * str).
Variable returncode : world -> proc -> Z.
Variable poll : world -> proc -> option Z.
Variable kill : world -> proc -> world.

Local Abbreviation install_packages :=
  (install_packages sys_executable Popen communicate returncode poll kill).
Local Abbreviation action_install_addon_python_dependencies :=
  (action_install_addon_python_dependencies sys_executable Popen communicate
     returncode poll kill).

Lemma packages_specs_clean (text : str) :
  Forall (fun spec => spec <> [] /\ strip spec = spec) (packages_specs text).
Proof.
  unfold packages_specs. rewrite Forall_forall. intros spec Hin.
  apply in_map_iff in Hin as [p [<- Hp]]. apply filter_In in Hp as [_ Hp].
  split; [destruct (strip p); [discriminate | discriminate] | apply strip_idem].
Qed.

(** X30.  The install action installs the requirements of the stored list.  When
    none of them fails, the status is [install_done_ok], each of them is in
    [success] and the list is emptied; otherwise the status is
    [install_done_errors] and the list becomes the requirements that
    failed, which the next run of the action reads back, provided none of
    them holds the separator or ends with [;]. *)
Theorem install_action_keeps_what_failed (host : world) (w : wizard) :
  packages_to_install_list w <> [] ->
  let specs := packages_specs (packages_to_install_list w) in
  let st := install_packages host specs in
  let w' := snd (action_install_addon_python_dependencies host w) in
  fst (action_install_addon_python_dependencies host w)
  = AddonRequirementsChecker.host st
  /\ (failed (acc st) = [] ->
      addon_req_status w' = lit "install_done_ok"
      /\ packages_to_install_list w' = []
      /\ forall spec, In spec specs -> In spec (success (acc st)))
  /\ (failed (acc st) <> [] ->
      addon_req_status w' = lit "install_done_errors"
      /\ incl (dict_keys (failed (acc st))) specs
      /\ (Forall separable (dict_keys (failed (acc st))) ->
          packages_specs (packages_to_install_list w')
          = dict_keys (failed (acc st)))).
Proof.
  intros Hlist specs st w'. subst w'.
  unfold SetupAssistWizard.action_install_addon_python_dependencies.
  destruct (packages_to_install_list w) as [|c text] eqn:Htext; [contradiction|].
  cbv zeta. cbn [fst snd].
  change (packages_to_install_list
            (_update_addon_req_ui_fields w None
               (Some [lit "Starting installation..." ++ SetupAssistWizard.NL])
               (Some (lit "install_inprogress")) None))
    with (packages_to_install_list w).
  rewrite Htext. fold specs. fold st.
  destruct (install_accounts sys_executable world proc
              Popen communicate returncode poll kill host specs) as [Hall _].
  cbv zeta in Hall. fold st in Hall.
  split; [reflexivity|]. split.
  - intros Hnone. rewrite Hnone. split; [reflexivity|]. split; [reflexivity|].
    intros spec Hin. apply Hall in Hin. rewrite Hnone in Hin.
    destruct Hin as [Hin|[]]. exact Hin.
  - intros Hsome. destruct (failed (acc st)) as [|[k v] rest] eqn:Hf;
      [contradiction|].
    split; [reflexivity|].
    assert (Hincl : incl (dict_keys ((k, v) :: rest)) specs).
    { intros spec Hin. apply Hall. now right. }
    split; [exact Hincl|].
    intros Hsep. cbn [packages_to_install_list _update_addon_req_ui_fields
                        add_to_install_log given].
    apply packages_specs_of_list; [|exact Hsep].
    pose proof (packages_specs_clean (c :: text)) as Hclean. fold specs in Hclean.
    rewrite Forall_forall in Hclean |- *. intros spec Hin.
    apply Hclean. now apply Hincl.
Qed.

End InstallActionFacts.

(* ================================================================== *)
(** * Examples of the further properties *)
(* ================================================================== *)

Section TailWitnesses.
Import Py LogAnalyzer Scenario Cases.
Local Open Scope Z_scope.

Lemma tail_returns_the_last_lines_witness :
  _efficient_tail (log_fs cut_line_file) (Some log_path) 2
  = Ok (slice_from (- 2) (splitlines (decode_utf8_replace cut_line_file))).
Proof.
  apply tail_returns_the_last_lines.
  - discriminate.
  - reflexivity.
  - vm_compute. reflexivity.
  - intros k Hk Hlt.
    assert (Hlen : Z.of_nat (List.length cut_line_file) = 4098)
      by (vm_compute; reflexivity).
    rewrite Hlen in Hlt |- *.
    assert (Hone : k = 1) by (unfold buffer_size in Hlt; lia).
    subst k. vm_compute. reflexivity.
  - lia.
Defined.

Lemma tail_never_exceeds_the_request_witness :
  _efficient_tail (log_fs short_file) (Some log_path) 1 = Ok [lit "b"]
  /\ (List.length [lit "b"] <= Z.to_nat 1)%nat.
Proof.
  assert (H : _efficient_tail (log_fs short_file) (Some log_path) 1 = Ok [lit "b"])
    by (vm_compute; reflexivity).
  split; [exact H|].
  apply (tail_never_exceeds_the_request (log_fs short_file) (Some log_path) 1
           [lit "b"]); [lia | exact H].
Defined.

Lemma tail_lines_hold_no_line_break_witness :
  _efficient_tail (log_fs two_chunk_file) (Some log_path) 2
  = Ok [lit "a" ++ repeat 98%N 4095]
  /\ Forall no_line_break [lit "a" ++ repeat 98%N 4095].
Proof.
  assert (H : _efficient_tail (log_fs two_chunk_file) (Some log_path) 2
              = Ok [lit "a" ++ repeat 98%N 4095]) by (vm_compute; reflexivity).
  split; [exact H|].
  exact (tail_lines_hold_no_line_break (log_fs two_chunk_file) (Some log_path) 2
           [lit "a" ++ repeat 98%N 4095] H).
Defined.

Lemma tail_reads_one_chunk_when_it_suffices_witness :
  Z.of_nat (List.length long_file) = 5005
  /\ snd (tail_loop (List.length long_file) long_file 2
            (Z.of_nat (List.length long_file)) ([], 0)) = 4096
  /\ tail_of_bytes long_file 2 = [lit "c"; lit "d"]
  /\ List.length (tail_of_bytes long_file 2) = Z.to_nat 2.
Proof.
  destruct (tail_reads_one_chunk_when_it_suffices long_file 2)
    as [Hloop [_ [Hlast _]]].
  - lia.
  - vm_compute. discriminate.
  - destruct (Hlast ltac:(lia)) as [Htail Hcount].
    split; [vm_compute; reflexivity|].
    split; [rewrite Hloop; vm_compute; reflexivity|].
    split; [rewrite Htail; vm_compute; reflexivity | exact Hcount].
Defined.

End TailWitnesses.

Section FilterMoreWitnesses.
Import Py LogAnalyzer Scenario Reference.

Lemma filter_lines_keeps_exactly_witness :
  let raw_lines := splitlines (decode_utf8_replace mixed_file) in
  let line := nth 0 raw_lines [] in
  In line [line]
  <-> In line raw_lines
      /\ keyword_passes ascii_lower PyNone line = true
      /\ (lit "ERROR" = lit "ALL"
          \/ match log_line_level line with
             | Some level => ascii_upper level = ascii_upper (lit "ERROR")
             | None => lit "ERROR" = lit "INFO" \/ lit "ERROR" = lit "DEBUG"
             end).
Proof.
  intros raw_lines line.
  apply (filter_lines_keeps_exactly ascii_lower ascii_upper log_line_level
           (lit "ERROR") PyNone raw_lines [line] line).
  vm_compute. reflexivity.
Defined.

End FilterMoreWitnesses.

Section ScanMoreWitnesses.
Import Py AddonRequirementsChecker Scenario Cases.

Lemma find_requirements_entries_witness :
  let d := module_details example_fs addons (lit "my_module") in
  (exists addons_path,
     In addons_path [addons]
     /\ records example_fs addons_path (lit "my_module")
     /\ d = module_details example_fs addons_path (lit "my_module"))
  /\ packages d <> []
  /\ Forall clean_requirement (packages d).
Proof.
  intros d.
  apply (find_requirements_entries example_fs [addons] (lit "my_module") d).
  vm_compute. left. reflexivity.
Defined.

Lemma find_requirements_last_path_wins_witness :
  records billing_twice_fs addons (lit "billing")
  /\ packages (module_details billing_twice_fs addons (lit "billing"))
     = [lit "requests"]
  /\ dict_get (snd (find_requirements billing_twice_fs
                      ([addons] ++ custom_addons :: [missing_path])))
              (lit "billing")
     = Some {| path := path_join custom_addons (lit "billing");
               requirements_file :=
                 path_join (path_join custom_addons (lit "billing"))
                           (lit "requirements.txt");
               packages := [lit "stripe"] |}.
Proof.
  assert (Hrec : forall p, In p [addons; custom_addons] ->
                           records billing_twice_fs p (lit "billing")).
  { intros p Hp. split; [destruct Hp as [<-|[<-|[]]]; vm_compute; reflexivity|].
    exists [lit "billing"].
    split; [destruct Hp as [<-|[<-|[]]]; vm_compute; reflexivity|].
    split; [left; reflexivity|].
    destruct Hp as [<-|[<-|[]]]; vm_compute; reflexivity. }
  split; [apply Hrec; now left|]. split; [vm_compute; reflexivity|].
  rewrite (find_requirements_last_path_wins billing_twice_fs
             [addons] [missing_path] custom_addons (lit "billing")).
  - vm_compute. reflexivity.
  - apply Hrec. right. now left.
  - intros p [<-|[]] [Hdir _]. vm_compute in Hdir. discriminate.
Defined.

Lemma unreadable_addons_path_is_skipped_witness :
  snd (find_requirements example_fs ([] ++ missing_path :: [addons]))
  = snd (find_requirements example_fs ([] ++ [addons])).
Proof.
  apply (unreadable_addons_path_is_skipped example_fs [] [addons] missing_path).
  left. vm_compute. reflexivity.
Defined.

End ScanMoreWitnesses.

Section CheckerMoreWitnesses.
Import Py AddonRequirementsChecker Scenario Reference Cases.

Lemma name_only_of_versioned_requirement_witness :
  name_only (lit "requests " ++ lit ">=" ++ lit "2.0") = strip (lit "requests ").
Proof.
  apply name_only_of_versioned_requirement.
  - vm_compute. reflexivity.
  - right. left. reflexivity.
  - intros [H|H]; vm_compute in H; discriminate.
Defined.

Local Abbreviation check_with imp :=
  (fun spec =>
     snd (_check_package_installed imp example_registry example_pkg_resources
            reference_Requirement reference_canonicalize_name
            reference_parse_version reference_specifier_nonempty
            reference_version_in reference_str_of_version
            reference_str_of_specifier spec)).

Lemma requirement_is_judged_by_its_version_witness :
  exists c,
    check_with (backport_imports true) (lit "libfoo>=1.2,<2.0") = Ok c
    /\ fst (fst c) = true
    /\ bucket_of c = Satisfied.
Proof.
  destruct (requirement_is_judged_by_its_version (backport_imports true)
              example_registry example_pkg_resources version (list specifier)
              reference_Requirement reference_canonicalize_name
              reference_parse_version reference_specifier_nonempty
              reference_version_in reference_str_of_version
              reference_str_of_specifier
              (lit "libfoo>=1.2,<2.0") (lit "libfoo") (lit "1.5.0")
              (specifier_of (lit "libfoo>=1.2,<2.0")) [1; 5; 0]%N
              eq_refl
              ltac:(vm_compute; reflexivity) ltac:(vm_compute; reflexivity)
              ltac:(vm_compute; reflexivity) ltac:(vm_compute; reflexivity))
    as [c [Hc [Hin [_ [Hsat _]]]]].
  exists c. split; [exact Hc|]. split.
  - rewrite Hin. vm_compute. reflexivity.
  - apply Hsat. vm_compute. reflexivity.
Defined.

Lemma missing_distribution_is_marked_for_installation_witness :
  exists c,
    check_with (backport_imports true) (lit "libbar") = Ok c
    /\ fst c = (false, lit "Not installed")
    /\ bucket_of c = ToInstall.
Proof.
  apply (missing_distribution_is_marked_for_installation (backport_imports true)
           example_registry example_pkg_resources version (list specifier)
           reference_Requirement reference_canonicalize_name
           reference_parse_version reference_specifier_nonempty
           reference_version_in reference_str_of_version
           reference_str_of_specifier eq_refl (lit "libbar")
           (Exn PackageNotFoundError
                (lit "No package metadata was found for libbar"))).
  - vm_compute. reflexivity.
  - reflexivity.
Defined.

Lemma version_is_ignored_without_parsed_requirement_witness :
  check_with (backport_imports false) (lit "libfoo" ++ lit "==" ++ lit "9.9")
  = Ok (true, lit "1.5.0", None).
Proof.
  apply (proj1 (version_is_ignored_without_parsed_requirement
                  (backport_imports false)
                  example_registry example_pkg_resources version (list specifier)
                  reference_Requirement reference_canonicalize_name
                  reference_parse_version reference_specifier_nonempty
                  reference_version_in reference_str_of_version
                  reference_str_of_specifier
                  (lit "libfoo") (lit "==") (lit "9.9") (lit "1.5.0")
                  ltac:(vm_compute; reflexivity)
                  ltac:(left; reflexivity)
                  ltac:(intros [H|H]; vm_compute in H; discriminate))).
  - reflexivity.
  - vm_compute. reflexivity.
Defined.

Local Abbreviation example_run :=
  (analyze_dependencies (backport_imports true) example_registry
     example_pkg_resources reference_Requirement reference_canonicalize_name
     reference_parse_version reference_specifier_nonempty reference_version_in
     reference_str_of_version reference_str_of_specifier example_fs [addons]).

Lemma analysis_sorts_every_requirement_witness :
  let a := returned example_run in
  let requirements := requirements_found (snd (find_requirements example_fs [addons])) in
  satisfied a = classified (check_with (backport_imports true)) Satisfied requirements
  /\ to_install a
     = classified (check_with (backport_imports true)) ToInstall requirements
  /\ errors a
     = classified (check_with (backport_imports true)) CheckFailed requirements
  /\ (List.length (satisfied a) + List.length (to_install a)
      + List.length (errors a) = List.length requirements)%nat.
Proof.
  intros a.
  apply (analysis_sorts_every_requirement (backport_imports true)
           example_registry example_pkg_resources version (list specifier)
           reference_Requirement reference_canonicalize_name
           reference_parse_version reference_specifier_nonempty
           reference_version_in reference_str_of_version
           reference_str_of_specifier example_fs [addons] (fst example_run) a).
  vm_compute. reflexivity.
Defined.

Lemma summary_never_reports_an_empty_module_witness :
  In (lit "Module: 'my_module'") (summary_lines (returned example_run))
  /\ lit "Module: 'my_module'" <> NO_PACKAGES_LINE.
Proof.
  assert (Hin : In (lit "Module: 'my_module'")
                   (summary_lines (returned example_run)))
    by (vm_compute; right; left; reflexivity).
  split; [exact Hin|].
  apply (summary_never_reports_an_empty_module (backport_imports true)
           example_registry example_pkg_resources version (list specifier)
           reference_Requirement reference_canonicalize_name
           reference_parse_version reference_specifier_nonempty
           reference_version_in reference_str_of_version
           reference_str_of_specifier example_fs [addons] (fst example_run)
           (returned example_run) (lit "Module: 'my_module'")).
  - vm_compute. reflexivity.
  - exact Hin.
Defined.

End CheckerMoreWitnesses.

Section InstallMoreWitnesses.
Import Py AddonRequirementsChecker Scenario Reference Cases.

Lemma install_records_unexpected_errors_witness :
  let before :=
    install_loop python scripted_Popen scripted_communicate scripted_returncode
      scripted_poll scripted_kill []
      (@install_start python script fate [CannotStart no_interpreter]) in
  let after :=
    install_one python scripted_Popen scripted_communicate scripted_returncode
      scripted_poll scripted_kill before (lit "A") in
  calls after = calls before ++ [CallPopen (pip_install python (lit "A"))]
  /\ success (acc after) = success (acc before)
  /\ dict_get (failed (acc after)) (lit "A") = Some (exn_msg no_interpreter)
  /\ last (log_lines (acc after)) [] = unexpected_error_line (lit "A") no_interpreter
  /\ install_packages python scripted_Popen scripted_communicate
       scripted_returncode scripted_poll scripted_kill
       [CannotStart no_interpreter] ([] ++ lit "A" :: [])
     = install_loop python scripted_Popen scripted_communicate
         scripted_returncode scripted_poll scripted_kill [] after.
Proof.
  apply (install_records_unexpected_errors python script fate scripted_Popen
           scripted_communicate scripted_returncode scripted_poll scripted_kill
           [CannotStart no_interpreter] [] [] (lit "A") no_interpreter).
  - discriminate.
  - left. exists []. split; reflexivity.
Defined.

End InstallMoreWitnesses.

Section WizardWitnesses.
Import Py LogAnalyzer AddonRequirementsChecker SetupAssistWizard.
Import Scenario Reference Cases.

Lemma log_action_with_all_levels_shows_no_log_line_witness :
  let w' :=
    action_load_and_analyze_logs ascii_lower ascii_upper log_line_level
      literal_search (log_fs mixed_file) (Some log_path) None fresh_wizard in
  log_analysis_status w' = lit "error_reading"
  /\ log_display_content w'
     = lit "An unexpected error occurred while analyzing logs: 'NoneType' object has no attribute 'upper'".
Proof.
  intros w'.
  destruct (log_action_with_all_levels_shows_no_log_line ascii_lower ascii_upper
              log_line_level literal_search (log_fs mixed_file) log_path None
              fresh_wizard (splitlines (decode_utf8_replace mixed_file))
              ltac:(discriminate) eq_refl
              ltac:(vm_compute; reflexivity) ltac:(vm_compute; discriminate))
    as [[Hs [Hc _]]|[Hs _]].
  - split; [exact Hs | exact Hc].
  - vm_compute in Hs. discriminate.
Defined.

Lemma packages_list_round_trip_witness :
  packages_specs (packages_to_install_str [lit "libbar"; lit "libfoo>=1.2,<2.0"])
  = [lit "libbar"; lit "libfoo>=1.2,<2.0"].
Proof.
  apply packages_list_round_trip.
  - repeat constructor; try discriminate; vm_compute; reflexivity.
  - repeat constructor; vm_compute; reflexivity.
Defined.

Local Abbreviation example_run :=
  (analyze_dependencies (backport_imports true) example_registry
     example_pkg_resources reference_Requirement reference_canonicalize_name
     reference_parse_version reference_specifier_nonempty reference_version_in
     reference_str_of_version reference_str_of_specifier example_fs [addons]).

Lemma scan_action_hands_over_the_marked_requirements_witness :
  let w' :=
    action_scan_addon_python_dependencies (backport_imports true)
      example_registry example_pkg_resources reference_Requirement
      reference_canonicalize_name reference_parse_version
      reference_specifier_nonempty reference_version_in
      reference_str_of_version reference_str_of_specifier
      example_fs addons fresh_wizard in
  packages_specs (packages_to_install_list w') = [lit "libbar"]
  /\ addon_req_status w' = lit "scanned_issues".
Proof.
  intros w'.
  destruct (scan_action_hands_over_the_marked_requirements
              (backport_imports true) example_registry example_pkg_resources
              version (list specifier) reference_Requirement
              reference_canonicalize_name reference_parse_version
              reference_specifier_nonempty reference_version_in
              reference_str_of_version reference_str_of_specifier
              example_fs addons fresh_wizard (returned example_run)
              ltac:(vm_compute; reflexivity))
    as [Hlist Hstatus].
  split.
  - apply Hlist. repeat constructor; vm_compute; reflexivity.
  - exact Hstatus.
Defined.

Lemma install_action_keeps_what_failed_witness :
  let result :=
    action_install_addon_python_dependencies python scripted_Popen
      scripted_communicate scripted_returncode scripted_poll scripted_kill
      [Exits 0 (lit "ok") []; Hangs] wizard_with_two_marked in
  addon_req_status (snd result) = lit "install_done_errors"
  /\ packages_specs (packages_to_install_list (snd result)) = [lit "B"].
Proof.
  intros result.
  destruct (install_action_keeps_what_failed python script fate scripted_Popen
              scripted_communicate scripted_returncode scripted_poll
              scripted_kill [Exits 0 (lit "ok") []; Hangs] wizard_with_two_marked
              ltac:(vm_compute; discriminate))
    as [_ [_ Hfailed]].
  destruct (Hfailed ltac:(vm_compute; discriminate)) as [Hstatus [_ Hlist]].
  subst result. split; [exact Hstatus|].
  rewrite Hlist; [vm_compute; reflexivity|].
  repeat constructor; vm_compute; reflexivity.
Defined.

End WizardWitnesses.
